(** * pacman_contest_cluster.py: settings loading and the top-level contest loop

    A shallow embedding of [load_settings] and of the [__main__] block of
    [src/pacman_contest_cluster.py], and the properties of the specification
    that are decided by that file.

    Layout of the development:
    - [json]: the values a settings dictionary holds (what [json.load] gives);
    - Python built-ins the script calls ([int], [str.split], [os.path.join],
      truthiness, [==] against an integer);
    - [Prog]: a state-and-error monad for code that logs, touches the file
      system, exits or raises;
    - [parse_args]: the [argparse] declarations of lines 52-169;
    - [load_settings]: lines 171-318;
    - [main]: lines 324-362, over the collaborators the script imports
      ([Host], [MultiContest], [HtmlGenerator]);
    - the theorems. *)

From Stdlib Require Import ZArith List Ascii String.
From stdpp Require Import base option gmap strings list fin_maps.

Local Open Scope string_scope.
Local Open Scope Z_scope.
Local Open Scope list_scope.

(** ** JSON values

    [json.load] yields [None], booleans, integers, strings, lists and
    dictionaries (floating-point numbers are left out of the model).  A
    dictionary is a finite map: [json.load] keeps the last binding of a
    repeated key. *)

#[local] Set Warnings "-register-all".
Inductive json : Type :=
| JNull
| JBool (b : bool)
| JInt (z : Z)
| JStr (s : string)
| JList (l : list json)
| JObj (m : gmap string json).

(** The settings dictionary of the script. *)
Abbreviation settings := (gmap string json).

(** Exceptions the script can let escape. *)
Inductive exn : Type :=
| KeyError (key : string)
| TypeError
| ValueError
| FileNotFoundError (path : string)
| IsADirectoryError (path : string)
| NotADirectoryError (path : string)
| OSError
| ExternalError (tag : string).

(** How a piece of the script ends: it yields a value, calls [sys.exit], or
    an exception escapes. *)
Inductive result (A : Type) : Type :=
| Ok (a : A)
| Exit (code : Z)
| Raise (e : exn).
Arguments Ok {A} a.
Arguments Exit {A} code.
Arguments Raise {A} e.

(** Sequencing of code that touches no state. *)
Definition rbind {A B} (r : result A) (k : A -> result B) : result B :=
  match r with
  | Ok a => k a
  | Exit c => Exit c
  | Raise e => Raise e
  end.

Declare Scope result_scope.
Delimit Scope result_scope with res.
Notation "x <- m ;; k" := (rbind m (fun x => k))
  (at level 100, m at next level, right associativity) : result_scope.

(** ** Python built-ins *)

Module Py.

(** [x == n] for a JSON value [x] and an integer [n]: booleans are the
    integers 0 and 1, every other kind of value differs from an integer. *)
Definition eq_int (x : json) (n : Z) : bool :=
  match x with
  | JInt z => z =? n
  | JBool b => (if b then 1 else 0) =? n
  | _ => false
  end.

(** [if x:] for an optional string [x]: [None] and the empty string are
    falsy.  [given x] is the value of a truthy [x]. *)
Definition given (o : option string) : option string :=
  match o with
  | Some (String c rest) => Some (String c rest)
  | _ => None
  end.

Definition truthy (o : option string) : bool :=
  match given o with
  | Some _ => true
  | None => false
  end.

(** [d[key]] on a JSON value. *)
Definition getitem (d : json) (key : string) : result json :=
  match d with
  | JObj m => match m !! key with
              | Some v => Ok v
              | None => Raise (KeyError key)
              end
  | _ => Raise TypeError
  end.

(** [{**d}]: only a mapping can be unpacked into a dictionary. *)
Definition as_mapping (d : json) : result settings :=
  match d with
  | JObj m => Ok m
  | _ => Raise TypeError
  end.

(** [s.split(",")]. *)
Fixpoint split_comma_aux (s : string) (cur : string) : list string :=
  match s with
  | EmptyString => [String.rev cur]
  | String c rest =>
      if Ascii.eqb c ","%char
      then String.rev cur :: split_comma_aux rest EmptyString
      else split_comma_aux rest (String c cur)
  end.

Definition str_split_comma (s : string) : list string :=
  split_comma_aux s EmptyString.

(** [int(s)]: optional surrounding white space, an optional sign, decimal
    digits with single underscores allowed between digits, and at most
    [max_str_digits] digits (the default of [sys.get_int_max_str_digits()],
    which counts leading zeros and leaves out sign, underscores and white
    space).  [None] stands for [ValueError].  Only ASCII white space and
    ASCII digits are recognised, so that whatever text [int] accepts here,
    Python accepts with the same value; text that Python accepts for its
    white space or digits outside ASCII is rejected here. *)
Definition is_space (c : ascii) : bool :=
  let n := nat_of_ascii c in
  (((9 <=? n) && (n <=? 13)) || (n =? 32))%nat.

Definition digit_of (c : ascii) : option Z :=
  let n := nat_of_ascii c in
  if ((48 <=? n) && (n <=? 57))%nat then Some (Z.of_nat n - 48) else None.

Fixpoint lstrip (s : string) : string :=
  match s with
  | String c rest => if is_space c then lstrip rest else s
  | EmptyString => EmptyString
  end.

Definition strip (s : string) : string :=
  String.rev (lstrip (String.rev (lstrip s))).

(** [digits acc after_digit s]: [after_digit] tells whether the previous
    character was a digit (the only place an underscore may follow). *)
Fixpoint digits (acc : Z) (after_digit : bool) (s : string) : option Z :=
  match s with
  | EmptyString => if after_digit then Some acc else None
  | String c rest =>
      match digit_of c with
      | Some d => digits (10 * acc + d) true rest
      | None =>
          if Ascii.eqb c "_"%char && after_digit
          then match rest with
               | String c' _ =>
                   match digit_of c' with
                   | Some _ => digits acc false rest
                   | None => None
                   end
               | EmptyString => None
               end
          else None
      end
  end.

Definition max_str_digits : Z := 4300.

Fixpoint count_digits (s : string) : Z :=
  match s with
  | EmptyString => 0
  | String c rest =>
      match digit_of c with
      | Some _ => 1 + count_digits rest
      | None => count_digits rest
      end
  end.

Definition int (s : string) : option Z :=
  let body := strip s in
  if max_str_digits <? count_digits body
  then None
  else match body with
       | String "-"%char rest => Z.opp <$> digits 0 false rest
       | String "+"%char rest => digits 0 false rest
       | _ => digits 0 false body
       end.

(** [os.path.join(a, b)] on POSIX paths. *)
Definition ends_with_slash (a : string) : bool :=
  match String.rev a with
  | String c _ => Ascii.eqb c "/"%char
  | EmptyString => false
  end.

Definition path_join (a b : string) : string :=
  match b with
  | String "/"%char _ => b
  | _ => match a with
         | EmptyString => b
         | _ => if ends_with_slash a then a +:+ b else a +:+ "/" +:+ b
         end
  end.

End Py.

(** ** Programs: state, [sys.exit] and exceptions

    [Prog St A] is a computation over a state [St] that ends as a [result].
    The state is kept in every case, so that what was logged before an exit
    stays observable. *)

Definition Prog (St A : Type) : Type := St -> result A * St.

Definition ret {St A} (a : A) : Prog St A := fun s => (Ok a, s).

Definition bind {St A B} (m : Prog St A) (k : A -> Prog St B) : Prog St B :=
  fun s =>
    match m s with
    | (Ok a, s') => k a s'
    | (Exit c, s') => (Exit c, s')
    | (Raise e, s') => (Raise e, s')
    end.

Definition sys_exit {St A} (code : Z) : Prog St A := fun s => (Exit code, s).

Definition raise {St A} (e : exn) : Prog St A := fun s => (Raise e, s).

Definition lift_result {St A} (r : result A) : Prog St A := fun s => (r, s).

Definition when {St} (c : bool) (m : Prog St unit) : Prog St unit :=
  if c then m else ret tt.

Declare Scope prog_scope.
Delimit Scope prog_scope with prog.
Notation "x <- m ;; k" := (bind m (fun x => k))
  (at level 100, m at next level, right associativity) : prog_scope.
Notation "m ;; k" := (bind m (fun _ => k))
  (at level 100, right associativity) : prog_scope.
Local Open Scope prog_scope.

(** ** The world of [load_settings]: file system and console *)

(** A path names a directory or a file; a file holds JSON text ([Some]) or
    text that [json.load] rejects ([None]). *)
Inductive node : Type :=
| Dir
| File (content : option json).

Inductive level : Type := INFO | WARNING | ERROR.

(** The messages of the script, with the values they are formatted from. *)
Inductive message : Type :=
| MsgResumeConfigNotAvailable (path : string)
| MsgSplitMismatch (cli_split : Z) (stored : json)
| MsgIgnoringConfigFile
| MsgConfigNotAvailable (path : string)
| MsgMissingParameters (keys : list string)
| MsgDumpingOptions (path : string)
| MsgHostWorkers (workers_details : json)
| MsgWillCreateRunner (s : settings)
| MsgWebPagesGenerated.

Inductive output : Type :=
| Stdout (text : string)
| PrintHelp
| UsageError
| Log (lv : level) (msg : message).

Record world : Type := World {
  fs : gmap string node;
  console : list output
}.

Definition emit (o : output) : Prog world unit :=
  fun w => (Ok tt, World (fs w) (console w ++ [o])).

(** [logging.basicConfig(level=logging.INFO)]: [logging.debug] emits nothing,
    so the two [logging.debug] calls of [load_settings] have no counterpart
    below. *)
Definition logging_info (m : message) : Prog world unit := emit (Log INFO m).
Definition logging_warning (m : message) : Prog world unit := emit (Log WARNING m).
Definition logging_error (m : message) : Prog world unit := emit (Log ERROR m).

(** [os.path.exists(path)]. *)
Definition path_exists (path : string) : Prog world bool :=
  fun w => (Ok (bool_decide (is_Some (fs w !! path))), w).

(** [with open(path, "r") as f: json.load(f)]. *)
Definition json_load (path : string) : Prog world json :=
  fun w =>
    match fs w !! path with
    | None => (Raise (FileNotFoundError path), w)
    | Some Dir => (Raise (IsADirectoryError path), w)
    | Some (File None) => (Raise ValueError, w)
    | Some (File (Some j)) => (Ok j, w)
    end.

(** [os.path.dirname(path)]: the text up to the last slash, without the
    slashes that end it unless it is made of slashes only. *)
Fixpoint from_slash (reversed : string) : string :=
  match reversed with
  | EmptyString => EmptyString
  | String c rest => if Ascii.eqb c "/"%char then reversed else from_slash rest
  end.

Fixpoint lstrip_slashes (s : string) : string :=
  match s with
  | String c rest => if Ascii.eqb c "/"%char then lstrip_slashes rest else s
  | EmptyString => EmptyString
  end.

Definition dirname (path : string) : string :=
  let head := from_slash (String.rev path) in
  match lstrip_slashes head with
  | EmptyString => String.rev head
  | stripped => String.rev stripped
  end.

(** The directories that are always there: the current directory (an empty
    directory part, or [.]) and the root (a directory part made of slashes). *)
Definition always_there (directory : string) : bool :=
  match lstrip_slashes directory with
  | EmptyString => true
  | stripped => String.eqb stripped "."
  end.

(** [open(path, "w")], as far as it can fail.  Paths are taken as written
    (no [..] and no symbolic link is resolved).  An existing file is
    truncated and a directory refused; a new file needs its directory.
    (Permissions and full disks are not part of the file-system model.) *)
Definition open_for_writing (files : gmap string node) (path : string) : result unit :=
  match files !! path with
  | Some Dir => Raise (IsADirectoryError path)
  | Some (File _) => Ok tt
  | None =>
      if bool_decide (path = EmptyString) then Raise (FileNotFoundError path)
      else if Py.ends_with_slash path then Raise (IsADirectoryError path)
      else if always_there (dirname path) then Ok tt
      else match files !! dirname path with
           | Some Dir => Ok tt
           | Some (File _) => Raise (NotADirectoryError path)
           | None => Raise (FileNotFoundError path)
           end
  end.

(** [with open(path, "w") as f: json.dump(d, f, ...)]. *)
Definition json_dump (d : settings) (path : string) : Prog world unit :=
  fun w =>
    match open_for_writing (fs w) path with
    | Ok _ => (Ok tt, World (<[path := File (Some (JObj d))]> (fs w)) (console w))
    | Exit c => (Exit c, w)
    | Raise e => (Raise e, w)
    end.

(** ** The command line (lines 52-169)

    One constructor per option that [load_settings] declares, plus [-h] that
    [argparse] adds; the command line is the list of options given, in
    order.  [len(sys.argv) == 1] is the empty list. *)

Inductive cli_arg : Type :=
| Help
| ConfigFile (v : string)
| Organizer (v : string)
| WwwDir (v : string)
| StatsArchiveDir (v : string)
| ReplaysArchiveDir (v : string)
| LogsArchiveDir (v : string)
| CompressLogs
| WorkersFile (v : string)
| TeamsRoot (v : string)
| TeamNamesFile (v : string)
| StaffTeamsDir (v : string)
| StaffTeamsVsOthersOnly
| MaxSteps (v : string)
| NoFixedLayouts (v : string)
| FixedLayoutSeeds (v : string)
| FixedLayoutsFile (v : string)
| NoRandomLayouts (v : string)
| RandomLayoutSeeds (v : string)
| ResumeContestFolder (v : string)
| AllowNonRegisteredStudents
| BuildConfigFile (v : string)
| UploadReplays
| UploadLogs
| UploadAll
| Split (v : string).

(** The namespace [parser.parse_args()] returns. *)
Record args : Type := Args {
  config_file : option string;
  organizer : string;
  www_dir : option string;
  stats_archive_dir : option string;
  replays_archive_dir : option string;
  logs_archive_dir : option string;
  compress_logs : bool;
  workers_file : option string;
  teams_root : option string;
  team_names_file : option string;
  staff_teams_dir : option string;
  staff_teams_vs_others_only : bool;
  max_steps : option string;
  no_fixed_layouts : option string;
  fixed_layout_seeds : option string;
  fixed_layouts_file : option string;
  no_random_layouts : option string;
  random_layout_seeds : option string;
  resume_contest_folder : option string;
  allow_non_registered_students : bool;
  build_config_file : option string;
  upload_replays : bool;
  upload_logs : bool;
  upload_all : bool;
  split : Z
}.

(** The value of the last occurrence of an option, if it occurs. *)
Fixpoint last_value (sel : cli_arg -> option string) (argv : list cli_arg)
  : option string :=
  match argv with
  | [] => None
  | a :: rest =>
      match last_value sel rest with
      | Some v => Some v
      | None => sel a
      end
  end.

(** Whether a [store_true] flag occurs. *)
Definition flag_given (is_flag : cli_arg -> bool) (argv : list cli_arg) : bool :=
  existsb is_flag argv.

(** [argparse] handles the options from left to right: [-h] prints the help
    and exits with status 0; a [--split] value that [int] rejects is a usage
    error, exit status 2.  A command line is a list of well-formed options:
    the other usage errors of [argparse] (an unknown or ambiguous option, an
    option without its value, a stray argument), on which it also exits with
    status 2, have no counterpart in [cli_arg], and the statements below
    speak of the command lines [cli_arg] can express. *)
Fixpoint parse_stop (argv : list cli_arg) : option (output * Z) :=
  match argv with
  | [] => None
  | Help :: _ => Some (PrintHelp, 0)
  | Split v :: rest =>
      match Py.int v with
      | Some _ => parse_stop rest
      | None => Some (UsageError, 2)
      end
  | _ :: rest => parse_stop rest
  end.

Definition namespace (argv : list cli_arg) : args :=
  {| config_file := last_value (fun a => match a with ConfigFile v => Some v | _ => None end) argv;
     organizer :=
       default "Uni Pacman"
         (last_value (fun a => match a with Organizer v => Some v | _ => None end) argv);
     www_dir := last_value (fun a => match a with WwwDir v => Some v | _ => None end) argv;
     stats_archive_dir :=
       last_value (fun a => match a with StatsArchiveDir v => Some v | _ => None end) argv;
     replays_archive_dir :=
       last_value (fun a => match a with ReplaysArchiveDir v => Some v | _ => None end) argv;
     logs_archive_dir :=
       last_value (fun a => match a with LogsArchiveDir v => Some v | _ => None end) argv;
     compress_logs :=
       flag_given (fun a => match a with CompressLogs => true | _ => false end) argv;
     workers_file :=
       last_value (fun a => match a with WorkersFile v => Some v | _ => None end) argv;
     teams_root := last_value (fun a => match a with TeamsRoot v => Some v | _ => None end) argv;
     team_names_file :=
       last_value (fun a => match a with TeamNamesFile v => Some v | _ => None end) argv;
     staff_teams_dir :=
       last_value (fun a => match a with StaffTeamsDir v => Some v | _ => None end) argv;
     staff_teams_vs_others_only :=
       flag_given (fun a => match a with StaffTeamsVsOthersOnly => true | _ => false end) argv;
     max_steps := last_value (fun a => match a with MaxSteps v => Some v | _ => None end) argv;
     no_fixed_layouts :=
       last_value (fun a => match a with NoFixedLayouts v => Some v | _ => None end) argv;
     fixed_layout_seeds :=
       last_value (fun a => match a with FixedLayoutSeeds v => Some v | _ => None end) argv;
     fixed_layouts_file :=
       last_value (fun a => match a with FixedLayoutsFile v => Some v | _ => None end) argv;
     no_random_layouts :=
       last_value (fun a => match a with NoRandomLayouts v => Some v | _ => None end) argv;
     random_layout_seeds :=
       last_value (fun a => match a with RandomLayoutSeeds v => Some v | _ => None end) argv;
     resume_contest_folder :=
       last_value (fun a => match a with ResumeContestFolder v => Some v | _ => None end) argv;
     allow_non_registered_students :=
       flag_given (fun a => match a with AllowNonRegisteredStudents => true | _ => false end) argv;
     build_config_file :=
       last_value (fun a => match a with BuildConfigFile v => Some v | _ => None end) argv;
     upload_replays :=
       flag_given (fun a => match a with UploadReplays => true | _ => false end) argv;
     upload_logs := flag_given (fun a => match a with UploadLogs => true | _ => false end) argv;
     upload_all := flag_given (fun a => match a with UploadAll => true | _ => false end) argv;
     split :=
       default 0
         (last_value (fun a => match a with Split v => Some v | _ => None end) argv
            ≫= Py.int) |}.

Definition parse_args (argv : list cli_arg) : Prog world args :=
  match parse_stop argv with
  | Some (o, code) => emit o ;; sys_exit code
  | None => ret (namespace argv)
  end.

(** ** [load_settings] (lines 171-318) *)

(** The names that [from config import *] brings in.  The module [config] is
    not among the sources, so its constants are parameters of the
    development; only [DEFAULT_CONFIG_FILE] has a type the script relies on
    (it is joined to a path). *)
Record config : Type := Config {
  DEFAULT_FIXED_LAYOUTS : json;
  DEFAULT_RANDOM_LAYOUTS : json;
  DEFAULT_MAX_STEPS : json;
  DEFAULT_LAYOUTS_ZIP_FILE : json;
  DEFAULT_CONFIG_FILE : string
}.

(** [d[k] = v], possibly guarded. *)
Definition setitem (k : string) (v : json) (d : settings) : settings := <[k := v]> d.

Definition set_if (c : bool) (k : string) (v : json) (d : settings) : settings :=
  if c then setitem k v d else d.

(** [if args.x: d[k] = f(args.x)] for a string option, and its instance
    [if args.x: d[k] = args.x]. *)
Definition set_given (o : option string) (k : string) (f : string -> json) (d : settings)
  : settings :=
  match Py.given o with
  | Some v => setitem k (f v) d
  | None => d
  end.

Definition set_str (o : option string) (k : string) (d : settings) : settings :=
  set_given o k JStr d.

Definition int_or_raise (s : string) : result json :=
  match Py.int s with
  | Some z => Ok (JInt z)
  | None => Raise ValueError
  end.

(** [if args.x: d[k] = int(args.x)]. *)
Definition set_int (o : option string) (k : string) (d : settings) : result settings :=
  match Py.given o with
  | Some text => (v <- int_or_raise text ;; Ok (setitem k v d))%res
  | None => Ok d
  end.

(** [[int(x) for x in xs]]. *)
Fixpoint ints_or_raise (xs : list string) : result (list json) :=
  match xs with
  | [] => Ok []
  | x :: rest =>
      (v <- int_or_raise x ;;
       vs <- ints_or_raise rest ;;
       Ok (v :: vs))%res
  end.

(** [{**a, **b}]: the bindings of [b] win. *)
Definition dict_merge (a b : settings) : settings := b ∪ a.

Section LoadSettings.

Variable cfg : config.

(** Lines 177-193. *)
Definition settings_default (a : args) : settings :=
  let d := ∅ in
  let d := setitem "no_fixed_layouts" (DEFAULT_FIXED_LAYOUTS cfg) d in
  let d := setitem "no_random_layouts" (DEFAULT_RANDOM_LAYOUTS cfg) d in
  let d := setitem "max_steps" (DEFAULT_MAX_STEPS cfg) d in
  let d := setitem "fixed_layouts_file" (DEFAULT_LAYOUTS_ZIP_FILE cfg) d in
  let d := setitem "resume_contest_folder" JNull d in
  let d := setitem "include_staff_team" (JBool false) d in
  let d := setitem "staff_teams_dir" JNull d in
  let d := setitem "staff_teams_vs_others_only" (JBool false) d in
  let d := setitem "ignore_file_name_format" (JBool true) d in
  let d := setitem "team_names_file" JNull d in
  let d := setitem "upload_replays" (JBool (upload_replays a)) d in
  let d := setitem "upload_logs" (JBool (upload_logs a)) d in
  let d := setitem "allow_non_registered_students"
             (JBool (allow_non_registered_students a)) d in
  let d := setitem "split" (JInt (split a)) d in
  d.

(** The path of the configuration stored in a resume folder (line 201). *)
Definition resume_config_path (folder : string) : string :=
  Py.path_join folder (DEFAULT_CONFIG_FILE cfg).

(** Lines 199-216: the resume folder.  The pair is the local state
    [(settings_json, settings_cli)]. *)
Definition resume_block (a : args) (st : json * settings) : Prog world (json * settings) :=
  let '(settings_json, settings_cli) := st in
  match resume_contest_folder a with
  | Some folder =>
      let settings_cli := setitem "resume_contest_folder" (JStr folder) settings_cli in
      let config_json_file := resume_config_path folder in
      found <- path_exists config_json_file ;;
      settings_json <-
        (if found : bool
         then json_load config_json_file
         else logging_error (MsgResumeConfigNotAvailable config_json_file) ;;
              sys_exit 1) ;;
      (if negb (split a =? 0)
       then stored <- lift_result (Py.getitem settings_json "split") ;;
            when (negb (Py.eq_int stored (split a)))
              (stored' <- lift_result (Py.getitem settings_json "split") ;;
               logging_error (MsgSplitMismatch (split a) stored') ;;
               sys_exit 1)
       else ret tt) ;;
      ret (settings_json, settings_cli)
  | None => ret (settings_json, settings_cli)
  end.

(** Lines 218-235: the configuration file named on the command line. *)
Definition config_file_block (a : args) (st : json * settings)
  : Prog world (json * settings) :=
  let '(settings_json, settings_cli) := st in
  match config_file a with
  | Some file =>
      match resume_contest_folder a with
      | Some _ =>
          logging_warning MsgIgnoringConfigFile ;;
          ret (settings_json, settings_cli)
      | None =>
          let config_json_file := file in
          found <- path_exists config_json_file ;;
          settings_json <-
            (if found : bool
             then json_load config_json_file
             else logging_error (MsgConfigNotAvailable config_json_file) ;;
                  sys_exit 1) ;;
          ret (settings_json, settings_cli)
      end
  | None => ret (settings_json, settings_cli)
  end.

(** Lines 237-297: the options given on the command line.  The block reads
    no file and logs nothing; it can only fail in [int]. *)
Definition cli_block (a : args) (settings_cli : settings) : result settings :=
  (let d := settings_cli in
   let d := set_str (Some (organizer a)) "organizer" d in
   let d := set_str (www_dir a) "www_dir" d in
   let d := set_if (compress_logs a) "compress_logs" (JBool (compress_logs a)) d in
   let d := set_str (workers_file a) "workers_file" d in
   let d := set_str (staff_teams_dir a) "staff_teams_dir" d in
   let d := set_if (Py.truthy (staff_teams_dir a)) "include_staff_team" (JBool true) d in
   let d := set_if (staff_teams_vs_others_only a) "staff_teams_vs_others_only" (JBool true) d in
   let d := set_str (teams_root a) "teams_root" d in
   let d := set_str (team_names_file a) "team_names_file" d in
   let d := set_if (Py.truthy (team_names_file a)) "ignore_file_name_format" (JBool false) d in
   let d := set_str (stats_archive_dir a) "stats_archive_dir" d in
   let d := set_str (replays_archive_dir a) "replays_archive_dir" d in
   let d := set_str (logs_archive_dir a) "logs_archive_dir" d in
   d <- set_int (no_fixed_layouts a) "no_fixed_layouts" d ;;
   let d := set_given (fixed_layout_seeds a) "fixed_layout_seeds"
              (fun names => JList (JStr <$> Py.str_split_comma names)) d in
   d <- set_int (no_random_layouts a) "no_random_layouts" d ;;
   d <- match Py.given (random_layout_seeds a) with
        | Some text =>
            seeds <- ints_or_raise (Py.str_split_comma text) ;;
            Ok (setitem "random_layout_seeds" (JList seeds) d)
        | None => Ok d
        end ;;
   d <- set_int (max_steps a) "max_steps" d ;;
   let d := if upload_all a
            then setitem "upload_logs" (JBool true)
                   (setitem "upload_replays" (JBool true) d)
            else set_if (upload_logs a) "upload_logs" (JBool (upload_logs a))
                   (set_if (upload_replays a) "upload_replays" (JBool (upload_replays a)) d) in
   let d := set_if (allow_non_registered_students a) "allow_non_registered_students"
              (JBool (allow_non_registered_students a)) d in
   let d := set_if (negb (split a =? 0)) "split" (JInt (split a)) d in
   Ok d)%res.

(** Lines 301-302: [if settings.get("split", 0) == 0: settings["split"] = 1]. *)
Definition normalise_split (s : settings) : settings :=
  if Py.eq_int (default (JInt 0) (s !! "split")) 0
  then setitem "split" (JInt 1) s
  else s.

(** Line 304: the set of required keys is empty. *)
Definition required_parameters : gset string := ∅.

Definition load_settings (argv : list cli_arg) : Prog world settings :=
  a <- parse_args argv ;;
  when (bool_decide (argv = []))
    (emit (Stdout "No arguments given. Use -h fo help") ;; sys_exit 0) ;;
  let settings_default := settings_default a in
  let settings_json := JObj ∅ in
  let settings_cli := ∅ in
  st <- resume_block a (settings_json, settings_cli) ;;
  st <- config_file_block a st ;;
  let '(settings_json, settings_cli) := st in
  settings_cli <- lift_result (cli_block a settings_cli) ;;
  file_layer <- lift_result (Py.as_mapping settings_json) ;;
  let settings := dict_merge (dict_merge settings_default file_layer) settings_cli in
  let settings := normalise_split settings in
  let missing_parameters := required_parameters ∖ dom settings in
  when (negb (bool_decide (missing_parameters = ∅)))
    (logging_error (MsgMissingParameters (elements missing_parameters)) ;;
     emit PrintHelp ;;
     sys_exit 1) ;;
  match Py.given (build_config_file a) with
  | Some path => logging_info (MsgDumpingOptions path) ;; json_dump settings path
  | None => ret tt
  end ;;
  ret settings.

End LoadSettings.

(** ** The [__main__] block (lines 324-362) *)

(** Modelled from the spec: the class [Host] of module [cluster_manager] is
    not among the sources.  A worker is a host identity, authentication
    credentials (password or key file with a passphrase) and a number of
    slots; the record keeps the six keyword arguments the script passes to
    the constructor, which is taken to build the object and nothing else. *)
Record Host : Type := MkHost {
  no_cpu : json;
  hostname : json;
  username : json;
  password : json;
  key_filename : json;
  key_password : json
}.

(** What the script does to its collaborators, in order.  A contest runner
    is named by its position in the sequence [create_contests] yields. *)
Inductive event : Type :=
| HostConstructed (h : Host)
| MultiContestConstructed (s : settings)
| RunRemotelyCalled (i : nat) (hosts : list Host) (resume_folder : json) (first : bool)
| RunRemotelyReturned (i : nat)
| StoreResultsCalled (i : nat)
| StoreResultsReturned (i : nat) (stats_url replays_url logs_url : json)
| HtmlGeneratorConstructed (i : nat) (www_dir organizer : json)
| TimestampIdRead (i : nat) (run_id : json)
| AddRunCalled (i : nat) (run_id stats_url replays_url logs_url : json)
| AddRunReturned (i : nat)
| CleanUpCalled (i : nat)
| CleanUpReturned (i : nat).

(** [for x in v]: the sequence a JSON value yields when iterated.  A
    dictionary yields its keys and a string its characters. *)
Definition json_iter (v : json) : result (list json) :=
  match v with
  | JList l => Ok l
  | JObj m => Ok (JStr <$> (map_to_list m).*1)
  | JStr s => Ok ((fun c => JStr (String c EmptyString)) <$> list_ascii_of_string s)
  | _ => Raise TypeError
  end.

(** [d[key]] on the settings dictionary. *)
Definition dict_getitem (d : settings) (key : string) : result json :=
  match d !! key with
  | Some v => Ok v
  | None => Raise (KeyError key)
  end.

(** [with open(name, "r") as f: json.load(f)] where [name] is a value of the
    settings.  An integer names a file descriptor: a negative one is refused
    with [ValueError]; the others (a boolean is 0 or 1) are taken as not
    open, since descriptors are not part of the file-system model. *)
Definition open_json (name : json) : Prog world json :=
  match name with
  | JStr path => json_load path
  | JInt z => if z <? 0 then raise ValueError else raise OSError
  | JBool _ => raise OSError
  | _ => raise TypeError
  end.

Section Main.

Variable cfg : config.

(** The collaborators: contest runners, the HTML generator, and the state
    they act on (remote hosts, working directories, archives).  Each call
    may return or let an exception escape. *)
Variable Runner : Type.
Variable HtmlGenerator : Type.
Variable Cluster : Type.
(** [MultiContest(settings).create_contests()], as the sequence it yields. *)
Variable create_contests : settings -> Prog Cluster (list Runner).
Variable run_contest_remotely : Runner -> list Host -> json -> bool -> Prog Cluster unit.
Variable store_results : Runner -> Prog Cluster (json * json * json).
Variable contest_timestamp_id : Runner -> Cluster -> json.
Variable html_generator_new : json -> json -> Prog Cluster HtmlGenerator.
Variable add_run : HtmlGenerator -> json -> json -> json -> json -> Prog Cluster unit.
Variable clean_up : Runner -> Prog Cluster unit.

Record machine : Type := Machine {
  m_world : world;
  m_cluster : Cluster;
  m_trace : list event
}.

Definition on_world {A} (p : Prog world A) : Prog machine A :=
  fun m => let '(r, w) := p (m_world m) in (r, Machine w (m_cluster m) (m_trace m)).

Definition on_cluster {A} (p : Prog Cluster A) : Prog machine A :=
  fun m => let '(r, c) := p (m_cluster m) in (r, Machine (m_world m) c (m_trace m)).

Definition record (e : event) : Prog machine unit :=
  fun m => (Ok tt, Machine (m_world m) (m_cluster m) (m_trace m ++ [e])).

Definition read_cluster {A} (f : Cluster -> A) : Prog machine A :=
  fun m => (Ok (f (m_cluster m)), m).

(** Lines 332-340: one [Host(...)] call; the keyword arguments are evaluated
    in the order written. *)
Definition make_host (w : json) : Prog machine Host :=
  v_no_cpu <- lift_result (Py.getitem w "no_cpu") ;;
  v_hostname <- lift_result (Py.getitem w "hostname") ;;
  v_username <- lift_result (Py.getitem w "username") ;;
  v_password <- lift_result (Py.getitem w "password") ;;
  v_key_filename <- lift_result (Py.getitem w "private_key_file") ;;
  v_key_password <- lift_result (Py.getitem w "private_key_password") ;;
  let h := MkHost v_no_cpu v_hostname v_username v_password v_key_filename v_key_password in
  record (HostConstructed h) ;;
  ret h.

(** Lines 331-341: the list comprehension. *)
Fixpoint make_hosts (workers_details : list json) : Prog machine (list Host) :=
  match workers_details with
  | [] => ret []
  | w :: rest =>
      h <- make_host w ;;
      hs <- make_hosts rest ;;
      ret (h :: hs)
  end.

(** Lines 351-362: the loop over the contest runners. *)
Fixpoint contest_loop (settings : settings) (hosts : list Host) (resume_contest_folder : json)
  (i : nat) (first : bool) (runners : list Runner) : Prog machine unit :=
  match runners with
  | [] => ret tt
  | runner :: rest =>
      record (RunRemotelyCalled i hosts resume_contest_folder first) ;;
      on_cluster (run_contest_remotely runner hosts resume_contest_folder first) ;;
      record (RunRemotelyReturned i) ;;
      let first := false in
      record (StoreResultsCalled i) ;;
      urls <- on_cluster (store_results runner) ;;
      let '(stats_file_url, replays_file_url, logs_file_url) := urls in
      record (StoreResultsReturned i stats_file_url replays_file_url logs_file_url) ;;
      www <- lift_result (dict_getitem settings "www_dir") ;;
      org <- lift_result (dict_getitem settings "organizer") ;;
      html_generator <- on_cluster (html_generator_new www org) ;;
      record (HtmlGeneratorConstructed i www org) ;;
      run_id <- read_cluster (contest_timestamp_id runner) ;;
      record (TimestampIdRead i run_id) ;;
      record (AddRunCalled i run_id stats_file_url replays_file_url logs_file_url) ;;
      on_cluster (add_run html_generator run_id stats_file_url replays_file_url logs_file_url) ;;
      record (AddRunReturned i) ;;
      on_world (logging_info MsgWebPagesGenerated) ;;
      record (CleanUpCalled i) ;;
      on_cluster (clean_up runner) ;;
      record (CleanUpReturned i) ;;
      contest_loop settings hosts resume_contest_folder (S i) first rest
  end.

(** Lines 327-341: the worker roster and the hosts. *)
Definition load_hosts (settings : settings) : Prog machine (list Host) :=
  name <- lift_result (dict_getitem settings "workers_file") ;;
  roster <- on_world (open_json name) ;;
  workers_details <- lift_result (Py.getitem roster "workers") ;;
  on_world (logging_info (MsgHostWorkers workers_details)) ;;
  ws <- lift_result (json_iter workers_details) ;;
  make_hosts ws.

(** Lines 344-362: the contests. *)
Definition run_contests (settings : settings) (hosts : list Host) : Prog machine unit :=
  resume_contest_folder <- lift_result (dict_getitem settings "resume_contest_folder") ;;
  let settings := delete "resume_contest_folder" settings in
  on_world (logging_info (MsgWillCreateRunner settings)) ;;
  record (MultiContestConstructed settings) ;;
  runners <- on_cluster (create_contests settings) ;;
  contest_loop settings hosts resume_contest_folder 0 true runners.

Definition main (argv : list cli_arg) : Prog machine unit :=
  settings <- on_world (load_settings cfg argv) ;;
  hosts <- load_hosts settings ;;
  run_contests settings hosts.

End Main.

Arguments Machine {Cluster} _ _ _.
Arguments m_world {Cluster} _.
Arguments m_cluster {Cluster} _.
Arguments m_trace {Cluster} _.
Arguments on_world {Cluster A} p.
Arguments on_cluster {Cluster A} p.
Arguments record {Cluster} e.
Arguments read_cluster {Cluster A} f.
Arguments make_host {Cluster} w.
Arguments make_hosts {Cluster} workers_details.
Arguments load_hosts {Cluster} settings.

(** ** Notions used by the statements *)

(** The command-line layer [settings_cli]: the entry of line 200 followed
    by the block of lines 237-297. *)
Definition cli_seed (a : args) : settings :=
  match resume_contest_folder a with
  | Some folder => setitem "resume_contest_folder" (JStr folder) ∅
  | None => ∅
  end.

Definition cli_layer (a : args) : result settings :=
  cli_block a (cli_seed a).

(** The file a run takes its configuration from: the one stored in the
    resume folder when a resume folder is given, else the one named by
    [--config-file], else none. *)
Definition config_source (cfg : config) (a : args) : option string :=
  match resume_contest_folder a with
  | Some folder => Some (resume_config_path cfg folder)
  | None => config_file a
  end.

(** [file_layer cfg a w m]: in world [w], the configuration-file layer of the
    run is the dictionary [m]. *)
Definition file_layer (cfg : config) (a : args) (w : world) (m : settings) : Prop :=
  match config_source cfg a with
  | Some path => fs w !! path = Some (File (Some (JObj m)))
  | None => m = ∅
  end.

(** The value of key [k] by precedence: command line, then file, then
    default. *)
Definition by_precedence (cli file defaults : settings) (k : string) : option json :=
  match cli !! k with
  | Some v => Some v
  | None =>
      match file !! k with
      | Some v => Some v
      | None => defaults !! k
      end
  end.

(** The hosts a trace constructs, in order. *)
Definition constructed_hosts (t : list event) : list Host :=
  omap (fun e => match e with HostConstructed h => Some h | _ => None end) t.

(** A worker descriptor that carries the six keys the script reads. *)
Definition complete_descriptor (w : json) : Prop :=
  exists m, w = JObj m
    /\ is_Some (m !! "no_cpu") /\ is_Some (m !! "hostname") /\ is_Some (m !! "username")
    /\ is_Some (m !! "password") /\ is_Some (m !! "private_key_file")
    /\ is_Some (m !! "private_key_password").

(** Host [h] carries the fields of descriptor [w]. *)
Definition describes (w : json) (h : Host) : Prop :=
  Py.getitem w "no_cpu" = Ok (no_cpu h)
  /\ Py.getitem w "hostname" = Ok (hostname h)
  /\ Py.getitem w "username" = Ok (username h)
  /\ Py.getitem w "password" = Ok (password h)
  /\ Py.getitem w "private_key_file" = Ok (key_filename h)
  /\ Py.getitem w "private_key_password" = Ok (key_password h).

(** What must have happened before an event may happen: archiving follows
    the return of the remote run, the report hand-off follows the return of
    archiving and passes on its three locations and the identity read from
    the runner, cleaning up follows the return of archiving. *)
Definition enabled (before : list event) (e : event) : Prop :=
  match e with
  | StoreResultsCalled i => RunRemotelyReturned i ∈ before
  | AddRunCalled i run_id stats replays logs =>
      StoreResultsReturned i stats replays logs ∈ before /\ TimestampIdRead i run_id ∈ before
  | CleanUpCalled i =>
      exists stats replays logs, StoreResultsReturned i stats replays logs ∈ before
  | _ => True
  end.

Definition ordered (t : list event) : Prop :=
  forall before e after, t = before ++ e :: after -> enabled before e.

(** A Hoare triple for programs that may stop early: from a state satisfying
    [P], a run that yields [a] ends in a state satisfying [Q a], and a run
    that exits or raises ends in a state satisfying [I]. *)
Definition hoare {St A} (P : St -> Prop) (p : Prog St A) (Q : A -> St -> Prop)
  (I : St -> Prop) : Prop :=
  forall s, P s ->
    match p s with
    | (Ok a, s') => Q a s'
    | (_, s') => I s'
    end.

(** Triples over the state of the top-level block whose assertions only read
    the trace. *)
Definition thoare {Cluster A} (T : list event -> Prop) (p : Prog (machine Cluster) A)
  (Q : A -> list event -> Prop) (I : list event -> Prop) : Prop :=
  hoare (fun m => T (m_trace m)) p (fun a m => Q a (m_trace m)) (fun m => I (m_trace m)).

(** The invariant of the top-level block once the hosts [hs] are built. *)
Definition running (hs : list Host) (t : list event) : Prop :=
  ordered t /\ constructed_hosts t = hs.

(** Whether a run yields a value, and the value it yields ([d] otherwise). *)
Definition returns {St A} (r : result A * St) : bool :=
  match fst r with
  | Ok _ => true
  | _ => false
  end.

Definition value_or {St A} (d : A) (r : result A * St) : A :=
  match fst r with
  | Ok a => a
  | _ => d
  end.

(** ** Sample data for the closed statements *)

Definition sample_config : config :=
  {| DEFAULT_FIXED_LAYOUTS := JInt 3;
     DEFAULT_RANDOM_LAYOUTS := JInt 3;
     DEFAULT_MAX_STEPS := JInt 1200;
     DEFAULT_LAYOUTS_ZIP_FILE := JStr "layouts.zip";
     DEFAULT_CONFIG_FILE := "config.json" |}.

Definition dict {A} (bindings : list (string * A)) : gmap string A := list_to_map bindings.

(** A resume folder [/tmp/run] holding a stored configuration. *)
Definition resume_world_of (stored : settings) : world :=
  World (dict [("/tmp/run/config.json", File (Some (JObj stored)))]) [].

(** A stored configuration that plans two leagues over the teams of
    [teamsA] on one fixed layout. *)
Definition stored_plan : settings :=
  dict [("split", JInt 2);
        ("teams_root", JStr "teamsA");
        ("fixed_layout_seeds", JList [JStr "contest02cCapture"]);
        ("workers_file", JStr "workers.json");
        ("www_dir", JStr "www")].

Definition resume_world : world := resume_world_of stored_plan.

(** The same resume folder next to a configuration file [other.json]. *)
Definition resume_and_file_world : world :=
  World (dict [("/tmp/run/config.json", File (Some (JObj stored_plan)));
               ("other.json", File (Some (JObj (dict [("split", JInt 5);
                                                      ("teams_root", JStr "teamsC")]))))])
        [].

(** A configuration file [c.json] that sets [split]. *)
Definition config_world (split_value : Z) : world :=
  World (dict [("c.json", File (Some (JObj (dict [("split", JInt split_value);
                                                   ("www_dir", JStr "www")]))))])
        [].

(** A configuration file [c.json] that switches both uploads off. *)
Definition upload_world : world :=
  World (dict [("c.json", File (Some (JObj (dict [("upload_replays", JBool false);
                                                   ("upload_logs", JBool false)]))))])
        [].

(** A roster with one worker that authenticates by password only. *)
Definition password_only_worker : json :=
  JObj (dict [("hostname", JStr "node1"); ("username", JStr "pacman");
              ("password", JStr "secret"); ("no_cpu", JInt 4)]).

(** A roster with one worker that carries the six keys. *)
Definition complete_worker : json :=
  JObj (dict [("hostname", JStr "node1"); ("username", JStr "pacman");
              ("password", JStr "secret"); ("no_cpu", JInt 4);
              ("private_key_file", JNull); ("private_key_password", JNull)]).

Definition roster_world (worker : json) : world :=
  World (dict [("c.json", File (Some (JObj (dict [("workers_file", JStr "workers.json");
                                                   ("www_dir", JStr "www")]))));
               ("workers.json", File (Some (JObj (dict [("workers", JList [worker])]))))])
        [].

(** Collaborators that always return: runners are numbers, the cluster state
    counts the calls made. *)
Module Sample.
Definition create_contests (s : settings) : Prog nat (list nat) :=
  fun c => (Ok [10%nat; 20%nat], S c).
Definition run_contest_remotely (r : nat) (hs : list Host) (resume : json) (first : bool)
  : Prog nat unit := fun c => (Ok tt, S c).
Definition store_results (r : nat) : Prog nat (json * json * json) :=
  fun c => (Ok (JStr "stats", JStr "replays", JStr "logs"), S c).
Definition contest_timestamp_id (r : nat) (c : nat) : json := JInt (Z.of_nat r).
Definition html_generator_new (www org : json) : Prog nat unit := fun c => (Ok tt, S c).
Definition add_run (g : unit) (run_id stats replays logs : json) : Prog nat unit :=
  fun c => (Ok tt, S c).
Definition clean_up (r : nat) : Prog nat unit := fun c => (Ok tt, S c).
Definition main (argv : list cli_arg) : Prog (machine nat) unit :=
  main sample_config nat unit nat create_contests run_contest_remotely store_results
    contest_timestamp_id html_generator_new add_run clean_up argv.
Definition start (w : world) : machine nat := Machine w 0%nat [].
End Sample.

(** ** Further notions *)

(** [",".join(xs)]. *)
Fixpoint join_comma (xs : list string) : string :=
  match xs with
  | [] => EmptyString
  | [x] => x
  | x :: rest => x +:+ "," +:+ join_comma rest
  end.

(** Whether a string holds a comma. *)
Fixpoint has_comma (s : string) : bool :=
  match s with
  | EmptyString => false
  | String c rest => Ascii.eqb c ","%char || has_comma rest
  end.



(** The namespace [a] with [config_file] replaced. *)
Definition with_config_file (path : string) (a : args) : args :=
  {| config_file := Some path;
     organizer := organizer a;
     www_dir := www_dir a;
     stats_archive_dir := stats_archive_dir a;
     replays_archive_dir := replays_archive_dir a;
     logs_archive_dir := logs_archive_dir a;
     compress_logs := compress_logs a;
     workers_file := workers_file a;
     teams_root := teams_root a;
     team_names_file := team_names_file a;
     staff_teams_dir := staff_teams_dir a;
     staff_teams_vs_others_only := staff_teams_vs_others_only a;
     max_steps := max_steps a;
     no_fixed_layouts := no_fixed_layouts a;
     fixed_layout_seeds := fixed_layout_seeds a;
     fixed_layouts_file := fixed_layouts_file a;
     no_random_layouts := no_random_layouts a;
     random_layout_seeds := random_layout_seeds a;
     resume_contest_folder := resume_contest_folder a;
     allow_non_registered_students := allow_non_registered_students a;
     build_config_file := build_config_file a;
     upload_replays := upload_replays a;
     upload_logs := upload_logs a;
     upload_all := upload_all a;
     split := split a |}.

(** What the contests of a run are handed, the settings [s] loaded and the
    hosts [hs] built: the orchestrator gets the settings without the resume
    folder, every remote run gets all the hosts and the resume folder and is
    told whether it is the first, every report generator gets the web
    directory and the organizer; and no host is built any more. *)
Definition handed_over (s : settings) (hs : list Host) (e : event) : Prop :=
  match e with
  | HostConstructed _ => False
  | MultiContestConstructed s' => s' = delete "resume_contest_folder" s
  | RunRemotelyCalled i hosts resume first =>
      hosts = hs /\ s !! "resume_contest_folder" = Some resume
      /\ first = bool_decide (i = 0%nat)
  | HtmlGeneratorConstructed _ www org =>
      s !! "www_dir" = Some www /\ s !! "organizer" = Some org
  | _ => True
  end.

(** The events that follow the first archive: a report, a clean-up, or the
    start of a later contest. *)
Definition past_first_archive (e : event) : bool :=
  match e with
  | RunRemotelyCalled (S _) _ _ _ => true
  | HtmlGeneratorConstructed _ _ _ | TimestampIdRead _ _ | AddRunCalled _ _ _ _ _
  | AddRunReturned _ | CleanUpCalled _ | CleanUpReturned _ => true
  | _ => false
  end.

(** The six keys of a worker descriptor, in the order the script reads
    them. *)
Definition descriptor_keys : list string :=
  ["no_cpu"; "hostname"; "username"; "password"; "private_key_file"; "private_key_password"].

(** The trace of a run once the hosts [hs] are built: their construction,
    then events that hand over what [handed_over] says. *)
Definition contests_phase (s : settings) (hs : list Host) (t : list event) : Prop :=
  exists rest, t = (HostConstructed <$> hs) ++ rest /\ Forall (handed_over s hs) rest.

(** The value of a string option that has no default: the option when it is
    given and not empty, else what the configuration file holds. *)
Definition given_or_file (o : option string) (file : settings) (k : string) : option json :=
  match Py.given o with
  | Some v => Some (JStr v)
  | None => file !! k
  end.

(** The first of the six keys that a worker descriptor lacks. *)
Definition first_missing_key (d : gmap string json) : option string :=
  List.find (fun k => match d !! k with None => true | Some _ => false end) descriptor_keys.

(** What makes [load_settings] give up on the configuration: with a resume
    folder, its stored configuration is missing or holds a [split] other than
    the non-zero [--split]; without one, the file named by [--config-file] is
    missing. *)
Definition configuration_fault (cfg : config) (a : args) (w : world) : Prop :=
  match resume_contest_folder a with
  | Some folder =>
      fs w !! resume_config_path cfg folder = None
      \/ exists m stored,
           fs w !! resume_config_path cfg folder = Some (File (Some (JObj m)))
           /\ m !! "split" = Some stored
           /\ split a <> 0
           /\ Py.eq_int stored (split a) = false
  | None => exists file, config_file a = Some file /\ fs w !! file = None
  end.

(** A site: a configuration file [c.json] holding [options] and a roster
    [workers.json] whose ["workers"] entry is [workers]. *)
Definition site_world (options : settings) (workers : json) : world :=
  World (dict [("c.json", File (Some (JObj options)));
               ("workers.json", File (Some (JObj (dict [("workers", workers)]))))])
        [].

(** Options that name the roster, without and with a web directory. *)
Definition roster_only : settings := dict [("workers_file", JStr "workers.json")].

Definition roster_and_www : settings :=
  dict [("workers_file", JStr "workers.json"); ("www_dir", JStr "www")].

(** ** The layers, as the specification words them

    The specification orders three layers: built-in defaults, the
    configuration file, the options given on the command line.  The
    definitions below say, without reference to [load_settings], what the
    command line supplies for a key and what the built-in defaults are. *)

(** The text given for [--organizer], if the option is given. *)
Definition organizer_option (argv : list cli_arg) : option string :=
  last_value (fun a => match a with Organizer v => Some v | _ => None end) argv.

(** What an option supplies: a string option its text, unless empty; a flag
    a fixed value when it is set; an integer option the integer its
    non-empty text denotes; a list option the pieces of its non-empty
    text. *)
Definition supplied_string (o : option string) : option json := JStr <$> Py.given o.

Definition supplied_flag (set : bool) (v : json) : option json :=
  if set then Some v else None.

Definition supplied_int (o : option string) : option json :=
  text ← Py.given o; JInt <$> Py.int text.

Definition supplied_names (o : option string) : option json :=
  (fun names => JList (JStr <$> Py.str_split_comma names)) <$> Py.given o.

Definition supplied_seeds (o : option string) : option json :=
  text ← Py.given o;
  (fun zs => JList (JInt <$> zs)) <$> mapM Py.int (Py.str_split_comma text).

(** Specification side: the settings keys the command line can supply, each
    with the value supplied, from the parsed options [a] and the text given
    for [--organizer].  [--staff-teams-dir] and [--team-names-file] supply a
    second key each; [--upload-all] supplies both upload keys; [--split 0]
    supplies nothing. *)
Definition cli_table (a : args) (organizer_text : option string)
  : list (string * option json) :=
  [("resume_contest_folder", JStr <$> resume_contest_folder a);
   ("organizer", supplied_string organizer_text);
   ("www_dir", supplied_string (www_dir a));
   ("compress_logs", supplied_flag (compress_logs a) (JBool true));
   ("workers_file", supplied_string (workers_file a));
   ("staff_teams_dir", supplied_string (staff_teams_dir a));
   ("include_staff_team", supplied_flag (Py.truthy (staff_teams_dir a)) (JBool true));
   ("staff_teams_vs_others_only",
    supplied_flag (staff_teams_vs_others_only a) (JBool true));
   ("teams_root", supplied_string (teams_root a));
   ("team_names_file", supplied_string (team_names_file a));
   ("ignore_file_name_format", supplied_flag (Py.truthy (team_names_file a)) (JBool false));
   ("stats_archive_dir", supplied_string (stats_archive_dir a));
   ("replays_archive_dir", supplied_string (replays_archive_dir a));
   ("logs_archive_dir", supplied_string (logs_archive_dir a));
   ("no_fixed_layouts", supplied_int (no_fixed_layouts a));
   ("fixed_layout_seeds", supplied_names (fixed_layout_seeds a));
   ("fixed_layouts_file", supplied_string (fixed_layouts_file a));
   ("no_random_layouts", supplied_int (no_random_layouts a));
   ("random_layout_seeds", supplied_seeds (random_layout_seeds a));
   ("max_steps", supplied_int (max_steps a));
   ("upload_replays", supplied_flag (upload_all a || upload_replays a) (JBool true));
   ("upload_logs", supplied_flag (upload_all a || upload_logs a) (JBool true));
   ("allow_non_registered_students",
    supplied_flag (allow_non_registered_students a) (JBool true));
   ("split", supplied_flag (negb (split a =? 0)) (JInt (split a)))].

Fixpoint table_lookup {A} (k : string) (table : list (string * A)) : option A :=
  match table with
  | [] => None
  | (k', v) :: rest => if String.eqb k k' then Some v else table_lookup k rest
  end.

(** Specification side: the value the command line supplies for key [k], if
    any. *)
Definition cli_supplied (argv : list cli_arg) (k : string) : option json :=
  table_lookup k (cli_table (namespace argv) (organizer_option argv)) ≫= id.

(** Specification side: the built-in defaults. *)
Definition builtin_defaults (cfg : config) : settings :=
  dict [("no_fixed_layouts", DEFAULT_FIXED_LAYOUTS cfg);
        ("no_random_layouts", DEFAULT_RANDOM_LAYOUTS cfg);
        ("max_steps", DEFAULT_MAX_STEPS cfg);
        ("fixed_layouts_file", DEFAULT_LAYOUTS_ZIP_FILE cfg);
        ("resume_contest_folder", JNull);
        ("include_staff_team", JBool false);
        ("staff_teams_dir", JNull);
        ("staff_teams_vs_others_only", JBool false);
        ("ignore_file_name_format", JBool true);
        ("team_names_file", JNull);
        ("upload_replays", JBool false);
        ("upload_logs", JBool false);
        ("allow_non_registered_students", JBool false);
        ("split", JInt 0)].

(** The first of two optional values that is there. *)
Definition or_else {A} (first second : option A) : option A :=
  match first with
  | Some v => Some v
  | None => second
  end.

(** Specification side: the value of key [k] by precedence, that is what
    the command line supplies, else what the configuration file holds, else
    the built-in default. *)
Definition layered (supplied : string -> option json) (file defaults : settings)
  (k : string) : option json :=
  or_else (supplied k) (or_else (file !! k) (defaults !! k)).

(** The precedence, with a [split] of 0 made 1. *)
Definition layered_settings (supplied : string -> option json) (file defaults : settings)
  (k : string) : option json :=
  if (String.eqb k "split"
      && Py.eq_int (default (JInt 0) (layered supplied file defaults "split")) 0)%bool
  then Some (JInt 1)
  else layered supplied file defaults k.

(** The keys the precedence is stated for: every key but [organizer] when
    [--organizer] is not given, and but [fixed_layouts_file] when a non-empty
    [--fixed-layouts-file] is given. *)
Definition in_scope (argv : list cli_arg) (k : string) : Prop :=
  (k = "organizer" -> is_Some (organizer_option argv))
  /\ (k = "fixed_layouts_file" -> Py.given (fixed_layouts_file (namespace argv)) = None).

(** ** Worlds that differ in what one file holds *)

(** Two entries of the same kind: both absent, both directories, or both
    files. *)
Definition same_kind (n1 n2 : option node) : Prop :=
  match n1, n2 with
  | None, None => True
  | Some Dir, Some Dir => True
  | Some (File _), Some (File _) => True
  | _, _ => False
  end.

(** [w2] is [w] but for what the file [path] holds. *)
Definition differ_in_content (path : string) (w w2 : world) : Prop :=
  same_kind (fs w !! path) (fs w2 !! path)
  /\ forall p, p <> path -> fs w2 !! p = fs w !! p.

(** Every integer option that is given and not empty is text that [int]
    accepts, and so is every piece of a non-empty [--random-layout-seeds]. *)
Definition converts (o : option string) : Prop :=
  forall text, Py.given o = Some text -> is_Some (Py.int text).

Definition integer_options_convert (a : args) : Prop :=
  converts (no_fixed_layouts a) /\ converts (no_random_layouts a) /\ converts (max_steps a)
  /\ forall text,
       Py.given (random_layout_seeds a) = Some text ->
       Forall (fun piece => is_Some (Py.int piece)) (Py.str_split_comma text).

(** The resume folder [/tmp/run] with a stored configuration whose [split]
    is 0, next to a configuration file [other.json]. *)
Definition resume_zero_and_file_world : world :=
  World (dict [("/tmp/run/config.json",
                File (Some (JObj (dict [("split", JInt 0); ("teams_root", JStr "teamsA")]))));
               ("other.json", File (Some (JObj (dict [("split", JInt 5);
                                                      ("teams_root", JStr "teamsC")]))))])
        [].

(** * Properties *)

(** ** The built-ins on examples *)

Example int_examples :
  Py.int "12" = Some 12 /\ Py.int " -3 " = Some (-3) /\ Py.int "1_000" = Some 1000
  /\ Py.int EmptyString = None /\ Py.int "1__0" = None /\ Py.int "x" = None /\ Py.int "0" = Some 0.
Proof. repeat split; reflexivity. Qed.

Example split_examples :
  Py.str_split_comma "a,b,,c" = ["a"; "b"; EmptyString; "c"]
  /\ Py.str_split_comma EmptyString = [EmptyString].
Proof. split; reflexivity. Qed.

Example path_join_examples :
  Py.path_join "/tmp/run" "config.json" = "/tmp/run/config.json"
  /\ Py.path_join "/tmp/run/" "config.json" = "/tmp/run/config.json"
  /\ Py.path_join EmptyString "config.json" = "config.json"
  /\ Py.path_join "/tmp/run" "/etc/c.json" = "/etc/c.json".
Proof. repeat split; reflexivity. Qed.

(** ** Programs *)

Section ProgFacts.
Context {St : Type}.

Lemma bind_Ok {A B} (m : Prog St A) (k : A -> Prog St B) s b s' :
  bind m k s = (Ok b, s') -> exists a s1, m s = (Ok a, s1) /\ k a s1 = (Ok b, s').
Proof.
  unfold bind. destruct (m s) as [[a | c | e] s1]; intros H; try discriminate.
  exists a, s1. split; [reflexivity | exact H].
Qed.

Lemma bind_step {A B} (m : Prog St A) (k : A -> Prog St B) s a s1 :
  m s = (Ok a, s1) -> bind m k s = k a s1.
Proof. unfold bind. intros ->. reflexivity. Qed.

Lemma bind_Exit {A B} (m : Prog St A) (k : A -> Prog St B) s c s1 :
  m s = (Exit c, s1) -> bind m k s = (Exit c, s1).
Proof. unfold bind. intros ->. reflexivity. Qed.

Lemma bind_assoc {A B C} (m : Prog St A) (k : A -> Prog St B) (h : B -> Prog St C) s :
  bind m (fun a => bind (k a) h) s = bind (bind m k) h s.
Proof. unfold bind. destruct (m s) as [[a | c | e] s1]; reflexivity. Qed.

Lemma when_Ok (c : bool) (m : Prog St unit) s u s' :
  when c m s = (Ok u, s') -> (c = false /\ s' = s) \/ (c = true /\ m s = (Ok u, s')).
Proof.
  destruct c; cbn; intros H; [right | left]; auto.
  inversion H; auto.
Qed.

End ProgFacts.

Lemma parse_args_Ok argv w a w' :
  parse_args argv w = (Ok a, w') -> parse_stop argv = None /\ a = namespace argv /\ w' = w.
Proof.
  unfold parse_args. destruct (parse_stop argv) as [[o c] |]; cbn.
  - discriminate.
  - intros [= <- <-]. done.
Qed.


Lemma resume_block_Ok cfg a sj0 cli0 w sj cli w' :
  resume_block cfg a (sj0, cli0) w = (Ok (sj, cli), w') ->
  w' = w /\
  match resume_contest_folder a with
  | Some folder =>
      cli = setitem "resume_contest_folder" (JStr folder) cli0
      /\ fs w !! resume_config_path cfg folder = Some (File (Some sj))
      /\ (split a <> 0 ->
          exists stored, Py.getitem sj "split" = Ok stored /\ Py.eq_int stored (split a) = true)
  | None => sj = sj0 /\ cli = cli0
  end.
Proof.
  unfold resume_block. destruct (resume_contest_folder a) as [folder |].
  2: { cbn. intros [= <- <- <-]. done. }
  unfold bind at 1. unfold path_exists.
  destruct (fs w !! resume_config_path cfg folder) as [nd |] eqn:Hfs; cbn.
  2: discriminate.
  unfold bind at 1, json_load. rewrite Hfs.
  destruct nd as [| [j |]]; try discriminate.
  destruct (Z.eqb_spec (split a) 0) as [Hz | Hz]; cbn.
  - intros [= <- <- <-]. repeat split; try done.
  - unfold bind at 1. unfold bind at 1. unfold lift_result.
    destruct (Py.getitem j "split") as [stored | c | e] eqn:Hget; try discriminate.
    destruct (Py.eq_int stored (split a)) eqn:Heq; cbn.
    + intros [= <- <- <-]. repeat split; try done. intros _. exists stored. done.
    + discriminate.
Qed.

Lemma config_file_block_Ok a sj0 cli0 w sj cli w' :
  config_file_block a (sj0, cli0) w = (Ok (sj, cli), w') ->
  cli = cli0 /\ fs w' = fs w /\
  match config_file a, resume_contest_folder a with
  | Some file, None => fs w !! file = Some (File (Some sj)) /\ w' = w
  | Some _, Some _ =>
      sj = sj0 /\ console w' = console w ++ [Log WARNING MsgIgnoringConfigFile]
  | None, _ => sj = sj0 /\ w' = w
  end.
Proof.
  unfold config_file_block. destruct (config_file a) as [file |].
  2: { cbn. intros [= <- <- <-]. done. }
  destruct (resume_contest_folder a) as [folder |].
  { cbn. intros [= <- <- <-]. done. }
  unfold bind at 1. unfold path_exists.
  destruct (fs w !! file) as [nd |] eqn:Hfs; cbn.
  2: discriminate.
  unfold bind at 1, json_load. rewrite Hfs.
  destruct nd as [| [j |]]; try discriminate.
  cbn. intros [= <- <- <-]. done.
Qed.


Lemma lift_result_Ok {St A} (r : result A) (s : St) a s' :
  lift_result r s = (Ok a, s') -> r = Ok a /\ s' = s.
Proof. unfold lift_result. intros [= -> ->]. done. Qed.

Lemma as_mapping_Ok j m : Py.as_mapping j = Ok m -> j = JObj m.
Proof. destruct j; cbn; intros [=]. congruence. Qed.

Lemma json_dump_Ok d path w u w' :
  json_dump d path w = (Ok u, w') ->
  open_for_writing (fs w) path = Ok tt
  /\ w' = World (<[path := File (Some (JObj d))]> (fs w)) (console w).
Proof.
  unfold json_dump. destruct (open_for_writing (fs w) path) as [[] | c | e]; [| done | done].
  by intros [= <- <-].
Qed.

Lemma json_dump_returns d path w :
  open_for_writing (fs w) path = Ok tt ->
  json_dump d path w = (Ok tt, World (<[path := File (Some (JObj d))]> (fs w)) (console w)).
Proof. unfold json_dump. by intros ->. Qed.

Lemma open_for_writing_not_Dir files path :
  open_for_writing files path = Ok tt -> files !! path <> Some Dir.
Proof. unfold open_for_writing. by destruct (files !! path) as [[| c] |]. Qed.

Lemma open_for_writing_not_Exit files path c : open_for_writing files path <> Exit c.
Proof.
  unfold open_for_writing. destruct (files !! path) as [[| content] |]; try discriminate.
  destruct (bool_decide _); [discriminate |].
  destruct (Py.ends_with_slash _); [discriminate |].
  destruct (always_there _); [discriminate |].
  destruct (files !! _) as [[| content] |]; discriminate.
Qed.

Lemma load_settings_Ok cfg argv w s w' :
  load_settings cfg argv w = (Ok s, w') ->
  parse_stop argv = None /\ argv <> [] /\
  exists m cli,
    file_layer cfg (namespace argv) w m
    /\ cli_layer (namespace argv) = Ok cli
    /\ s = normalise_split (dict_merge (dict_merge (settings_default cfg (namespace argv)) m) cli)
    /\ (is_Some (config_file (namespace argv)) ->
        is_Some (resume_contest_folder (namespace argv)) ->
        Log WARNING MsgIgnoringConfigFile ∈ console w').
Proof.
  unfold load_settings. intros H.
  apply bind_Ok in H as (a & w1 & Hparse & H).
  apply parse_args_Ok in Hparse as (Hstop & -> & ->).
  apply bind_Ok in H as ([] & w1 & Hwhen & H).
  apply when_Ok in Hwhen as [[Hne ->] | [_ Hex]]; [| discriminate Hex].
  apply bool_decide_eq_false in Hne.
  apply bind_Ok in H as ([sj1 cli1] & w1 & Hres & H).
  apply resume_block_Ok in Hres as [-> Hres].
  apply bind_Ok in H as ([sj cli0] & w1 & Hcf & H).
  apply config_file_block_Ok in Hcf as (-> & Hfs1 & Hcf).
  apply bind_Ok in H as (cli & w2 & Hcli & H).
  apply lift_result_Ok in Hcli as [Hcli ->].
  apply bind_Ok in H as (m & w2 & Hm & H).
  apply lift_result_Ok in Hm as [Hm%as_mapping_Ok ->]. subst sj.
  apply bind_Ok in H as ([] & w3 & Hwhen & H).
  apply when_Ok in Hwhen as [[_ ->] | [_ Hex]]; [| discriminate Hex].
  apply bind_Ok in H as ([] & w3 & Hdump & H).
  injection H as <- <-.
  split; [exact Hstop |]. split; [exact Hne |].
  exists m, cli. repeat split.
  - unfold file_layer, config_source.
    destruct (resume_contest_folder (namespace argv)) as [folder |].
    + destruct Hres as (_ & Hfile & _).
      destruct (config_file (namespace argv)); destruct Hcf as [<- _]; exact Hfile.
    + destruct Hres as [-> _].
      destruct (config_file (namespace argv)); [tauto |].
      destruct Hcf as [[= ->] _]. reflexivity.
  - unfold cli_layer, cli_seed.
    destruct (resume_contest_folder (namespace argv));
      [destruct Hres as [<- _] | destruct Hres as [_ <-]]; exact Hcli.
  - intros [file Hfile] [folder Hfolder]. rewrite Hfile, Hfolder in Hcf.
    destruct Hcf as [_ Hcons].
    assert (Hext : exists extra, console w3 = console w1 ++ extra).
    { destruct (Py.given (build_config_file (namespace argv))) as [path |].
      - apply bind_Ok in Hdump as ([] & w4 & Hlog & Hdump).
        injection Hlog as <-. apply json_dump_Ok in Hdump as [_ ->]. cbn. eauto.
      - injection Hdump as <-. exists []. by rewrite app_nil_r. }
    destruct Hext as [extra ->]. rewrite Hcons.
    set_solver.
Qed.

(** ** Lookups in the layers *)

Lemma rbind_Ok {A B} (r : result A) (k : A -> result B) b :
  rbind r k = Ok b -> exists a, r = Ok a /\ k a = Ok b.
Proof. destruct r as [a | c | e]; cbn; intros H; try discriminate. eauto. Qed.

Lemma lookup_setitem_ne k v (d : settings) k' : k <> k' -> setitem k v d !! k' = d !! k'.
Proof. apply lookup_insert_ne. Qed.

Lemma lookup_setitem_eq k v (d : settings) : setitem k v d !! k = Some v.
Proof. apply lookup_insert_eq. Qed.

Lemma lookup_set_if_ne c k v (d : settings) k' : k <> k' -> set_if c k v d !! k' = d !! k'.
Proof. intros Hne. destruct c; cbn; [by apply lookup_setitem_ne | done]. Qed.

Lemma lookup_set_if_eq c k v (d : settings) :
  set_if c k v d !! k = if c then Some v else d !! k.
Proof. destruct c; cbn; [apply lookup_setitem_eq | done]. Qed.

Lemma lookup_set_given_ne o k f (d : settings) k' :
  k <> k' -> set_given o k f d !! k' = d !! k'.
Proof.
  intros Hne. unfold set_given. destruct (Py.given o); [by apply lookup_setitem_ne | done].
Qed.

Lemma lookup_set_str_ne o k (d : settings) k' : k <> k' -> set_str o k d !! k' = d !! k'.
Proof. apply lookup_set_given_ne. Qed.

Lemma set_int_lookup_ne o k d d' k' :
  set_int o k d = Ok d' -> k <> k' -> d' !! k' = d !! k'.
Proof.
  unfold set_int. destruct (Py.given o) as [text |].
  - intros (v & _ & [= <-])%rbind_Ok Hne. by apply lookup_setitem_ne.
  - intros [= <-] _. done.
Qed.

Ltac skip_keys :=
  repeat first
    [ rewrite lookup_setitem_ne by discriminate
    | rewrite lookup_set_if_ne by discriminate
    | rewrite lookup_set_str_ne by discriminate
    | rewrite lookup_set_given_ne by discriminate
    | match goal with
      | H : set_int _ _ _ = Ok ?d |- context [ ?d !! _ ] =>
          rewrite (set_int_lookup_ne _ _ _ _ _ H) by discriminate
      end ].

(** The steps of [cli_block] that can fail, named. *)
Lemma cli_block_Ok a d cli :
  cli_block a d = Ok cli ->
  exists d1 d2 d3 d4,
    set_int (no_fixed_layouts a) "no_fixed_layouts"
      (set_str (logs_archive_dir a) "logs_archive_dir"
      (set_str (replays_archive_dir a) "replays_archive_dir"
      (set_str (stats_archive_dir a) "stats_archive_dir"
      (set_if (Py.truthy (team_names_file a)) "ignore_file_name_format" (JBool false)
      (set_str (team_names_file a) "team_names_file"
      (set_str (teams_root a) "teams_root"
      (set_if (staff_teams_vs_others_only a) "staff_teams_vs_others_only" (JBool true)
      (set_if (Py.truthy (staff_teams_dir a)) "include_staff_team" (JBool true)
      (set_str (staff_teams_dir a) "staff_teams_dir"
      (set_str (workers_file a) "workers_file"
      (set_if (compress_logs a) "compress_logs" (JBool (compress_logs a))
      (set_str (www_dir a) "www_dir"
      (set_str (Some (organizer a)) "organizer" d)))))))))))))
    = Ok d1
    /\ set_int (no_random_layouts a) "no_random_layouts"
         (set_given (fixed_layout_seeds a) "fixed_layout_seeds"
            (fun names => JList (JStr <$> Py.str_split_comma names)) d1)
       = Ok d2
    /\ (forall k, k <> "random_layout_seeds" -> d3 !! k = d2 !! k)
    /\ set_int (max_steps a) "max_steps" d3 = Ok d4
    /\ cli =
       set_if (negb (split a =? 0)) "split" (JInt (split a))
         (set_if (allow_non_registered_students a) "allow_non_registered_students"
            (JBool (allow_non_registered_students a))
            (if upload_all a
             then setitem "upload_logs" (JBool true) (setitem "upload_replays" (JBool true) d4)
             else set_if (upload_logs a) "upload_logs" (JBool (upload_logs a))
                    (set_if (upload_replays a) "upload_replays"
                       (JBool (upload_replays a)) d4))).
Proof.
  unfold cli_block. intros H.
  apply rbind_Ok in H as (d1 & H1 & H).
  apply rbind_Ok in H as (d2 & H2 & H).
  apply rbind_Ok in H as (d3 & H3 & H).
  apply rbind_Ok in H as (d4 & H4 & H).
  injection H as <-.
  exists d1, d2, d3, d4. repeat split; try assumption.
  intros k Hk. destruct (Py.given (random_layout_seeds a)) as [text |].
  - apply rbind_Ok in H3 as (seeds & _ & [= <-]). by apply lookup_setitem_ne.
  - by injection H3 as <-.
Qed.

Lemma cli_block_upload_replays a d cli :
  cli_block a d = Ok cli ->
  cli !! "upload_replays" =
    if upload_all a || upload_replays a then Some (JBool true) else d !! "upload_replays".
Proof.
  intros (d1 & d2 & d3 & d4 & H1 & H2 & H3 & H4 & ->)%cli_block_Ok.
  skip_keys.
  assert (Hd : d4 !! "upload_replays" = d !! "upload_replays").
  { skip_keys. rewrite H3 by discriminate. skip_keys. done. }
  destruct (upload_all a); cbn.
  - skip_keys. apply lookup_setitem_eq.
  - skip_keys. rewrite lookup_set_if_eq. destruct (upload_replays a); done.
Qed.

Lemma cli_block_upload_logs a d cli :
  cli_block a d = Ok cli ->
  cli !! "upload_logs" =
    if upload_all a || upload_logs a then Some (JBool true) else d !! "upload_logs".
Proof.
  intros (d1 & d2 & d3 & d4 & H1 & H2 & H3 & H4 & ->)%cli_block_Ok.
  skip_keys.
  assert (Hd : d4 !! "upload_logs" = d !! "upload_logs").
  { skip_keys. rewrite H3 by discriminate. skip_keys. done. }
  destruct (upload_all a); cbn.
  - apply lookup_setitem_eq.
  - rewrite lookup_set_if_eq. destruct (upload_logs a); [done |].
    rewrite lookup_set_if_ne by discriminate. exact Hd.
Qed.

Lemma cli_block_split a d cli :
  cli_block a d = Ok cli ->
  cli !! "split" = if split a =? 0 then d !! "split" else Some (JInt (split a)).
Proof.
  intros (d1 & d2 & d3 & d4 & H1 & H2 & H3 & H4 & ->)%cli_block_Ok.
  rewrite lookup_set_if_eq. destruct (split a =? 0); cbn; [| done].
  skip_keys. destruct (upload_all a); skip_keys; rewrite H3 by discriminate; skip_keys; done.
Qed.

Lemma cli_seed_lookup_ne a k : k <> "resume_contest_folder" -> cli_seed a !! k = None.
Proof.
  intros Hk. unfold cli_seed. destruct (resume_contest_folder a); [| done].
  by rewrite lookup_setitem_ne.
Qed.

Lemma dict_merge_lookup (cli m dflt : settings) k :
  dict_merge (dict_merge dflt m) cli !! k = by_precedence cli m dflt k.
Proof.
  unfold dict_merge, by_precedence. rewrite !lookup_union.
  destruct (cli !! k), (m !! k), (dflt !! k); reflexivity.
Qed.

Lemma normalise_split_lookup (s : settings) k :
  normalise_split s !! k =
    if (String.eqb k "split" && Py.eq_int (default (JInt 0) (s !! "split")) 0)%bool
    then Some (JInt 1) else s !! k.
Proof.
  unfold normalise_split.
  destruct (String.eqb_spec k "split") as [-> | Hk]; cbn.
  - destruct (Py.eq_int _ 0); [apply lookup_setitem_eq | done].
  - destruct (Py.eq_int _ 0); [by apply lookup_setitem_ne | done].
Qed.

Lemma settings_default_split cfg a : settings_default cfg a !! "split" = Some (JInt (split a)).
Proof. unfold settings_default. apply lookup_setitem_eq. Qed.

Lemma settings_default_upload_replays cfg a :
  settings_default cfg a !! "upload_replays" = Some (JBool (upload_replays a)).
Proof. unfold settings_default. skip_keys. apply lookup_setitem_eq. Qed.

Lemma settings_default_upload_logs cfg a :
  settings_default cfg a !! "upload_logs" = Some (JBool (upload_logs a)).
Proof. unfold settings_default. skip_keys. apply lookup_setitem_eq. Qed.

(** ** The command line *)

Lemma flag_given_elem (f : cli_arg -> bool) (x : cli_arg) argv :
  (forall y, f y = true <-> y = x) -> flag_given f argv = true <-> x ∈ argv.
Proof.
  intros Hf. unfold flag_given. rewrite existsb_exists. split.
  - intros (y & Hy & Hfy). apply Hf in Hfy as ->. by apply list_elem_of_In.
  - intros Hx. exists x. split; [by apply list_elem_of_In | by apply Hf].
Qed.

Lemma upload_all_given argv : upload_all (namespace argv) = true <-> UploadAll ∈ argv.
Proof. apply flag_given_elem. intros []; cbn; split; congruence. Qed.

Lemma upload_replays_given argv : upload_replays (namespace argv) = true <-> UploadReplays ∈ argv.
Proof. apply flag_given_elem. intros []; cbn; split; congruence. Qed.

Lemma upload_logs_given argv : upload_logs (namespace argv) = true <-> UploadLogs ∈ argv.
Proof. apply flag_given_elem. intros []; cbn; split; congruence. Qed.

Lemma last_value_None sel argv :
  (forall x, x ∈ argv -> sel x = None) -> last_value sel argv = None.
Proof.
  induction argv as [| x argv IH]; intros H; [reflexivity |].
  cbn. rewrite IH by (intros y Hy; apply H; by right).
  apply H. by left.
Qed.

Lemma split_not_given argv : (forall v, Split v ∉ argv) -> split (namespace argv) = 0.
Proof.
  intros H. cbn. rewrite last_value_None; [reflexivity |].
  intros [] Hx; try reflexivity. by apply H in Hx.
Qed.

Lemma resume_given_nonempty argv folder :
  resume_contest_folder (namespace argv) = Some folder -> argv <> [].
Proof. intros H ->. discriminate H. Qed.

Lemma config_file_given_nonempty argv file :
  config_file (namespace argv) = Some file -> argv <> [].
Proof. intros H ->. discriminate H. Qed.

(** ** The exits of [load_settings] *)

Lemma load_settings_start cfg argv w :
  parse_stop argv = None -> argv <> [] ->
  load_settings cfg argv w =
    (st <- resume_block cfg (namespace argv) (JObj ∅, ∅) ;;
     st <- config_file_block (namespace argv) st ;;
     let '(settings_json, settings_cli) := st in
     settings_cli <- lift_result (cli_block (namespace argv) settings_cli) ;;
     file_layer <- lift_result (Py.as_mapping settings_json) ;;
     let settings :=
       normalise_split
         (dict_merge (dict_merge (settings_default cfg (namespace argv)) file_layer)
            settings_cli) in
     when (negb (bool_decide (required_parameters ∖ dom settings = ∅)))
       (logging_error (MsgMissingParameters (elements (required_parameters ∖ dom settings))) ;;
        emit PrintHelp ;;
        sys_exit 1) ;;
     match Py.given (build_config_file (namespace argv)) with
     | Some path => logging_info (MsgDumpingOptions path) ;; json_dump settings path
     | None => ret tt
     end ;;
     ret settings) w.
Proof.
  intros Hstop Hne. unfold load_settings, parse_args. rewrite Hstop.
  unfold bind at 1. cbn [ret].
  unfold bind at 1. rewrite bool_decide_eq_false_2 by exact Hne. reflexivity.
Qed.

Lemma load_settings_resume_config_missing cfg argv w folder :
  parse_stop argv = None ->
  resume_contest_folder (namespace argv) = Some folder ->
  fs w !! resume_config_path cfg folder = None ->
  load_settings cfg argv w =
    (Exit 1,
     World (fs w)
       (console w ++ [Log ERROR (MsgResumeConfigNotAvailable (resume_config_path cfg folder))])).
Proof.
  intros Hstop Hres Hfs.
  rewrite load_settings_start by eauto using resume_given_nonempty.
  unfold bind at 1. unfold resume_block. rewrite Hres.
  unfold bind at 1. unfold path_exists. rewrite Hfs. reflexivity.
Qed.

Lemma load_settings_config_file_missing cfg argv w file :
  parse_stop argv = None ->
  resume_contest_folder (namespace argv) = None ->
  config_file (namespace argv) = Some file ->
  fs w !! file = None ->
  load_settings cfg argv w =
    (Exit 1, World (fs w) (console w ++ [Log ERROR (MsgConfigNotAvailable file)])).
Proof.
  intros Hstop Hres Hcf Hfs.
  rewrite load_settings_start by eauto using config_file_given_nonempty.
  unfold bind at 1. unfold resume_block. rewrite Hres. cbn [ret].
  unfold bind at 1. unfold config_file_block. rewrite Hcf, Hres.
  unfold bind at 1. unfold path_exists. rewrite Hfs. reflexivity.
Qed.

Lemma load_settings_split_mismatch cfg argv w folder m stored :
  parse_stop argv = None ->
  resume_contest_folder (namespace argv) = Some folder ->
  fs w !! resume_config_path cfg folder = Some (File (Some (JObj m))) ->
  m !! "split" = Some stored ->
  split (namespace argv) <> 0 ->
  Py.eq_int stored (split (namespace argv)) = false ->
  load_settings cfg argv w =
    (Exit 1,
     World (fs w)
       (console w ++ [Log ERROR (MsgSplitMismatch (split (namespace argv)) stored)])).
Proof.
  intros Hstop Hres Hfs Hm Hz Hneq.
  rewrite load_settings_start by eauto using resume_given_nonempty.
  unfold bind at 1. unfold resume_block. rewrite Hres.
  unfold bind at 1. unfold path_exists. rewrite Hfs. cbn [bool_decide].
  rewrite bool_decide_eq_true_2 by eauto.
  unfold bind at 1. unfold json_load. rewrite Hfs.
  apply Z.eqb_neq in Hz. rewrite Hz. cbn [negb].
  unfold bind at 1. unfold bind at 1. unfold lift_result. cbn [Py.getitem]. rewrite Hm.
  rewrite Hneq. reflexivity.
Qed.

(** ** When [load_settings] returns *)

Lemma nothing_required (s : settings) : required_parameters ∖ dom s = ∅.
Proof.
  apply elem_of_equiv_empty_L. intros x [Hx _]%elem_of_difference.
  by apply not_elem_of_empty in Hx.
Qed.

Lemma resume_block_pass cfg a sj0 cli0 w folder m :
  resume_contest_folder a = Some folder ->
  fs w !! resume_config_path cfg folder = Some (File (Some (JObj m))) ->
  (split a <> 0 ->
   exists stored, m !! "split" = Some stored /\ Py.eq_int stored (split a) = true) ->
  resume_block cfg a (sj0, cli0) w
  = (Ok (JObj m, setitem "resume_contest_folder" (JStr folder) cli0), w).
Proof.
  intros Hres Hfs Hsplit. unfold resume_block. rewrite Hres.
  unfold bind at 1. unfold path_exists. rewrite Hfs.
  rewrite bool_decide_eq_true_2 by eauto.
  unfold bind at 1. unfold json_load. rewrite Hfs.
  destruct (Z.eqb_spec (split a) 0) as [Hz | Hz]; cbn [negb].
  - reflexivity.
  - destruct (Hsplit Hz) as (stored & Hst & Heq).
    unfold bind at 1. unfold bind at 1. unfold lift_result. cbn [Py.getitem].
    rewrite Hst, Heq. reflexivity.
Qed.

Lemma load_settings_returns cfg argv w m cli :
  parse_stop argv = None -> argv <> [] ->
  file_layer cfg (namespace argv) w m ->
  (is_Some (resume_contest_folder (namespace argv)) -> split (namespace argv) <> 0 ->
   exists stored, m !! "split" = Some stored /\ Py.eq_int stored (split (namespace argv)) = true) ->
  cli_layer (namespace argv) = Ok cli ->
  (forall path, Py.given (build_config_file (namespace argv)) = Some path ->
                open_for_writing (fs w) path = Ok tt) ->
  exists w',
    load_settings cfg argv w
    = (Ok (normalise_split
             (dict_merge (dict_merge (settings_default cfg (namespace argv)) m) cli)), w').
Proof.
  intros Hstop Hne Hfile Hsplit Hcli Hdump.
  rewrite load_settings_start by assumption.
  unfold file_layer, config_source in Hfile. unfold cli_layer, cli_seed in Hcli.
  assert (Hblocks : exists w1,
            bind (resume_block cfg (namespace argv) (JObj ∅, ∅))
                 (config_file_block (namespace argv)) w
            = (Ok (JObj m, cli_seed (namespace argv)), w1) /\ fs w1 = fs w).
  { unfold cli_seed.
    destruct (resume_contest_folder (namespace argv)) as [folder |] eqn:Hres.
    - rewrite (bind_step _ _ _ _ _ (resume_block_pass cfg _ _ _ _ _ _ Hres Hfile
                                      (Hsplit (mk_is_Some _ _ eq_refl)))).
      unfold config_file_block. rewrite Hres.
      destruct (config_file (namespace argv)); cbn; eauto.
    - unfold bind at 1. unfold resume_block. rewrite Hres. cbn [ret].
      unfold config_file_block. rewrite Hres.
      destruct (config_file (namespace argv)) as [file |].
      + unfold bind at 1. unfold path_exists. rewrite Hfile.
        rewrite bool_decide_eq_true_2 by eauto.
        unfold bind at 1. unfold json_load. rewrite Hfile. cbn. eauto.
      + subst m. cbn. eauto. }
  destruct Hblocks as (w1 & Hblocks & Hfs1).
  rewrite bind_assoc, (bind_step _ _ _ _ _ Hblocks).
  fold (cli_seed (namespace argv)) in Hcli.
  unfold bind at 1. unfold lift_result at 1. rewrite Hcli.
  unfold bind at 1. unfold lift_result at 1. cbn [Py.as_mapping].
  unfold bind at 1.
  rewrite bool_decide_eq_true_2 by apply nothing_required.
  cbn [negb when ret].
  destruct (Py.given (build_config_file (namespace argv))) as [path |] eqn:Hgiven.
  - specialize (Hdump path eq_refl). rewrite <- Hfs1 in Hdump.
    unfold bind, logging_info, emit, json_dump. cbn [fs]. rewrite Hdump. eauto.
  - cbn. eauto.
Qed.

Lemma load_settings_Ok_checks cfg argv w s w' :
  load_settings cfg argv w = (Ok s, w') ->
  (forall m, file_layer cfg (namespace argv) w m ->
     is_Some (resume_contest_folder (namespace argv)) -> split (namespace argv) <> 0 ->
     exists stored,
       m !! "split" = Some stored /\ Py.eq_int stored (split (namespace argv)) = true)
  /\ (forall path, Py.given (build_config_file (namespace argv)) = Some path ->
                   open_for_writing (fs w) path = Ok tt).
Proof.
  intros H.
  pose proof (load_settings_Ok _ _ _ _ _ H) as (Hstop & Hne & _).
  rewrite load_settings_start in H by assumption.
  apply bind_Ok in H as ([sj1 cli1] & w1 & Hres & H).
  apply resume_block_Ok in Hres as [-> Hres].
  apply bind_Ok in H as ([sj cli0] & w1 & Hcf & H).
  apply config_file_block_Ok in Hcf as (-> & Hfs1 & Hcf).
  apply bind_Ok in H as (cli & w2 & Hcli & H).
  apply lift_result_Ok in Hcli as [Hcli ->].
  apply bind_Ok in H as (m0 & w2 & Hm & H).
  apply lift_result_Ok in Hm as [Hm%as_mapping_Ok ->]. subst sj.
  apply bind_Ok in H as ([] & w3 & Hwhen & H).
  apply when_Ok in Hwhen as [[_ ->] | [_ Hex]]; [| discriminate Hex].
  apply bind_Ok in H as ([] & w3 & Hdump & _).
  split.
  - intros m Hfile [folder Hfolder] Hz.
    unfold file_layer, config_source in Hfile. rewrite Hfolder in Hfile, Hres.
    destruct Hres as (_ & Hfs & Hchk). rewrite Hfile in Hfs. injection Hfs as <-.
    destruct (Hchk Hz) as (stored & Hget & Heq). exists stored. split; [| exact Heq].
    cbn in Hget. destruct (m !! "split"); congruence.
  - intros path Hgiven. rewrite Hgiven in Hdump.
    apply bind_Ok in Hdump as ([] & w4 & Hlog & Hdump).
    injection Hlog as <-. apply json_dump_Ok in Hdump as [Hopen _].
    cbn [fs] in Hopen. by rewrite Hfs1 in Hopen.
Qed.

(** ** The statements about [load_settings] *)

(** C1, as the code has it.  When a resume folder is supplied and the
    configuration stored in it holds a [split] value, a [--split] given on
    the command line with a non-zero value different from the stored one
    makes [load_settings] log the mismatch and exit with status 1.  This is
    the only plan parameter the resume check compares. *)
Theorem resume_split_mismatch_aborts cfg argv w folder m stored :
  parse_stop argv = None ->
  resume_contest_folder (namespace argv) = Some folder ->
  fs w !! resume_config_path cfg folder = Some (File (Some (JObj m))) ->
  m !! "split" = Some stored ->
  split (namespace argv) <> 0 ->
  Py.eq_int stored (split (namespace argv)) = false ->
  exists w',
    load_settings cfg argv w = (Exit 1, w')
    /\ Log ERROR (MsgSplitMismatch (split (namespace argv)) stored) ∈ console w'.
Proof.
  intros Hstop Hres Hfs Hm Hz Hneq.
  eexists. split.
  - by eapply load_settings_split_mismatch.
  - cbn. set_solver.
Qed.

(** The split check at work: the stored plan has two leagues, the command
    line asks for three. *)
Lemma resume_split_mismatch_aborts_witness :
  exists w',
    load_settings sample_config [ResumeContestFolder "/tmp/run"; Split "3"] resume_world
      = (Exit 1, w')
    /\ Log ERROR (MsgSplitMismatch 3 (JInt 2)) ∈ console w'.
Proof.
  apply (resume_split_mismatch_aborts sample_config
           [ResumeContestFolder "/tmp/run"; Split "3"] resume_world "/tmp/run"
           stored_plan (JInt 2)).
  - reflexivity.
  - reflexivity.
  - reflexivity.
  - reflexivity.
  - vm_compute. discriminate.
  - reflexivity.
Defined.

(** C1 fails as stated: the stored plan names the teams of [teamsA] and the
    layout [contest02cCapture]; resuming with another team directory and
    another layout is accepted, and the new values are returned. *)
Lemma resume_roster_and_layouts_not_compared :
  stored_plan !! "teams_root" = Some (JStr "teamsA")
  /\ stored_plan !! "fixed_layout_seeds" = Some (JList [JStr "contest02cCapture"])
  /\ match load_settings sample_config
             [ResumeContestFolder "/tmp/run"; TeamsRoot "teamsB";
              FixedLayoutSeeds "contest12Capture"] resume_world with
     | (Ok s, _) =>
         s !! "teams_root" = Some (JStr "teamsB")
         /\ s !! "fixed_layout_seeds" = Some (JList [JStr "contest12Capture"])
     | _ => False
     end.
Proof. vm_compute. repeat split; reflexivity. Qed.

Lemma returns_eta {St A} (d : A) (r : result A * St) :
  returns r = true -> r = (Ok (value_or d r), snd r).
Proof. destruct r as [[a | c | e] s]; cbn; intros H; try discriminate. reflexivity. Qed.

(** C2 fails as stated: a configuration file that sets [split] to 0 is
    answered with [split] = 1; [--split 0], given on the command line,
    yields to the 3 of the configuration file; and so does an empty
    [--www-dir] to the [www] of the file. *)
Lemma split_zero_and_zero_option_break_precedence :
  match load_settings sample_config [ConfigFile "c.json"] (config_world 0) with
  | (Ok s, _) => s !! "split" = Some (JInt 1)
  | _ => False
  end
  /\ match load_settings sample_config [ConfigFile "c.json"; Split "0"] (config_world 3) with
     | (Ok s, _) => s !! "split" = Some (JInt 3)
     | _ => False
     end
  /\ match load_settings sample_config [ConfigFile "c.json"; WwwDir EmptyString]
             (config_world 3) with
     | (Ok s, _) => s !! "www_dir" = Some (JStr "www")
     | _ => False
     end.
Proof. vm_compute. repeat split; reflexivity. Qed.

Lemma load_settings_resume_Ok cfg argv w folder s w' :
  resume_contest_folder (namespace argv) = Some folder ->
  load_settings cfg argv w = (Ok s, w') ->
  exists stored cli,
    fs w !! resume_config_path cfg folder = Some (File (Some (JObj stored)))
    /\ cli_layer (namespace argv) = Ok cli
    /\ s = normalise_split
             (dict_merge (dict_merge (settings_default cfg (namespace argv)) stored) cli).
Proof.
  intros Hres (_ & _ & stored & cli & Hfile & Hcli & -> & _)%load_settings_Ok.
  unfold file_layer, config_source in Hfile. rewrite Hres in Hfile. eauto.
Qed.




(** C9.  The settings [load_settings] returns always hold a [split] that is
    not 0: when the layers make it 0 it is returned as 1, and in particular
    a run with no [--split] option and no [split] in its configuration file
    gets [split] = 1. *)
Theorem split_never_zero cfg argv w s w' :
  load_settings cfg argv w = (Ok s, w') ->
  (exists v, s !! "split" = Some v /\ Py.eq_int v 0 = false)
  /\ exists file cli,
       file_layer cfg (namespace argv) w file
       /\ cli_layer (namespace argv) = Ok cli
       /\ (Py.eq_int
             (default (JInt 0)
                (dict_merge (dict_merge (settings_default cfg (namespace argv)) file) cli
                   !! "split")) 0 = true ->
           s !! "split" = Some (JInt 1))
       /\ ((forall v, Split v ∉ argv) -> file !! "split" = None ->
           s !! "split" = Some (JInt 1)).
Proof.
  intros (_ & _ & file & cli & Hfile & Hcli & -> & _)%load_settings_Ok.
  set (merged := dict_merge (dict_merge (settings_default cfg (namespace argv)) file) cli).
  assert (Hnorm : Py.eq_int (default (JInt 0) (merged !! "split")) 0 = true ->
                  normalise_split merged !! "split" = Some (JInt 1)).
  { intros Hz. rewrite normalise_split_lookup, Hz. reflexivity. }
  split; [| exists file, cli; repeat split; try assumption].
  - rewrite normalise_split_lookup. cbn [String.eqb Ascii.eqb Bool.eqb andb].
    destruct (Py.eq_int (default (JInt 0) (merged !! "split")) 0) eqn:Hz.
    + exists (JInt 1). done.
    + assert (Hsome : is_Some (merged !! "split")).
      { unfold merged. rewrite dict_merge_lookup. unfold by_precedence.
        rewrite settings_default_split.
        destruct (cli !! "split"); [eauto |]. destruct (file !! "split"); eauto. }
      destruct Hsome as [v Hv]. rewrite Hv in Hz |- *. exists v. done.
  - intros Hno Hnone. apply Hnorm.
    unfold merged. rewrite dict_merge_lookup. unfold by_precedence.
    unfold cli_layer in Hcli. rewrite (cli_block_split _ _ _ Hcli).
    rewrite (split_not_given _ Hno). cbn [Z.eqb].
    rewrite cli_seed_lookup_ne by discriminate.
    rewrite Hnone, settings_default_split, (split_not_given _ Hno). reflexivity.
Qed.

(** A configuration file with [split] = 0 and no [--split]. *)
Lemma split_never_zero_witness :
  let argv := [ConfigFile "c.json"] in
  let w := config_world 0 in
  let s := value_or ∅ (load_settings sample_config argv w) in
  (exists v, s !! "split" = Some v /\ Py.eq_int v 0 = false)
  /\ exists file cli,
       file_layer sample_config (namespace argv) w file
       /\ cli_layer (namespace argv) = Ok cli
       /\ (Py.eq_int
             (default (JInt 0)
                (dict_merge (dict_merge (settings_default sample_config (namespace argv)) file)
                   cli !! "split")) 0 = true ->
           s !! "split" = Some (JInt 1))
       /\ ((forall v, Split v ∉ argv) -> file !! "split" = None ->
           s !! "split" = Some (JInt 1)).
Proof.
  intros argv w s.
  apply (split_never_zero sample_config argv w s (snd (load_settings sample_config argv w))).
  apply returns_eta. vm_compute. reflexivity.
Defined.

(** C10.  With [--upload-all], the returned settings have [upload_replays]
    and [upload_logs] set to [True], whatever the configuration file says.
    Without it, each of the two is [True] when its own option is given, and
    otherwise keeps the value of the configuration file ([False] when the
    file does not set it). *)
Theorem upload_all_sets_both_flags cfg argv w s w' :
  load_settings cfg argv w = (Ok s, w') ->
  (UploadAll ∈ argv ->
   s !! "upload_replays" = Some (JBool true) /\ s !! "upload_logs" = Some (JBool true))
  /\ (UploadAll ∉ argv ->
      exists file,
        file_layer cfg (namespace argv) w file
        /\ (UploadReplays ∈ argv -> s !! "upload_replays" = Some (JBool true))
        /\ (UploadReplays ∉ argv ->
            s !! "upload_replays" = Some (default (JBool false) (file !! "upload_replays")))
        /\ (UploadLogs ∈ argv -> s !! "upload_logs" = Some (JBool true))
        /\ (UploadLogs ∉ argv ->
            s !! "upload_logs" = Some (default (JBool false) (file !! "upload_logs")))).
Proof.
  intros (_ & _ & file & cli & Hfile & Hcli & -> & _)%load_settings_Ok.
  unfold cli_layer in Hcli.
  pose proof (cli_block_upload_replays _ _ _ Hcli) as Hr.
  pose proof (cli_block_upload_logs _ _ _ Hcli) as Hl.
  rewrite cli_seed_lookup_ne in Hr, Hl by discriminate.
  assert (Hlookr : normalise_split
            (dict_merge (dict_merge (settings_default cfg (namespace argv)) file) cli)
            !! "upload_replays"
          = if upload_all (namespace argv) || upload_replays (namespace argv)
            then Some (JBool true)
            else Some (default (JBool (upload_replays (namespace argv)))
                         (file !! "upload_replays"))).
  { rewrite normalise_split_lookup. cbn [String.eqb Ascii.eqb Bool.eqb andb].
    rewrite dict_merge_lookup. unfold by_precedence. rewrite Hr, settings_default_upload_replays.
    destruct (upload_all _ || upload_replays _); [reflexivity |].
    destruct (file !! "upload_replays"); reflexivity. }
  assert (Hlookl : normalise_split
            (dict_merge (dict_merge (settings_default cfg (namespace argv)) file) cli)
            !! "upload_logs"
          = if upload_all (namespace argv) || upload_logs (namespace argv)
            then Some (JBool true)
            else Some (default (JBool (upload_logs (namespace argv)))
                         (file !! "upload_logs"))).
  { rewrite normalise_split_lookup. cbn [String.eqb Ascii.eqb Bool.eqb andb].
    rewrite dict_merge_lookup. unfold by_precedence. rewrite Hl, settings_default_upload_logs.
    destruct (upload_all _ || upload_logs _); [reflexivity |].
    destruct (file !! "upload_logs"); reflexivity. }
  rewrite Hlookr, Hlookl. split.
  - intros Hall%upload_all_given. rewrite Hall. done.
  - intros Hall. exists file. split; [exact Hfile |].
    assert (Hall' : upload_all (namespace argv) = false).
    { destruct (upload_all (namespace argv)) eqn:E; [| done].
      by apply upload_all_given in E. }
    rewrite Hall'. cbn [orb]. repeat split.
    + intros Hin%upload_replays_given. by rewrite Hin.
    + intros Hnin.
      destruct (upload_replays (namespace argv)) eqn:E; [| done].
      by apply upload_replays_given in E.
    + intros Hin%upload_logs_given. by rewrite Hin.
    + intros Hnin.
      destruct (upload_logs (namespace argv)) eqn:E; [| done].
      by apply upload_logs_given in E.
Qed.

(** [--upload-all] against a configuration file that switches both uploads
    off. *)
Lemma upload_all_sets_both_flags_witness :
  let argv := [ConfigFile "c.json"; UploadAll] in
  let w := upload_world in
  let s := value_or ∅ (load_settings sample_config argv w) in
  (UploadAll ∈ argv ->
   s !! "upload_replays" = Some (JBool true) /\ s !! "upload_logs" = Some (JBool true))
  /\ (UploadAll ∉ argv ->
      exists file,
        file_layer sample_config (namespace argv) w file
        /\ (UploadReplays ∈ argv -> s !! "upload_replays" = Some (JBool true))
        /\ (UploadReplays ∉ argv ->
            s !! "upload_replays" = Some (default (JBool false) (file !! "upload_replays")))
        /\ (UploadLogs ∈ argv -> s !! "upload_logs" = Some (JBool true))
        /\ (UploadLogs ∉ argv ->
            s !! "upload_logs" = Some (default (JBool false) (file !! "upload_logs")))).
Proof.
  intros argv w s.
  apply (upload_all_sets_both_flags sample_config argv w s
           (snd (load_settings sample_config argv w))).
  apply returns_eta. vm_compute. reflexivity.
Defined.

(** ** A program logic for the top-level block *)

Section Hoare.
Context {St : Type}.

Lemma hoare_ret {A} (P : St -> Prop) (a : A) (Q : A -> St -> Prop) I :
  (forall s, P s -> Q a s) -> hoare P (ret a) Q I.
Proof. intros H s Hs. cbn. auto. Qed.

Lemma hoare_bind {A B} (P : St -> Prop) (m : Prog St A) (k : A -> Prog St B)
  (R : A -> St -> Prop) (Q : B -> St -> Prop) I :
  hoare P m R I -> (forall a, hoare (R a) (k a) Q I) -> hoare P (bind m k) Q I.
Proof.
  intros Hm Hk s Hs. specialize (Hm s Hs). unfold bind.
  destruct (m s) as [[a | c | e] s1]; try exact Hm.
  apply Hk, Hm.
Qed.

Lemma hoare_lift_result {A} (P : St -> Prop) (r : result A) I :
  (forall s, P s -> I s) -> hoare P (lift_result r) (fun _ => P) I.
Proof. intros H s Hs. unfold lift_result. destruct r; auto. Qed.

End Hoare.

Section MainFacts.

Context (cfg : config) {Runner HtmlGenerator Cluster : Type}.
Context (create_contests : settings -> Prog Cluster (list Runner)).
Context (run_contest_remotely : Runner -> list Host -> json -> bool -> Prog Cluster unit).
Context (store_results : Runner -> Prog Cluster (json * json * json)).
Context (contest_timestamp_id : Runner -> Cluster -> json).
Context (html_generator_new : json -> json -> Prog Cluster HtmlGenerator).
Context (add_run : HtmlGenerator -> json -> json -> json -> json -> Prog Cluster unit).
Context (clean_up : Runner -> Prog Cluster unit).

(** The equations of the block, for rewriting. *)
Lemma contest_loop_nil settings hosts resume i first :
  contest_loop Runner HtmlGenerator Cluster run_contest_remotely store_results
    contest_timestamp_id html_generator_new add_run clean_up settings hosts resume i first []
  = ret tt.
Proof. reflexivity. Qed.

Lemma contest_loop_cons settings hosts resume i first runner rest :
  contest_loop Runner HtmlGenerator Cluster run_contest_remotely store_results
    contest_timestamp_id html_generator_new add_run clean_up settings hosts resume i first
    (runner :: rest)
  = (record (RunRemotelyCalled i hosts resume first) ;;
     on_cluster (run_contest_remotely runner hosts resume first) ;;
     record (RunRemotelyReturned i) ;;
     record (StoreResultsCalled i) ;;
     urls <- on_cluster (store_results runner) ;;
     let '(stats_file_url, replays_file_url, logs_file_url) := urls in
     record (StoreResultsReturned i stats_file_url replays_file_url logs_file_url) ;;
     www <- lift_result (dict_getitem settings "www_dir") ;;
     org <- lift_result (dict_getitem settings "organizer") ;;
     html_generator <- on_cluster (html_generator_new www org) ;;
     record (HtmlGeneratorConstructed i www org) ;;
     run_id <- read_cluster (contest_timestamp_id runner) ;;
     record (TimestampIdRead i run_id) ;;
     record (AddRunCalled i run_id stats_file_url replays_file_url logs_file_url) ;;
     on_cluster (add_run html_generator run_id stats_file_url replays_file_url logs_file_url) ;;
     record (AddRunReturned i) ;;
     on_world (logging_info MsgWebPagesGenerated) ;;
     record (CleanUpCalled i) ;;
     on_cluster (clean_up runner) ;;
     record (CleanUpReturned i) ;;
     contest_loop Runner HtmlGenerator Cluster run_contest_remotely store_results
       contest_timestamp_id html_generator_new add_run clean_up settings hosts resume
       (S i) false rest).
Proof. reflexivity. Qed.

Lemma run_contests_eq settings hosts :
  run_contests Runner HtmlGenerator Cluster create_contests run_contest_remotely store_results
    contest_timestamp_id html_generator_new add_run clean_up settings hosts
  = (resume_contest_folder <- lift_result (dict_getitem settings "resume_contest_folder") ;;
     on_world (logging_info (MsgWillCreateRunner (delete "resume_contest_folder" settings))) ;;
     record (MultiContestConstructed (delete "resume_contest_folder" settings)) ;;
     runners <- on_cluster (create_contests (delete "resume_contest_folder" settings)) ;;
     contest_loop Runner HtmlGenerator Cluster run_contest_remotely store_results
       contest_timestamp_id html_generator_new add_run clean_up
       (delete "resume_contest_folder" settings) hosts resume_contest_folder 0 true runners).
Proof. reflexivity. Qed.

Lemma main_eq argv :
  main cfg Runner HtmlGenerator Cluster create_contests run_contest_remotely store_results
    contest_timestamp_id html_generator_new add_run clean_up argv
  = (settings <- on_world (load_settings cfg argv) ;;
     hosts <- load_hosts settings ;;
     run_contests Runner HtmlGenerator Cluster create_contests run_contest_remotely
       store_results contest_timestamp_id html_generator_new add_run clean_up settings hosts).
Proof. reflexivity. Qed.

Local Abbreviation contest_loop :=
  (contest_loop Runner HtmlGenerator Cluster run_contest_remotely store_results
     contest_timestamp_id html_generator_new add_run clean_up).
Local Abbreviation run_contests :=
  (run_contests Runner HtmlGenerator Cluster create_contests run_contest_remotely store_results
     contest_timestamp_id html_generator_new add_run clean_up).
Local Abbreviation main :=
  (main cfg Runner HtmlGenerator Cluster create_contests run_contest_remotely store_results
     contest_timestamp_id html_generator_new add_run clean_up).

Lemma thoare_bind {A B} T (m : Prog (machine Cluster) A) (k : A -> Prog (machine Cluster) B)
  R Q I :
  thoare T m R I -> (forall a, thoare (R a) (k a) Q I) -> thoare T (bind m k) Q I.
Proof. apply hoare_bind. Qed.

Lemma thoare_ret {A} (T : list event -> Prop) (a : A) I :
  thoare (Cluster := Cluster) T (ret a) (fun _ => T) I.
Proof. apply hoare_ret. auto. Qed.

Lemma thoare_on_world {A} (T : list event -> Prop) (p : Prog world A) I :
  (forall t, T t -> I t) -> thoare (Cluster := Cluster) T (on_world p) (fun _ => T) I.
Proof.
  intros H m Hm. unfold on_world. destruct (p (m_world m)) as [[a | c | e] w]; cbn; auto.
Qed.

Lemma thoare_on_cluster {A} (T : list event -> Prop) (p : Prog Cluster A) I :
  (forall t, T t -> I t) -> thoare T (on_cluster p) (fun _ => T) I.
Proof.
  intros H m Hm. unfold on_cluster. destruct (p (m_cluster m)) as [[a | c | e] w]; cbn; auto.
Qed.

Lemma thoare_lift_result {A} (T : list event -> Prop) (r : result A) I :
  (forall t, T t -> I t) -> thoare (Cluster := Cluster) T (lift_result r) (fun _ => T) I.
Proof. intros H. apply hoare_lift_result. auto. Qed.

Lemma thoare_read_cluster {A} (T : list event -> Prop) (f : Cluster -> A) I :
  thoare T (read_cluster f) (fun _ => T) I.
Proof. intros m Hm. cbn. exact Hm. Qed.

Lemma thoare_record (T T' : list event -> Prop) (e : event) I :
  (forall t, T t -> T' (t ++ [e])) -> thoare (Cluster := Cluster) T (record e) (fun _ => T') I.
Proof. intros H m Hm. cbn. auto. Qed.

(** *** Traces *)

Lemma ordered_nil : ordered [].
Proof. intros before e after H. by destruct before. Qed.

Lemma ordered_snoc t e : ordered t -> enabled t e -> ordered (t ++ [e]).
Proof.
  intros Ht He before e' after Heq.
  destruct after as [| x after _] using rev_ind.
  - apply app_inj_tail in Heq as [<- <-]. exact He.
  - rewrite app_comm_cons, app_assoc in Heq.
    apply app_inj_tail in Heq as [-> _]. by eapply Ht.
Qed.

Lemma constructed_hosts_snoc t e :
  constructed_hosts (t ++ [e]) =
    constructed_hosts t ++ match e with HostConstructed h => [h] | _ => [] end.
Proof. unfold constructed_hosts. rewrite omap_app. by destruct e. Qed.

Lemma running_snoc hs t e :
  running hs t -> enabled t e ->
  match e with HostConstructed _ => False | _ => True end ->
  running hs (t ++ [e]).
Proof.
  intros [Ho Hh] He Hne. split; [by apply ordered_snoc |].
  rewrite constructed_hosts_snoc, Hh. destruct e; try done; by rewrite app_nil_r.
Qed.

Lemma contest_loop_running settings hosts resume hs runners :
  forall i first,
    thoare (running hs) (contest_loop settings hosts resume i first runners)
      (fun _ => running hs) (running hs).
Proof.
  induction runners as [| runner rest IH]; intros i first.
  { rewrite contest_loop_nil. apply thoare_ret. }
  rewrite contest_loop_cons.
  pose (A1 := fun t => running hs t /\ RunRemotelyReturned i ∈ t).
  pose (A2 := fun a b c t => running hs t /\ StoreResultsReturned i a b c ∈ t).
  pose (A3 := fun a b c id t => A2 a b c t /\ TimestampIdRead i id ∈ t).
  eapply thoare_bind; [apply (thoare_record _ (running hs)) | intros ?].
  { intros t Ht. by apply running_snoc. }
  eapply thoare_bind; [by apply thoare_on_cluster | intros ?].
  eapply thoare_bind; [apply (thoare_record _ A1) | intros ?].
  { intros t Ht. split; [by apply running_snoc | set_solver]. }
  eapply thoare_bind; [apply (thoare_record _ A1) | intros ?].
  { intros t [Ht Hin]. split; [by apply running_snoc | set_solver]. }
  eapply thoare_bind; [apply thoare_on_cluster; by intros t [] | intros [[stats replays] logs]].
  eapply thoare_bind; [apply (thoare_record _ (A2 stats replays logs)) | intros ?].
  { intros t [Ht Hin]. split; [by apply running_snoc | set_solver]. }
  eapply thoare_bind; [apply thoare_lift_result; by intros t [] | intros www].
  eapply thoare_bind; [apply thoare_lift_result; by intros t [] | intros org].
  eapply thoare_bind; [apply thoare_on_cluster; by intros t [] | intros html].
  eapply thoare_bind; [apply (thoare_record _ (A2 stats replays logs)) | intros ?].
  { intros t [Ht Hin]. split; [by apply running_snoc | set_solver]. }
  eapply thoare_bind; [apply thoare_read_cluster | intros run_id].
  eapply thoare_bind; [apply (thoare_record _ (A3 stats replays logs run_id)) | intros ?].
  { intros t [Ht Hin]. split; [split; [by apply running_snoc | set_solver] | set_solver]. }
  eapply thoare_bind; [apply (thoare_record _ (A2 stats replays logs)) | intros ?].
  { intros t [[Ht Hin] Hid]. split; [by apply running_snoc | set_solver]. }
  eapply thoare_bind; [apply thoare_on_cluster; by intros t [] | intros ?].
  eapply thoare_bind; [apply (thoare_record _ (A2 stats replays logs)) | intros ?].
  { intros t [Ht Hin]. split; [by apply running_snoc | set_solver]. }
  eapply thoare_bind; [apply thoare_on_world; by intros t [] | intros ?].
  eapply thoare_bind; [apply (thoare_record _ (A2 stats replays logs)) | intros ?].
  { intros t [Ht Hin]. split; [apply running_snoc; cbn; eauto | set_solver]. }
  eapply thoare_bind; [apply thoare_on_cluster; by intros t [] | intros ?].
  eapply thoare_bind; [apply (thoare_record _ (running hs)) | intros ?].
  { intros t [Ht Hin]. by apply running_snoc. }
  apply IH.
Qed.

Lemma run_contests_running settings hosts hs :
  thoare (running hs) (run_contests settings hosts) (fun _ => running hs) (running hs).
Proof.
  rewrite run_contests_eq.
  eapply thoare_bind; [by apply thoare_lift_result | intros resume].
  eapply thoare_bind; [by apply thoare_on_world | intros ?].
  eapply thoare_bind; [apply (thoare_record _ (running hs)) | intros ?].
  { intros t Ht. by apply running_snoc. }
  eapply thoare_bind; [by apply thoare_on_cluster | intros runners].
  apply contest_loop_running.
Qed.

Lemma thoare_ordered {A} (p : Prog (machine Cluster) A) :
  (forall hs, thoare (running hs) p (fun _ => running hs) (running hs)) ->
  thoare ordered p (fun _ => ordered) ordered.
Proof.
  intros H m Hm. specialize (H (constructed_hosts (m_trace m)) m (conj Hm eq_refl)).
  destruct (p m) as [[a | c | e] m']; apply H.
Qed.

Lemma make_hosts_ordered ws :
  thoare (Cluster := Cluster) ordered (make_hosts ws) (fun _ => ordered) ordered.
Proof.
  induction ws as [| w ws IH]; cbn [make_hosts].
  { apply thoare_ret. }
  eapply thoare_bind; [| intros h].
  { unfold make_host.
    eapply thoare_bind; [by apply thoare_lift_result | intros v1].
    eapply thoare_bind; [by apply thoare_lift_result | intros v2].
    eapply thoare_bind; [by apply thoare_lift_result | intros v3].
    eapply thoare_bind; [by apply thoare_lift_result | intros v4].
    eapply thoare_bind; [by apply thoare_lift_result | intros v5].
    eapply thoare_bind; [by apply thoare_lift_result | intros v6].
    eapply thoare_bind; [apply (thoare_record _ ordered) | intros ?].
    { intros t Ht. by apply ordered_snoc. }
    apply thoare_ret. }
  eapply thoare_bind; [apply IH | intros hs].
  apply thoare_ret.
Qed.

Lemma load_hosts_ordered settings :
  thoare (Cluster := Cluster) ordered (load_hosts settings) (fun _ => ordered) ordered.
Proof.
  unfold load_hosts.
  eapply thoare_bind; [by apply thoare_lift_result | intros name].
  eapply thoare_bind; [by apply thoare_on_world | intros roster].
  eapply thoare_bind; [by apply thoare_lift_result | intros details].
  eapply thoare_bind; [by apply thoare_on_world | intros ?].
  eapply thoare_bind; [by apply thoare_lift_result | intros ws].
  apply make_hosts_ordered.
Qed.

Lemma main_ordered argv :
  thoare ordered (main argv) (fun _ => ordered) ordered.
Proof.
  rewrite main_eq.
  eapply thoare_bind; [by apply thoare_on_world | intros settings].
  eapply thoare_bind; [apply load_hosts_ordered | intros hosts].
  apply thoare_ordered. intros hs. apply run_contests_running.
Qed.

Lemma main_trace_ordered argv m :
  m_trace m = [] -> ordered (m_trace (snd (main argv m))).
Proof.
  intros Hm. pose proof (main_ordered argv m) as H. cbn beta in H.
  rewrite Hm in H. specialize (H ordered_nil).
  destruct (main argv m) as [[a | c | e] m']; exact H.
Qed.

(** *** The statements about the top-level block *)

(** C5.  In every run of the script, started with an empty trace and
    whatever the collaborators do, [store_results] is called for a contest
    only after [run_contest_remotely] has returned for that contest, and
    [add_run] is called only after [store_results] has returned, with the
    three locations [store_results] returned and the identity read from the
    runner. *)
Theorem archive_after_run_and_report_after_archive argv m r m' :
  m_trace m = [] ->
  main argv m = (r, m') ->
  forall i before after,
    (m_trace m' = before ++ StoreResultsCalled i :: after -> RunRemotelyReturned i ∈ before)
    /\ (forall run_id stats replays logs,
          m_trace m' = before ++ AddRunCalled i run_id stats replays logs :: after ->
          StoreResultsReturned i stats replays logs ∈ before
          /\ TimestampIdRead i run_id ∈ before).
Proof.
  intros Hm Hrun i before after.
  pose proof (main_trace_ordered argv m Hm) as Hord. rewrite Hrun in Hord. cbn in Hord.
  split.
  - intros Heq. exact (Hord _ _ _ Heq).
  - intros run_id stats replays logs Heq. exact (Hord _ _ _ Heq).
Qed.

(** C6.  In every run of the script, [clean_up] is called for a contest only
    after [store_results] has returned for that contest. *)
Theorem clean_up_after_archive argv m r m' :
  m_trace m = [] ->
  main argv m = (r, m') ->
  forall i before after,
    m_trace m' = before ++ CleanUpCalled i :: after ->
    exists stats replays logs, StoreResultsReturned i stats replays logs ∈ before.
Proof.
  intros Hm Hrun i before after Heq.
  pose proof (main_trace_ordered argv m Hm) as Hord. rewrite Hrun in Hord. cbn in Hord.
  exact (Hord _ _ _ Heq).
Qed.

Lemma main_load_exit argv m c w' :
  load_settings cfg argv (m_world m) = (Exit c, w') ->
  main argv m = (Exit c, Machine w' (m_cluster m) (m_trace m)).
Proof.
  intros H. rewrite main_eq. apply bind_Exit. unfold on_world. by rewrite H.
Qed.

(** C3, as the code has it.  At load time (the command line parsed), if a
    resume folder is supplied and lacks its stored configuration file, or no
    resume folder is supplied and the file named by [--config-file] does not
    exist, then [load_settings] exits with status 1, and so does the whole
    script: no host has been constructed, no collaborator called, the trace
    and the cluster are untouched. *)
Theorem missing_config_stops_before_hosts argv m :
  parse_stop argv = None ->
  (exists folder,
     resume_contest_folder (namespace argv) = Some folder
     /\ fs (m_world m) !! resume_config_path cfg folder = None)
  \/ (resume_contest_folder (namespace argv) = None
      /\ exists file,
           config_file (namespace argv) = Some file /\ fs (m_world m) !! file = None) ->
  exists w',
    load_settings cfg argv (m_world m) = (Exit 1, w')
    /\ main argv m = (Exit 1, Machine w' (m_cluster m) (m_trace m)).
Proof.
  intros Hstop [(folder & Hres & Hfs) | (Hres & file & Hcf & Hfs)].
  - eexists. split; [by eapply load_settings_resume_config_missing |].
    apply main_load_exit. by eapply load_settings_resume_config_missing.
  - eexists. split; [by eapply load_settings_config_file_missing |].
    apply main_load_exit. by eapply load_settings_config_file_missing.
Qed.

Lemma make_host_complete w (m : machine Cluster) :
  complete_descriptor w ->
  exists h,
    make_host w m = (Ok h, Machine (m_world m) (m_cluster m) (m_trace m ++ [HostConstructed h]))
    /\ describes w h.
Proof.
  intros (d & -> & [v1 H1] & [v2 H2] & [v3 H3] & [v4 H4] & [v5 H5] & [v6 H6]).
  exists (MkHost v1 v2 v3 v4 v5 v6). split.
  - unfold make_host, bind, lift_result. cbn [Py.getitem].
    rewrite H1, H2, H3, H4, H5, H6. reflexivity.
  - unfold describes. cbn. rewrite H1, H2, H3, H4, H5, H6. done.
Qed.

Lemma make_hosts_complete ws (m : machine Cluster) :
  Forall complete_descriptor ws ->
  exists hs,
    make_hosts ws m =
      (Ok hs, Machine (m_world m) (m_cluster m) (m_trace m ++ (HostConstructed <$> hs)))
    /\ Forall2 describes ws hs.
Proof.
  intros Hws. revert m. induction Hws as [| w ws Hw _ IH]; intros m.
  - exists []. split; [| constructor]. cbn. rewrite app_nil_r. by destruct m.
  - destruct (make_host_complete w m Hw) as (h & Hh & Hd).
    destruct (IH (Machine (m_world m) (m_cluster m) (m_trace m ++ [HostConstructed h])))
      as (hs & Hhs & Hds).
    exists (h :: hs). split; [| by constructor].
    cbn [make_hosts]. rewrite (bind_step _ _ _ _ _ Hh), (bind_step _ _ _ _ _ Hhs).
    cbn. by rewrite <- app_assoc.
Qed.

Lemma ordered_hosts hs : ordered (HostConstructed <$> hs).
Proof.
  induction hs as [| h hs IH] using rev_ind; [apply ordered_nil |].
  rewrite fmap_app. by apply ordered_snoc.
Qed.

Lemma constructed_hosts_fmap hs : constructed_hosts (HostConstructed <$> hs) = hs.
Proof. induction hs as [| h hs IH]; cbn; [done | by f_equal]. Qed.

(** C7, as the code has it.  When every descriptor of the roster's
    ["workers"] list carries the six keys [no_cpu], [hostname], [username],
    [password], [private_key_file] and [private_key_password], the script
    constructs exactly one host per descriptor, in order, each carrying the
    six values of its descriptor; it constructs no other host, whatever
    happens afterwards. *)
Theorem one_host_per_complete_descriptor argv m r m' s w1 path roster ws :
  m_trace m = [] ->
  main argv m = (r, m') ->
  load_settings cfg argv (m_world m) = (Ok s, w1) ->
  s !! "workers_file" = Some (JStr path) ->
  fs w1 !! path = Some (File (Some roster)) ->
  Py.getitem roster "workers" = Ok (JList ws) ->
  Forall complete_descriptor ws ->
  exists hs,
    constructed_hosts (m_trace m') = hs
    /\ Forall2 describes ws hs
    /\ length hs = length ws.
Proof.
  intros Hm Hrun Hload Hname Hfile Hworkers Hws.
  rewrite main_eq in Hrun.
  rewrite (bind_step _ _ _ s (Machine w1 (m_cluster m) (m_trace m))) in Hrun
    by (unfold on_world; by rewrite Hload).
  set (m2 := Machine
               (World (fs w1) (console w1 ++ [Log INFO (MsgHostWorkers (JList ws))]))
               (m_cluster m) (m_trace m)).
  destruct (make_hosts_complete ws m2 Hws) as (hs & Hhs & Hds).
  assert (Hhosts : load_hosts s (Machine w1 (m_cluster m) (m_trace m))
                   = (Ok hs, Machine (m_world m2) (m_cluster m) (HostConstructed <$> hs))).
  { unfold load_hosts, bind, lift_result, dict_getitem. rewrite Hname.
    unfold on_world, open_json, json_load. cbn [m_world]. rewrite Hfile, Hworkers.
    unfold m2 in Hhs. cbn in Hhs |- *. rewrite Hhs, Hm. reflexivity. }
  rewrite (bind_step _ _ _ _ _ Hhosts) in Hrun.
  pose proof (run_contests_running s hs hs
                (Machine (m_world m2) (m_cluster m) (HostConstructed <$> hs))) as Hinv.
  cbn beta in Hinv. rewrite Hrun in Hinv.
  assert (Hfinal : running hs (m_trace m')).
  { destruct r; apply Hinv; (split; [apply ordered_hosts | apply constructed_hosts_fmap]). }
  exists hs. split; [apply Hfinal |]. split; [exact Hds |].
  symmetry. by eapply Forall2_length.
Qed.

End MainFacts.

(** ** The top-level block on the sample collaborators *)

(** C3 fails as stated: with a resume folder, a [--config-file] that does
    not exist stops nothing; [load_settings] returns the stored plan. *)
Lemma resume_hides_missing_config_file :
  fs resume_world !! "missing.json" = None
  /\ match load_settings sample_config
             [ResumeContestFolder "/tmp/run"; ConfigFile "missing.json"] resume_world with
     | (Ok s, w') => s !! "teams_root" = Some (JStr "teamsA")
     | _ => False
     end.
Proof. vm_compute. split; reflexivity. Qed.

(** A missing [--config-file] stops the sample script at once. *)
Lemma missing_config_stops_before_hosts_witness :
  let argv := [ConfigFile "missing.json"; Split "2"] in
  let m := Sample.start (config_world 3) in
  exists w',
    load_settings sample_config argv (m_world m) = (Exit 1, w')
    /\ Sample.main argv m = (Exit 1, Machine w' (m_cluster m) (m_trace m)).
Proof.
  intros argv m.
  apply (missing_config_stops_before_hosts sample_config Sample.create_contests
           Sample.run_contest_remotely Sample.store_results Sample.contest_timestamp_id
           Sample.html_generator_new Sample.add_run Sample.clean_up argv m).
  - reflexivity.
  - right. split; [reflexivity |]. exists "missing.json". split; reflexivity.
Defined.

(** The ordering on the run of the sample script: [store_results] is the
    fifth call of the run and [add_run] the ninth. *)
Lemma archive_after_run_and_report_after_archive_witness :
  let m := Sample.start (roster_world complete_worker) in
  let t := m_trace (snd (Sample.main [ConfigFile "c.json"] m)) in
  RunRemotelyReturned 0 ∈ take 4 t
  /\ StoreResultsReturned 0 (JStr "stats") (JStr "replays") (JStr "logs") ∈ take 8 t
  /\ TimestampIdRead 0 (JInt 10) ∈ take 8 t.
Proof.
  intros m t.
  pose proof (archive_after_run_and_report_after_archive sample_config Sample.create_contests
                Sample.run_contest_remotely Sample.store_results Sample.contest_timestamp_id
                Sample.html_generator_new Sample.add_run Sample.clean_up
                [ConfigFile "c.json"] m
                (fst (Sample.main [ConfigFile "c.json"] m))
                (snd (Sample.main [ConfigFile "c.json"] m))
                eq_refl (surjective_pairing _)) as H.
  split.
  - apply (proj1 (H 0%nat (take 4 t) (drop 5 t))).
    symmetry. apply take_drop_middle. vm_compute. reflexivity.
  - apply (proj2 (H 0%nat (take 8 t) (drop 9 t))).
    symmetry. apply take_drop_middle. vm_compute. reflexivity.
Defined.

(** The ordering on the run of the sample script: [clean_up] is the eleventh
    call of the run. *)
Lemma clean_up_after_archive_witness :
  let m := Sample.start (roster_world complete_worker) in
  let t := m_trace (snd (Sample.main [ConfigFile "c.json"] m)) in
  exists stats replays logs, StoreResultsReturned 0 stats replays logs ∈ take 10 t.
Proof.
  intros m t.
  apply (clean_up_after_archive sample_config Sample.create_contests
           Sample.run_contest_remotely Sample.store_results Sample.contest_timestamp_id
           Sample.html_generator_new Sample.add_run Sample.clean_up
           [ConfigFile "c.json"] m
           (fst (Sample.main [ConfigFile "c.json"] m))
           (snd (Sample.main [ConfigFile "c.json"] m))
           eq_refl (surjective_pairing _) 0%nat (take 10 t) (drop 11 t)).
  symmetry. apply take_drop_middle. vm_compute. reflexivity.
Defined.

(** C7 fails as stated: a descriptor with a host name, a user name, a
    password and a number of CPUs, but no key file, makes the script raise
    [KeyError] before any host is constructed. *)
Lemma password_only_worker_aborts :
  match Sample.main [ConfigFile "c.json"] (Sample.start (roster_world password_only_worker)) with
  | (Raise (KeyError key), m') =>
      key = "private_key_file" /\ constructed_hosts (m_trace m') = []
  | _ => False
  end.
Proof. vm_compute. split; reflexivity. Qed.

Lemma complete_worker_complete : complete_descriptor complete_worker.
Proof.
  eexists. split; [reflexivity |].
  repeat split; vm_compute; eauto.
Qed.

(** One complete descriptor, one host. *)
Lemma one_host_per_complete_descriptor_witness :
  let argv := [ConfigFile "c.json"] in
  let m := Sample.start (roster_world complete_worker) in
  let run := Sample.main argv m in
  exists hs,
    constructed_hosts (m_trace (snd run)) = hs
    /\ Forall2 describes [complete_worker] hs
    /\ length hs = length [complete_worker].
Proof.
  intros argv m run.
  apply (one_host_per_complete_descriptor sample_config Sample.create_contests
           Sample.run_contest_remotely Sample.store_results Sample.contest_timestamp_id
           Sample.html_generator_new Sample.add_run Sample.clean_up
           argv m (fst run) (snd run)
           (value_or ∅ (load_settings sample_config argv (m_world m)))
           (snd (load_settings sample_config argv (m_world m)))
           "workers.json"
           (JObj (dict [("workers", JList [complete_worker])]))
           [complete_worker]).
  - reflexivity.
  - apply surjective_pairing.
  - apply returns_eta. vm_compute. reflexivity.
  - vm_compute. reflexivity.
  - reflexivity.
  - reflexivity.
  - constructor; [apply complete_worker_complete | constructor].
Defined.

(** ** Two options that do not follow the layers *)

(** The parser's default for [--organizer] is part of the command-line
    layer, so that an organizer set in the configuration file is never
    returned. *)
Example organizer_default_overrides_file :
  match load_settings sample_config [ConfigFile "c.json"]
          (World (dict [("c.json", File (Some (JObj (dict [("organizer", JStr "RMIT")]))))]) [])
  with
  | (Ok s, _) => s !! "organizer" = Some (JStr "Uni Pacman")
  | _ => False
  end.
Proof. vm_compute. reflexivity. Qed.

(** [--fixed-layouts-file] is parsed and then never copied to the
    command-line layer. *)
Example fixed_layouts_file_option_ignored :
  match load_settings sample_config [FixedLayoutsFile "mine.zip"] (World ∅ []) with
  | (Ok s, _) => s !! "fixed_layouts_file" = Some (JStr "layouts.zip")
  | _ => False
  end.
Proof. vm_compute. reflexivity. Qed.

(** The calls of the sample script on a roster of one worker and two
    contests (the construction of [MultiContest] left out). *)
Example sample_run_trace :
  let host := MkHost (JInt 4) (JStr "node1") (JStr "pacman") (JStr "secret") JNull JNull in
  let contest i first :=
    [RunRemotelyCalled i [host] JNull first; RunRemotelyReturned i;
     StoreResultsCalled i;
     StoreResultsReturned i (JStr "stats") (JStr "replays") (JStr "logs");
     HtmlGeneratorConstructed i (JStr "www") (JStr "Uni Pacman");
     TimestampIdRead i (JInt (10 * (Z.of_nat i + 1)));
     AddRunCalled i (JInt (10 * (Z.of_nat i + 1))) (JStr "stats") (JStr "replays") (JStr "logs");
     AddRunReturned i; CleanUpCalled i; CleanUpReturned i] in
  omap (fun e => match e with MultiContestConstructed _ => None | _ => Some e end)
    (m_trace (snd (Sample.main [ConfigFile "c.json"]
                     (Sample.start (roster_world complete_worker)))))
  = HostConstructed host :: contest 0%nat true ++ contest 1%nat false.
Proof. vm_compute. reflexivity. Qed.

(** * Further properties of [load_settings] *)

(** ** Lookups in what is returned *)

Lemma load_settings_lookup cfg argv w s w' :
  load_settings cfg argv w = (Ok s, w') ->
  exists file cli,
    file_layer cfg (namespace argv) w file
    /\ cli_layer (namespace argv) = Ok cli
    /\ forall k, k <> "split" ->
         s !! k = by_precedence cli file (settings_default cfg (namespace argv)) k.
Proof.
  intros (_ & _ & file & cli & Hfile & Hcli & -> & _)%load_settings_Ok.
  exists file, cli. split; [exact Hfile |]. split; [exact Hcli |].
  intros k Hk. rewrite normalise_split_lookup.
  destruct (String.eqb_spec k "split"); [done |]. cbn [andb]. apply dict_merge_lookup.
Qed.

Lemma lookup_set_given_eq o k f (d : settings) :
  set_given o k f d !! k = match Py.given o with Some v => Some (f v) | None => d !! k end.
Proof. unfold set_given. destruct (Py.given o); [apply lookup_setitem_eq | done]. Qed.

Lemma set_int_Ok o k d d' :
  set_int o k d = Ok d' ->
  match Py.given o with
  | Some text => exists z, Py.int text = Some z /\ d' = setitem k (JInt z) d
  | None => d' = d
  end.
Proof.
  unfold set_int. destruct (Py.given o) as [text |]; [| by intros [= <-]].
  intros (v & Hv & [= <-])%rbind_Ok. unfold int_or_raise in Hv.
  destruct (Py.int text) as [z |]; [| discriminate]. injection Hv as <-. eauto.
Qed.

Lemma cli_block_early_key a d cli k :
  cli_block a d = Ok cli ->
  k <> "no_fixed_layouts" -> k <> "fixed_layout_seeds" -> k <> "no_random_layouts" ->
  k <> "random_layout_seeds" -> k <> "max_steps" -> k <> "upload_replays" ->
  k <> "upload_logs" -> k <> "allow_non_registered_students" -> k <> "split" ->
  cli !! k =
    (set_str (logs_archive_dir a) "logs_archive_dir"
    (set_str (replays_archive_dir a) "replays_archive_dir"
    (set_str (stats_archive_dir a) "stats_archive_dir"
    (set_if (Py.truthy (team_names_file a)) "ignore_file_name_format" (JBool false)
    (set_str (team_names_file a) "team_names_file"
    (set_str (teams_root a) "teams_root"
    (set_if (staff_teams_vs_others_only a) "staff_teams_vs_others_only" (JBool true)
    (set_if (Py.truthy (staff_teams_dir a)) "include_staff_team" (JBool true)
    (set_str (staff_teams_dir a) "staff_teams_dir"
    (set_str (workers_file a) "workers_file"
    (set_if (compress_logs a) "compress_logs" (JBool (compress_logs a))
    (set_str (www_dir a) "www_dir"
    (set_str (Some (organizer a)) "organizer" d))))))))))))) !! k.
Proof.
  intros (d1 & d2 & d3 & d4 & H1 & H2 & H3 & H4 & ->)%cli_block_Ok
    Hk1 Hk2 Hk3 Hk4 Hk5 Hk6 Hk7 Hk8 Hk9.
  rewrite !lookup_set_if_ne by done.
  assert (Htail : d4 !! k = d1 !! k).
  { rewrite (set_int_lookup_ne _ _ _ _ _ H4) by done. rewrite H3 by done.
    rewrite (set_int_lookup_ne _ _ _ _ _ H2) by done.
    by rewrite lookup_set_given_ne by done. }
  destruct (upload_all a).
  - rewrite !lookup_setitem_ne by done. rewrite Htail.
    by rewrite (set_int_lookup_ne _ _ _ _ _ H1) by done.
  - rewrite !lookup_set_if_ne by done. rewrite Htail.
    by rewrite (set_int_lookup_ne _ _ _ _ _ H1) by done.
Qed.

Lemma cli_block_steps a d cli :
  cli_block a d = Ok cli ->
  exists d1 d2 d3 d4,
    set_int (no_fixed_layouts a) "no_fixed_layouts"
      (set_str (logs_archive_dir a) "logs_archive_dir"
      (set_str (replays_archive_dir a) "replays_archive_dir"
      (set_str (stats_archive_dir a) "stats_archive_dir"
      (set_if (Py.truthy (team_names_file a)) "ignore_file_name_format" (JBool false)
      (set_str (team_names_file a) "team_names_file"
      (set_str (teams_root a) "teams_root"
      (set_if (staff_teams_vs_others_only a) "staff_teams_vs_others_only" (JBool true)
      (set_if (Py.truthy (staff_teams_dir a)) "include_staff_team" (JBool true)
      (set_str (staff_teams_dir a) "staff_teams_dir"
      (set_str (workers_file a) "workers_file"
      (set_if (compress_logs a) "compress_logs" (JBool (compress_logs a))
      (set_str (www_dir a) "www_dir"
      (set_str (Some (organizer a)) "organizer" d))))))))))))) = Ok d1
    /\ set_int (no_random_layouts a) "no_random_layouts"
         (set_given (fixed_layout_seeds a) "fixed_layout_seeds"
            (fun names => JList (JStr <$> Py.str_split_comma names)) d1) = Ok d2
    /\ match Py.given (random_layout_seeds a) with
       | Some text =>
           exists seeds,
             ints_or_raise (Py.str_split_comma text) = Ok seeds
             /\ d3 = setitem "random_layout_seeds" (JList seeds) d2
       | None => d3 = d2
       end
    /\ set_int (max_steps a) "max_steps" d3 = Ok d4
    /\ forall k,
         k <> "upload_replays" -> k <> "upload_logs" ->
         k <> "allow_non_registered_students" -> k <> "split" ->
         cli !! k = d4 !! k.
Proof.
  intros H. unfold cli_block in H.
  apply rbind_Ok in H as (d1 & H1 & H).
  apply rbind_Ok in H as (d2 & H2 & H).
  apply rbind_Ok in H as (d3 & H3 & H).
  apply rbind_Ok in H as (d4 & H4 & H).
  injection H as <-.
  exists d1, d2, d3, d4. repeat split; try assumption.
  - destruct (Py.given (random_layout_seeds a)) as [text |].
    + apply rbind_Ok in H3 as (seeds & Hseeds & [= <-]). eauto.
    + by injection H3 as <-.
  - intros k Hk1 Hk2 Hk3 Hk4. rewrite !lookup_set_if_ne by done.
    destruct (upload_all a); [by rewrite !lookup_setitem_ne by done |].
    by rewrite !lookup_set_if_ne by done.
Qed.

(** ** Options with a companion key (lines 248-250 and 257-259) *)

(** X1.  A non-empty [--staff-teams-dir] is returned as [staff_teams_dir] and
    switches [include_staff_team] on, whatever the configuration file says;
    without it both keys keep the value of the file, or their defaults
    [None] and [False]. *)
Theorem staff_teams_dir_sets_include_staff_team cfg argv w s w' :
  load_settings cfg argv w = (Ok s, w') ->
  (forall dir,
     Py.given (staff_teams_dir (namespace argv)) = Some dir ->
     s !! "staff_teams_dir" = Some (JStr dir)
     /\ s !! "include_staff_team" = Some (JBool true))
  /\ (Py.given (staff_teams_dir (namespace argv)) = None ->
      exists file,
        file_layer cfg (namespace argv) w file
        /\ s !! "staff_teams_dir" = Some (default JNull (file !! "staff_teams_dir"))
        /\ s !! "include_staff_team"
           = Some (default (JBool false) (file !! "include_staff_team"))).
Proof.
  intros (file & cli & Hfile & Hcli & Hk)%load_settings_lookup.
  unfold cli_layer in Hcli.
  assert (Hdir : cli !! "staff_teams_dir"
                 = JStr <$> Py.given (staff_teams_dir (namespace argv))).
  { rewrite (cli_block_early_key _ _ _ _ Hcli) by discriminate. skip_keys.
    unfold set_str at 1. rewrite lookup_set_given_eq.
    destruct (Py.given (staff_teams_dir (namespace argv))); [done |].
    skip_keys. by apply cli_seed_lookup_ne. }
  assert (Hinc : cli !! "include_staff_team"
                 = if Py.truthy (staff_teams_dir (namespace argv))
                   then Some (JBool true) else None).
  { rewrite (cli_block_early_key _ _ _ _ Hcli) by discriminate. skip_keys.
    rewrite lookup_set_if_eq.
    destruct (Py.truthy (staff_teams_dir (namespace argv))); [done |].
    skip_keys. by apply cli_seed_lookup_ne. }
  rewrite !Hk by discriminate. unfold by_precedence. rewrite Hdir, Hinc.
  unfold Py.truthy. split.
  - intros dir ->. done.
  - intros ->. cbn [fmap option_fmap option_map]. exists file. split; [exact Hfile |].
    unfold settings_default. split.
    + destruct (file !! "staff_teams_dir"); [done |].
      rewrite !lookup_setitem_ne by discriminate. by rewrite lookup_setitem_eq.
    + destruct (file !! "include_staff_team"); [done |].
      rewrite !lookup_setitem_ne by discriminate. by rewrite lookup_setitem_eq.
Qed.

Lemma staff_teams_dir_sets_include_staff_team_witness :
  let argv := [ConfigFile "c.json"; StaffTeamsDir "staff"] in
  let s := value_or ∅ (load_settings sample_config argv (config_world 3)) in
  (forall dir,
     Py.given (staff_teams_dir (namespace argv)) = Some dir ->
     s !! "staff_teams_dir" = Some (JStr dir)
     /\ s !! "include_staff_team" = Some (JBool true))
  /\ (Py.given (staff_teams_dir (namespace argv)) = None ->
      exists file,
        file_layer sample_config (namespace argv) (config_world 3) file
        /\ s !! "staff_teams_dir" = Some (default JNull (file !! "staff_teams_dir"))
        /\ s !! "include_staff_team"
           = Some (default (JBool false) (file !! "include_staff_team"))).
Proof.
  intros argv s.
  apply (staff_teams_dir_sets_include_staff_team sample_config argv (config_world 3) s
           (snd (load_settings sample_config argv (config_world 3)))).
  apply returns_eta. vm_compute. reflexivity.
Defined.

(** X2.  A non-empty [--team-names-file] is returned as [team_names_file] and
    switches [ignore_file_name_format] off, whatever the configuration file
    says; without it both keys keep the value of the file, or their defaults
    [None] and [True]. *)
Theorem team_names_file_clears_ignore_file_name_format cfg argv w s w' :
  load_settings cfg argv w = (Ok s, w') ->
  (forall file_name,
     Py.given (team_names_file (namespace argv)) = Some file_name ->
     s !! "team_names_file" = Some (JStr file_name)
     /\ s !! "ignore_file_name_format" = Some (JBool false))
  /\ (Py.given (team_names_file (namespace argv)) = None ->
      exists file,
        file_layer cfg (namespace argv) w file
        /\ s !! "team_names_file" = Some (default JNull (file !! "team_names_file"))
        /\ s !! "ignore_file_name_format"
           = Some (default (JBool true) (file !! "ignore_file_name_format"))).
Proof.
  intros (file & cli & Hfile & Hcli & Hk)%load_settings_lookup.
  unfold cli_layer in Hcli.
  assert (Hname : cli !! "team_names_file"
                  = JStr <$> Py.given (team_names_file (namespace argv))).
  { rewrite (cli_block_early_key _ _ _ _ Hcli) by discriminate. skip_keys.
    unfold set_str at 1. rewrite lookup_set_given_eq.
    destruct (Py.given (team_names_file (namespace argv))); [done |].
    skip_keys. by apply cli_seed_lookup_ne. }
  assert (Hign : cli !! "ignore_file_name_format"
                 = if Py.truthy (team_names_file (namespace argv))
                   then Some (JBool false) else None).
  { rewrite (cli_block_early_key _ _ _ _ Hcli) by discriminate. skip_keys.
    rewrite lookup_set_if_eq.
    destruct (Py.truthy (team_names_file (namespace argv))); [done |].
    skip_keys. by apply cli_seed_lookup_ne. }
  rewrite !Hk by discriminate. unfold by_precedence. rewrite Hname, Hign.
  unfold Py.truthy. split.
  - intros file_name ->. done.
  - intros ->. cbn [fmap option_fmap option_map]. exists file. split; [exact Hfile |].
    unfold settings_default. split.
    + destruct (file !! "team_names_file"); [done |].
      rewrite !lookup_setitem_ne by discriminate. by rewrite lookup_setitem_eq.
    + destruct (file !! "ignore_file_name_format"); [done |].
      rewrite !lookup_setitem_ne by discriminate. by rewrite lookup_setitem_eq.
Qed.

Lemma team_names_file_clears_ignore_file_name_format_witness :
  let argv := [ConfigFile "c.json"; TeamNamesFile "teams.csv"] in
  let s := value_or ∅ (load_settings sample_config argv (config_world 3)) in
  (forall file_name,
     Py.given (team_names_file (namespace argv)) = Some file_name ->
     s !! "team_names_file" = Some (JStr file_name)
     /\ s !! "ignore_file_name_format" = Some (JBool false))
  /\ (Py.given (team_names_file (namespace argv)) = None ->
      exists file,
        file_layer sample_config (namespace argv) (config_world 3) file
        /\ s !! "team_names_file" = Some (default JNull (file !! "team_names_file"))
        /\ s !! "ignore_file_name_format"
           = Some (default (JBool true) (file !! "ignore_file_name_format"))).
Proof.
  intros argv s.
  apply (team_names_file_clears_ignore_file_name_format sample_config argv (config_world 3) s
           (snd (load_settings sample_config argv (config_world 3)))).
  apply returns_eta. vm_compute. reflexivity.
Defined.

(** ** Two options that do not follow the layers (lines 72-74, 119-122, 238-239) *)

Lemma organizer_default argv :
  (forall v, Organizer v ∉ argv) -> organizer (namespace argv) = "Uni Pacman".
Proof.
  intros H. cbn. rewrite last_value_None; [reflexivity |].
  intros [] Hx; try reflexivity. by apply H in Hx.
Qed.

(** X3.  The returned [organizer] is the one of the command line whenever that
    one is not empty, and it is ["Uni Pacman"] when [--organizer] is not
    given: an [organizer] set in the configuration file is returned only
    for an empty [--organizer]. *)
Theorem organizer_comes_from_the_command_line cfg argv w s w' :
  load_settings cfg argv w = (Ok s, w') ->
  (organizer (namespace argv) <> EmptyString ->
   s !! "organizer" = Some (JStr (organizer (namespace argv))))
  /\ ((forall v, Organizer v ∉ argv) -> s !! "organizer" = Some (JStr "Uni Pacman"))
  /\ (organizer (namespace argv) = EmptyString ->
      exists file,
        file_layer cfg (namespace argv) w file /\ s !! "organizer" = file !! "organizer").
Proof.
  intros (file & cli & Hfile & Hcli & Hk)%load_settings_lookup.
  unfold cli_layer in Hcli.
  assert (Horg : cli !! "organizer" = JStr <$> Py.given (Some (organizer (namespace argv)))).
  { rewrite (cli_block_early_key _ _ _ _ Hcli) by discriminate. skip_keys.
    unfold set_str at 1. rewrite lookup_set_given_eq.
    destruct (Py.given (Some (organizer (namespace argv)))); [done |].
    by apply cli_seed_lookup_ne. }
  rewrite Hk by discriminate. unfold by_precedence. rewrite Horg.
  assert (Hne : organizer (namespace argv) <> EmptyString ->
                JStr <$> Py.given (Some (organizer (namespace argv)))
                = Some (JStr (organizer (namespace argv)))).
  { intros Hne. destruct (organizer (namespace argv)); done. }
  split; [| split].
  - intros H. by rewrite Hne.
  - intros H. rewrite Hne; rewrite (organizer_default _ H); done.
  - intros ->. cbn. exists file. split; [exact Hfile |].
    destruct (file !! "organizer"); [done |].
    unfold settings_default. by rewrite !lookup_setitem_ne by discriminate.
Qed.

Lemma organizer_comes_from_the_command_line_witness :
  let argv := [ConfigFile "c.json"] in
  let w := World (dict [("c.json", File (Some (JObj (dict [("organizer", JStr "RMIT")]))))]) [] in
  let s := value_or ∅ (load_settings sample_config argv w) in
  (organizer (namespace argv) <> EmptyString ->
   s !! "organizer" = Some (JStr (organizer (namespace argv))))
  /\ ((forall v, Organizer v ∉ argv) -> s !! "organizer" = Some (JStr "Uni Pacman"))
  /\ (organizer (namespace argv) = EmptyString ->
      exists file,
        file_layer sample_config (namespace argv) w file
        /\ s !! "organizer" = file !! "organizer").
Proof.
  intros argv w s.
  apply (organizer_comes_from_the_command_line sample_config argv w s
           (snd (load_settings sample_config argv w))).
  apply returns_eta. vm_compute. reflexivity.
Defined.

(** X4.  [--fixed-layouts-file] has no effect on the returned settings:
    [fixed_layouts_file] is the value of the configuration file, or
    [DEFAULT_LAYOUTS_ZIP_FILE], whatever the command line says. *)
Theorem fixed_layouts_file_option_is_dropped cfg argv w s w' :
  load_settings cfg argv w = (Ok s, w') ->
  exists file,
    file_layer cfg (namespace argv) w file
    /\ s !! "fixed_layouts_file"
       = Some (default (DEFAULT_LAYOUTS_ZIP_FILE cfg) (file !! "fixed_layouts_file")).
Proof.
  intros (file & cli & Hfile & Hcli & Hk)%load_settings_lookup.
  unfold cli_layer in Hcli.
  assert (Hnone : cli !! "fixed_layouts_file" = None).
  { rewrite (cli_block_early_key _ _ _ _ Hcli) by discriminate. skip_keys.
    by apply cli_seed_lookup_ne. }
  exists file. split; [exact Hfile |].
  rewrite Hk by discriminate. unfold by_precedence. rewrite Hnone.
  destruct (file !! "fixed_layouts_file"); [done |].
  unfold settings_default. rewrite !lookup_setitem_ne by discriminate.
  by rewrite lookup_setitem_eq.
Qed.

Lemma fixed_layouts_file_option_is_dropped_witness :
  let argv := [ConfigFile "c.json"; FixedLayoutsFile "mine.zip"] in
  let s := value_or ∅ (load_settings sample_config argv (config_world 3)) in
  exists file,
    file_layer sample_config (namespace argv) (config_world 3) file
    /\ s !! "fixed_layouts_file"
       = Some (default (DEFAULT_LAYOUTS_ZIP_FILE sample_config) (file !! "fixed_layouts_file")).
Proof.
  intros argv s.
  apply (fixed_layouts_file_option_is_dropped sample_config argv (config_world 3) s
           (snd (load_settings sample_config argv (config_world 3)))).
  apply returns_eta. vm_compute. reflexivity.
Defined.

(** ** Integer options and seed lists (lines 268-281) *)

Lemma cli_block_int_keys a d cli :
  cli_block a d = Ok cli ->
  (forall text, Py.given (no_fixed_layouts a) = Some text ->
     exists z, Py.int text = Some z /\ cli !! "no_fixed_layouts" = Some (JInt z))
  /\ (forall text, Py.given (no_random_layouts a) = Some text ->
        exists z, Py.int text = Some z /\ cli !! "no_random_layouts" = Some (JInt z))
  /\ (forall text, Py.given (max_steps a) = Some text ->
        exists z, Py.int text = Some z /\ cli !! "max_steps" = Some (JInt z)).
Proof.
  intros (d1 & d2 & d3 & d4 & H1 & H2 & H3 & H4 & Hlate)%cli_block_steps.
  assert (Hd3 : forall k, k <> "random_layout_seeds" -> d3 !! k = d2 !! k).
  { intros k Hk. destruct (Py.given (random_layout_seeds a)).
    - destruct H3 as (seeds & _ & ->). by apply lookup_setitem_ne.
    - by subst d3. }
  pose proof (set_int_Ok _ _ _ _ H1) as S1.
  pose proof (set_int_Ok _ _ _ _ H2) as S2.
  pose proof (set_int_Ok _ _ _ _ H4) as S4.
  split; [| split].
  - intros text Ht. rewrite Ht in S1. destruct S1 as (z & Hz & Hd1). exists z.
    split; [exact Hz |]. rewrite Hlate by discriminate.
    rewrite (set_int_lookup_ne _ _ _ _ _ H4) by discriminate.
    rewrite Hd3 by discriminate.
    rewrite (set_int_lookup_ne _ _ _ _ _ H2) by discriminate.
    rewrite lookup_set_given_ne by discriminate. subst d1. apply lookup_setitem_eq.
  - intros text Ht. rewrite Ht in S2. destruct S2 as (z & Hz & Hd2). exists z.
    split; [exact Hz |]. rewrite Hlate by discriminate.
    rewrite (set_int_lookup_ne _ _ _ _ _ H4) by discriminate.
    rewrite Hd3 by discriminate. subst d2. apply lookup_setitem_eq.
  - intros text Ht. rewrite Ht in S4. destruct S4 as (z & Hz & Hd4). exists z.
    split; [exact Hz |]. rewrite Hlate by discriminate. subst d4. apply lookup_setitem_eq.
Qed.

(** X5.  [load_settings] returns only when every non-empty [--max-steps],
    [--no-fixed-layouts] and [--no-random-layouts] is text that [int]
    accepts, and then the returned value is that integer, whatever the
    configuration file says. *)
Theorem integer_options_are_converted cfg argv w s w' :
  load_settings cfg argv w = (Ok s, w') ->
  (forall text, Py.given (no_fixed_layouts (namespace argv)) = Some text ->
     exists z, Py.int text = Some z /\ s !! "no_fixed_layouts" = Some (JInt z))
  /\ (forall text, Py.given (no_random_layouts (namespace argv)) = Some text ->
        exists z, Py.int text = Some z /\ s !! "no_random_layouts" = Some (JInt z))
  /\ (forall text, Py.given (max_steps (namespace argv)) = Some text ->
        exists z, Py.int text = Some z /\ s !! "max_steps" = Some (JInt z)).
Proof.
  intros (file & cli & Hfile & Hcli & Hk)%load_settings_lookup.
  destruct (cli_block_int_keys _ _ _ Hcli) as (Hf & Hr & Hm).
  rewrite !Hk by discriminate. unfold by_precedence.
  split; [| split]; intros text Ht.
  - destruct (Hf text Ht) as (z & Hz & ->). eauto.
  - destruct (Hr text Ht) as (z & Hz & ->). eauto.
  - destruct (Hm text Ht) as (z & Hz & ->). eauto.
Qed.

Lemma integer_options_are_converted_witness :
  let argv := [ConfigFile "c.json"; MaxSteps " 1_200 "; NoFixedLayouts "2"] in
  let s := value_or ∅ (load_settings sample_config argv (config_world 3)) in
  (forall text, Py.given (no_fixed_layouts (namespace argv)) = Some text ->
     exists z, Py.int text = Some z /\ s !! "no_fixed_layouts" = Some (JInt z))
  /\ (forall text, Py.given (no_random_layouts (namespace argv)) = Some text ->
        exists z, Py.int text = Some z /\ s !! "no_random_layouts" = Some (JInt z))
  /\ (forall text, Py.given (max_steps (namespace argv)) = Some text ->
        exists z, Py.int text = Some z /\ s !! "max_steps" = Some (JInt z)).
Proof.
  intros argv s.
  apply (integer_options_are_converted sample_config argv (config_world 3) s
           (snd (load_settings sample_config argv (config_world 3)))).
  apply returns_eta. vm_compute. reflexivity.
Defined.

(** *** [str.split] and [str.join] *)

Lemma append_assoc (s1 s2 s3 : string) : (s1 +:+ s2) +:+ s3 = s1 +:+ (s2 +:+ s3).
Proof.
  induction s1 as [| c s1 IH]; [reflexivity |].
  change (String c ((s1 +:+ s2) +:+ s3) = String c (s1 +:+ s2 +:+ s3)). by f_equal.
Qed.

Lemma append_empty_r (s : string) : s +:+ EmptyString = s.
Proof.
  induction s as [| c s IH]; [reflexivity |].
  change (String c (s +:+ EmptyString) = String c s). by f_equal.
Qed.

Lemma rev_app_append (s1 s2 : string) : String.rev_app s1 s2 = String.rev s1 +:+ s2.
Proof.
  revert s2. induction s1 as [| c s1 IH]; intros s2; [done |].
  unfold String.rev. cbn. rewrite (IH (String c s2)), (IH (String c EmptyString)).
  by rewrite append_assoc.
Qed.

Lemma rev_cons (c : ascii) (s : string) :
  String.rev (String c s) = String.rev s +:+ String c EmptyString.
Proof. unfold String.rev at 1. cbn. apply rev_app_append. Qed.

Lemma split_comma_aux_nonempty s cur : Py.split_comma_aux s cur <> [].
Proof.
  revert cur. induction s as [| c s IH]; intros cur; cbn; [done |].
  destruct (Ascii.eqb c ","); [done | apply IH].
Qed.

Lemma join_comma_cons x xs :
  xs <> [] -> join_comma (x :: xs) = x +:+ "," +:+ join_comma xs.
Proof. by destruct xs. Qed.

Lemma join_split_comma_aux s cur :
  join_comma (Py.split_comma_aux s cur) = String.rev cur +:+ s.
Proof.
  revert cur. induction s as [| c s IH]; intros cur; cbn [Py.split_comma_aux].
  - cbn. by rewrite append_empty_r.
  - destruct (Ascii.eqb_spec c ",") as [-> | Hc].
    + rewrite join_comma_cons by apply split_comma_aux_nonempty. by rewrite IH.
    + rewrite IH, rev_cons, append_assoc. done.
Qed.

Lemma has_comma_append s1 s2 : has_comma (s1 +:+ s2) = has_comma s1 || has_comma s2.
Proof.
  induction s1 as [| c s1 IH]; [reflexivity |].
  change (Ascii.eqb c "," || has_comma (s1 +:+ s2)
          = Ascii.eqb c "," || has_comma s1 || has_comma s2).
  by rewrite IH, orb_assoc.
Qed.

Lemma split_comma_aux_no_comma s cur :
  has_comma (String.rev cur) = false ->
  Forall (fun piece => has_comma piece = false) (Py.split_comma_aux s cur).
Proof.
  revert cur. induction s as [| c s IH]; intros cur Hcur; cbn [Py.split_comma_aux].
  - by constructor.
  - destruct (Ascii.eqb c ",") eqn:Hc.
    + constructor; [exact Hcur | by apply IH].
    + apply IH. rewrite rev_cons, has_comma_append, Hcur. cbn. by rewrite Hc.
Qed.

Lemma ints_or_raise_Ok pieces seeds :
  ints_or_raise pieces = Ok seeds ->
  exists zs, seeds = JInt <$> zs /\ Forall2 (fun piece z => Py.int piece = Some z) pieces zs.
Proof.
  revert seeds. induction pieces as [| p pieces IH]; intros seeds; cbn [ints_or_raise].
  - intros [= <-]. exists []. split; [done | constructor].
  - intros (v & Hv & H)%rbind_Ok. apply rbind_Ok in H as (vs & Hvs & [= <-]).
    unfold int_or_raise in Hv. destruct (Py.int p) as [z |] eqn:Hz; [| discriminate].
    injection Hv as <-. destruct (IH _ Hvs) as (zs & -> & Hzs).
    exists (z :: zs). split; [done | by constructor].
Qed.

(** X6.  A non-empty [--fixed-layout-seeds] is returned as the list of its
    pieces between commas: no piece holds a comma, and the pieces joined by
    commas give the option back. *)
Theorem fixed_layout_seeds_split_at_commas cfg argv w s w' names :
  load_settings cfg argv w = (Ok s, w') ->
  Py.given (fixed_layout_seeds (namespace argv)) = Some names ->
  exists pieces,
    s !! "fixed_layout_seeds" = Some (JList (JStr <$> pieces))
    /\ join_comma pieces = names
    /\ Forall (fun piece => has_comma piece = false) pieces.
Proof.
  intros (file & cli & Hfile & Hcli & Hk)%load_settings_lookup Hnames.
  destruct (cli_block_steps _ _ _ Hcli) as (d1 & d2 & d3 & d4 & H1 & H2 & H3 & H4 & Hlate).
  exists (Py.str_split_comma names). split; [| split].
  - rewrite Hk by discriminate. unfold by_precedence.
    rewrite Hlate by discriminate.
    rewrite (set_int_lookup_ne _ _ _ _ _ H4) by discriminate.
    assert (d3 !! "fixed_layout_seeds" = d2 !! "fixed_layout_seeds") as ->.
    { destruct (Py.given (random_layout_seeds (namespace argv))).
      - destruct H3 as (seeds & _ & ->). by apply lookup_setitem_ne.
      - by subst d3. }
    rewrite (set_int_lookup_ne _ _ _ _ _ H2) by discriminate.
    by rewrite lookup_set_given_eq, Hnames.
  - apply join_split_comma_aux.
  - by apply split_comma_aux_no_comma.
Qed.

Lemma fixed_layout_seeds_split_at_commas_witness :
  let argv := [ConfigFile "c.json"; FixedLayoutSeeds "contest02cCapture,contest12Capture"] in
  let s := value_or ∅ (load_settings sample_config argv (config_world 3)) in
  exists pieces,
    s !! "fixed_layout_seeds" = Some (JList (JStr <$> pieces))
    /\ join_comma pieces = "contest02cCapture,contest12Capture"
    /\ Forall (fun piece => has_comma piece = false) pieces.
Proof.
  intros argv s.
  apply (fixed_layout_seeds_split_at_commas sample_config argv (config_world 3) s
           (snd (load_settings sample_config argv (config_world 3)))).
  - apply returns_eta. vm_compute. reflexivity.
  - reflexivity.
Defined.

(** X7.  [load_settings] returns only when every piece between commas of a
    non-empty [--random-layout-seeds] is text that [int] accepts, and then
    [random_layout_seeds] is the list of those integers, one per piece and in
    order. *)
Theorem random_layout_seeds_are_integers cfg argv w s w' text :
  load_settings cfg argv w = (Ok s, w') ->
  Py.given (random_layout_seeds (namespace argv)) = Some text ->
  exists pieces zs,
    join_comma pieces = text
    /\ Forall2 (fun piece z => Py.int piece = Some z) pieces zs
    /\ s !! "random_layout_seeds" = Some (JList (JInt <$> zs)).
Proof.
  intros (file & cli & Hfile & Hcli & Hk)%load_settings_lookup Htext.
  destruct (cli_block_steps _ _ _ Hcli) as (d1 & d2 & d3 & d4 & H1 & H2 & H3 & H4 & Hlate).
  rewrite Htext in H3. destruct H3 as (seeds & Hseeds & ->).
  destruct (ints_or_raise_Ok _ _ Hseeds) as (zs & -> & Hzs).
  exists (Py.str_split_comma text), zs. split; [apply join_split_comma_aux |].
  split; [exact Hzs |].
  rewrite Hk by discriminate. unfold by_precedence.
  rewrite Hlate by discriminate.
  rewrite (set_int_lookup_ne _ _ _ _ _ H4) by discriminate.
  by rewrite lookup_setitem_eq.
Qed.

Lemma random_layout_seeds_are_integers_witness :
  let argv := [ConfigFile "c.json"; RandomLayoutSeeds "1,22,333"] in
  let s := value_or ∅ (load_settings sample_config argv (config_world 3)) in
  exists pieces zs,
    join_comma pieces = "1,22,333"
    /\ Forall2 (fun piece z => Py.int piece = Some z) pieces zs
    /\ s !! "random_layout_seeds" = Some (JList (JInt <$> zs)).
Proof.
  intros argv s.
  apply (random_layout_seeds_are_integers sample_config argv (config_world 3) s
           (snd (load_settings sample_config argv (config_world 3)))).
  - apply returns_eta. vm_compute. reflexivity.
  - reflexivity.
Defined.

(** ** What [load_settings] does to the world *)
















Lemma load_settings_Ok_fs cfg argv w s w' :
  load_settings cfg argv w = (Ok s, w') ->
  fs w' = match Py.given (build_config_file (namespace argv)) with
          | Some path => <[path := File (Some (JObj s))]> (fs w)
          | None => fs w
          end.
Proof.
  intros H.
  pose proof (load_settings_Ok _ _ _ _ _ H) as (Hstop & Hne & _).
  rewrite load_settings_start in H by assumption.
  apply bind_Ok in H as ([sj1 cli1] & w1 & Hres & H).
  apply resume_block_Ok in Hres as [-> Hres].
  apply bind_Ok in H as ([sj cli0] & w1 & Hcf & H).
  apply config_file_block_Ok in Hcf as (-> & Hfs1 & Hcf).
  apply bind_Ok in H as (cli & w2 & Hcli & H).
  apply lift_result_Ok in Hcli as [Hcli ->].
  apply bind_Ok in H as (m0 & w2 & Hm & H).
  apply lift_result_Ok in Hm as [Hm ->].
  apply bind_Ok in H as ([] & w3 & Hwhen & H).
  apply when_Ok in Hwhen as [[_ ->] | [_ Hex]]; [| discriminate Hex].
  apply bind_Ok in H as ([] & w3 & Hdump & H).
  injection H as <- <-.
  destruct (Py.given (build_config_file (namespace argv))) as [path |].
  - apply bind_Ok in Hdump as ([] & w4 & Hlog & Hdump).
    injection Hlog as <-. apply json_dump_Ok in Hdump as [_ ->]. cbn. by rewrite Hfs1.
  - injection Hdump as <-. exact Hfs1.
Qed.

(** X9.  When [load_settings] returns and a non-empty [--build-config-file]
    is given, that file holds exactly the returned settings. *)
Theorem build_config_file_holds_the_settings cfg argv w s w' path :
  load_settings cfg argv w = (Ok s, w') ->
  Py.given (build_config_file (namespace argv)) = Some path ->
  fs w' !! path = Some (File (Some (JObj s))).
Proof.
  intros Hrun Hpath. rewrite (load_settings_Ok_fs _ _ _ _ _ Hrun), Hpath.
  apply lookup_insert_eq.
Qed.

(** ** Dumping the options and loading them back (lines 299-316) *)

Lemma last_value_snoc sel argv x :
  last_value sel (argv ++ [x]) =
    match sel x with
    | Some v => Some v
    | None => last_value sel argv
    end.
Proof.
  induction argv as [| y argv IH]; cbn.
  - by destruct (sel x).
  - rewrite IH. destruct (sel x); [done |]. by destruct (last_value sel argv).
Qed.

Lemma flag_given_snoc f argv x : flag_given f (argv ++ [x]) = flag_given f argv || f x.
Proof. unfold flag_given. rewrite existsb_app. cbn. by rewrite orb_false_r. Qed.

Lemma namespace_snoc_config_file argv path :
  namespace (argv ++ [ConfigFile path]) = with_config_file path (namespace argv).
Proof.
  unfold namespace, with_config_file. cbn -[last_value flag_given].
  rewrite !last_value_snoc, !flag_given_snoc. cbn -[last_value flag_given].
  by rewrite !orb_false_r.
Qed.

Lemma parse_stop_snoc_config_file argv path :
  parse_stop argv = None -> parse_stop (argv ++ [ConfigFile path]) = None.
Proof.
  induction argv as [| x argv IH]; [done |].
  destruct x; cbn; try exact IH; try discriminate.
  destruct (Py.int v); [exact IH | discriminate].
Qed.

Lemma normalise_split_settled (dflt file cli : settings) :
  (forall v, cli !! "split" = Some v -> Py.eq_int v 0 = false) ->
  normalise_split
    (dict_merge
       (dict_merge dflt (normalise_split (dict_merge (dict_merge dflt file) cli))) cli)
  = normalise_split (dict_merge (dict_merge dflt file) cli).
Proof.
  intros Hcli.
  assert (Hs : forall k,
             normalise_split (dict_merge (dict_merge dflt file) cli) !! k
             = if (String.eqb k "split"
                   && Py.eq_int (default (JInt 0) (by_precedence cli file dflt "split")) 0)%bool
               then Some (JInt 1) else by_precedence cli file dflt k).
  { intros k. by rewrite normalise_split_lookup, !dict_merge_lookup. }
  remember (normalise_split (dict_merge (dict_merge dflt file) cli)) as settled eqn:Hsettled.
  clear Hsettled. apply map_eq. intros k.
  rewrite normalise_split_lookup, !dict_merge_lookup.
  unfold by_precedence at 1 2. rewrite !Hs.
  cbn [String.eqb Ascii.eqb Bool.eqb andb].
  destruct (String.eqb_spec k "split") as [-> | Hk]; cbn [andb].
  - unfold by_precedence.
    destruct (cli !! "split") as [v |] eqn:Hv.
    + cbn. by rewrite (Hcli v eq_refl).
    + destruct (file !! "split") as [x |]; cbn.
      * destruct (Py.eq_int x 0) eqn:Hx; cbn; [done | by rewrite Hx].
      * destruct (dflt !! "split") as [y |]; cbn; [| done].
        destruct (Py.eq_int y 0) eqn:Hy; cbn; [done | by rewrite Hy].
  - unfold by_precedence.
    destruct (cli !! k); [done |]. destruct (file !! k); [done |]. by destruct (dflt !! k).
Qed.

(** X10.  The options dumped by [--build-config-file] reproduce the run: when
    [load_settings] returns without a resume folder, running it again on
    the resulting world with the dumped file appended as [--config-file]
    returns the same settings. *)
Theorem dumped_options_reproduce_the_settings cfg argv w s w' path :
  load_settings cfg argv w = (Ok s, w') ->
  Py.given (build_config_file (namespace argv)) = Some path ->
  resume_contest_folder (namespace argv) = None ->
  exists w'', load_settings cfg (argv ++ [ConfigFile path]) w' = (Ok s, w'').
Proof.
  intros Hrun Hpath Hres.
  pose proof (build_config_file_holds_the_settings _ _ _ _ _ _ Hrun Hpath) as Hdumped.
  pose proof (load_settings_Ok _ _ _ _ _ Hrun) as (Hstop & Hne & file & cli & _ & Hcli & Hs & _).
  assert (Hsettled : normalise_split
                       (dict_merge (dict_merge (settings_default cfg (namespace argv)) s) cli)
                     = s).
  { rewrite Hs. apply normalise_split_settled. intros v Hv.
    unfold cli_layer in Hcli. rewrite (cli_block_split _ _ _ Hcli) in Hv.
    destruct (Z.eqb_spec (split (namespace argv)) 0) as [Hz | Hz].
    - rewrite cli_seed_lookup_ne in Hv by discriminate. discriminate Hv.
    - injection Hv as <-. cbn. by apply Z.eqb_neq. }
  destruct (load_settings_returns cfg (argv ++ [ConfigFile path]) w' s cli) as [w'' Hw''].
  - by apply parse_stop_snoc_config_file.
  - by destruct argv.
  - unfold file_layer, config_source. rewrite namespace_snoc_config_file.
    unfold with_config_file. cbn [resume_contest_folder config_file].
    rewrite Hres. exact Hdumped.
  - rewrite namespace_snoc_config_file.
    unfold with_config_file. cbn [resume_contest_folder]. rewrite Hres. by intros [? ?].
  - rewrite namespace_snoc_config_file. exact Hcli.
  - rewrite namespace_snoc_config_file.
    unfold with_config_file. cbn [build_config_file]. intros p Hp. rewrite Hpath in Hp.
    injection Hp as <-. unfold open_for_writing. by rewrite Hdumped.
  - exists w''. rewrite Hw'', namespace_snoc_config_file.
    change (settings_default cfg (with_config_file path (namespace argv)))
      with (settings_default cfg (namespace argv)).
    by rewrite Hsettled.
Qed.

Lemma dumped_options_reproduce_the_settings_witness :
  let argv := [ConfigFile "c.json"; MaxSteps "900"; BuildConfigFile "out.json"] in
  let run := load_settings sample_config argv (config_world 0) in
  exists w'',
    load_settings sample_config (argv ++ [ConfigFile "out.json"]) (snd run)
    = (Ok (value_or ∅ run), w'').
Proof.
  intros argv run.
  apply (dumped_options_reproduce_the_settings sample_config argv (config_world 0)
           (value_or ∅ run) (snd run) "out.json").
  - apply returns_eta. vm_compute. reflexivity.
  - reflexivity.
  - reflexivity.
Defined.

Lemma build_config_file_holds_the_settings_witness :
  let argv := [ConfigFile "c.json"; BuildConfigFile "out.json"] in
  let run := load_settings sample_config argv (config_world 3) in
  fs (snd run) !! "out.json" = Some (File (Some (JObj (value_or ∅ run)))).
Proof.
  intros argv run.
  apply (build_config_file_holds_the_settings sample_config argv (config_world 3)
           (value_or ∅ run) (snd run) "out.json").
  - apply returns_eta. vm_compute. reflexivity.
  - reflexivity.
Defined.

(** ** Two ways [load_settings] raises *)

Lemma config_source_nonempty cfg argv path :
  config_source cfg (namespace argv) = Some path -> argv <> [].
Proof. intros H ->. discriminate H. Qed.

(** X12.  A configuration source that holds JSON other than an object makes
    [load_settings] raise [TypeError], once the integer options have been
    converted (or earlier, when a resume folder and a non-zero [--split] are
    given). *)
Theorem non_object_configuration_raises_type_error cfg argv w path j cli :
  parse_stop argv = None ->
  config_source cfg (namespace argv) = Some path ->
  fs w !! path = Some (File (Some j)) ->
  (forall m, j <> JObj m) ->
  cli_layer (namespace argv) = Ok cli ->
  fst (load_settings cfg argv w) = Raise TypeError.
Proof.
  intros Hstop Hsrc Hfs Hj Hcli.
  rewrite load_settings_start by eauto using config_source_nonempty.
  assert (Hmap : Py.as_mapping j = Raise TypeError) by (destruct j; try done; by destruct (Hj m)).
  assert (Hget : Py.getitem j "split" = Raise TypeError)
    by (destruct j; try done; by destruct (Hj m)).
  unfold config_source in Hsrc. unfold cli_layer, cli_seed in Hcli.
  destruct (resume_contest_folder (namespace argv)) as [folder |] eqn:Hres.
  - injection Hsrc as <-.
    unfold bind at 1. unfold resume_block. rewrite Hres.
    unfold bind at 1. unfold path_exists. rewrite Hfs.
    rewrite bool_decide_eq_true_2 by eauto.
    unfold bind at 1. unfold json_load. rewrite Hfs.
    destruct (Z.eqb_spec (split (namespace argv)) 0) as [Hz | Hz]; cbn [negb].
    + cbn [bind ret]. unfold bind at 1. unfold config_file_block. rewrite Hres.
      destruct (config_file (namespace argv)); cbn -[cli_block];
        unfold lift_result; rewrite Hcli, Hmap; reflexivity.
    + unfold bind at 1. unfold bind at 1. unfold lift_result at 1. by rewrite Hget.
  - unfold bind at 1. unfold resume_block. rewrite Hres. cbn [ret].
    unfold bind at 1. unfold config_file_block. rewrite Hsrc, Hres.
    unfold bind at 1. unfold path_exists. rewrite Hfs.
    rewrite bool_decide_eq_true_2 by eauto.
    unfold bind at 1. unfold json_load. rewrite Hfs. cbn -[cli_block].
    unfold lift_result. rewrite Hcli, Hmap. reflexivity.
Qed.

Lemma non_object_configuration_raises_type_error_witness :
  fst (load_settings sample_config [ConfigFile "list.json"]
         (World (dict [("list.json", File (Some (JList [JInt 1; JInt 2])))]) []))
  = Raise TypeError.
Proof.
  apply (non_object_configuration_raises_type_error sample_config [ConfigFile "list.json"]
           (World (dict [("list.json", File (Some (JList [JInt 1; JInt 2])))]) [])
           "list.json" (JList [JInt 1; JInt 2])
           (dict [("organizer", JStr "Uni Pacman")])).
  - reflexivity.
  - reflexivity.
  - reflexivity.
  - discriminate.
  - vm_compute. reflexivity.
Defined.

(** X13.  Resuming with a non-zero [--split] from a stored configuration that
    has no [split] raises [KeyError], before anything is logged. *)
Theorem resume_without_stored_split_raises_key_error cfg argv w folder stored :
  parse_stop argv = None ->
  resume_contest_folder (namespace argv) = Some folder ->
  fs w !! resume_config_path cfg folder = Some (File (Some (JObj stored))) ->
  stored !! "split" = None ->
  split (namespace argv) <> 0 ->
  load_settings cfg argv w = (Raise (KeyError "split"), w).
Proof.
  intros Hstop Hres Hfs Hm Hz.
  rewrite load_settings_start by eauto using resume_given_nonempty.
  unfold bind at 1. unfold resume_block. rewrite Hres.
  unfold bind at 1. unfold path_exists. rewrite Hfs.
  rewrite bool_decide_eq_true_2 by eauto.
  unfold bind at 1. unfold json_load. rewrite Hfs.
  apply Z.eqb_neq in Hz. rewrite Hz. cbn [negb].
  unfold bind at 1. unfold bind at 1. unfold lift_result. cbn [Py.getitem]. rewrite Hm.
  reflexivity.
Qed.

Lemma resume_without_stored_split_raises_key_error_witness :
  let w := resume_world_of (dict [("teams_root", JStr "teamsA")]) in
  load_settings sample_config [ResumeContestFolder "/tmp/run"; Split "2"] w
  = (Raise (KeyError "split"), w).
Proof.
  intros w.
  apply (resume_without_stored_split_raises_key_error sample_config
           [ResumeContestFolder "/tmp/run"; Split "2"] w "/tmp/run"
           (dict [("teams_root", JStr "teamsA")])).
  - reflexivity.
  - reflexivity.
  - reflexivity.
  - vm_compute. reflexivity.
  - vm_compute. discriminate.
Defined.

(** ** Keys the top-level block indexes *)

Lemma settings_default_no_path cfg a k :
  k <> "no_fixed_layouts" -> k <> "no_random_layouts" -> k <> "max_steps" ->
  k <> "fixed_layouts_file" -> k <> "resume_contest_folder" -> k <> "include_staff_team" ->
  k <> "staff_teams_dir" -> k <> "staff_teams_vs_others_only" ->
  k <> "ignore_file_name_format" -> k <> "team_names_file" -> k <> "upload_replays" ->
  k <> "upload_logs" -> k <> "allow_non_registered_students" -> k <> "split" ->
  settings_default cfg a !! k = None.
Proof. intros. unfold settings_default. by rewrite !lookup_setitem_ne by done. Qed.

Ltac path_option Hk Hcli :=
  rewrite Hk by discriminate; unfold by_precedence, given_or_file;
  rewrite (cli_block_early_key _ _ _ _ Hcli) by discriminate; skip_keys;
  unfold set_str at 1; rewrite lookup_set_given_eq;
  match goal with
  | |- context [Py.given ?o] => destruct (Py.given o); [reflexivity |]
  end;
  skip_keys; rewrite cli_seed_lookup_ne by discriminate;
  match goal with
  | |- context [?file !! ?k] => destruct (file !! k); [reflexivity |]
  end;
  by apply settings_default_no_path.

(** X14.  The six directory and file options without a default reach the
    returned settings as given when given and not empty, and else as the
    configuration file has them: a key that neither names is absent from
    what [load_settings] returns. *)
Theorem path_options_are_given_or_from_file cfg argv w s w' :
  load_settings cfg argv w = (Ok s, w') ->
  exists file,
    file_layer cfg (namespace argv) w file
    /\ s !! "www_dir" = given_or_file (www_dir (namespace argv)) file "www_dir"
    /\ s !! "workers_file" = given_or_file (workers_file (namespace argv)) file "workers_file"
    /\ s !! "teams_root" = given_or_file (teams_root (namespace argv)) file "teams_root"
    /\ s !! "stats_archive_dir"
       = given_or_file (stats_archive_dir (namespace argv)) file "stats_archive_dir"
    /\ s !! "replays_archive_dir"
       = given_or_file (replays_archive_dir (namespace argv)) file "replays_archive_dir"
    /\ s !! "logs_archive_dir"
       = given_or_file (logs_archive_dir (namespace argv)) file "logs_archive_dir".
Proof.
  intros (file & cli & Hfile & Hcli & Hk)%load_settings_lookup.
  unfold cli_layer in Hcli. exists file. split; [exact Hfile |].
  repeat split; path_option Hk Hcli.
Qed.

Lemma path_options_are_given_or_from_file_witness :
  let argv := [ConfigFile "c.json"; WorkersFile "workers.json"; TeamsRoot EmptyString] in
  let w := config_world 3 in
  let s := value_or ∅ (load_settings sample_config argv w) in
  exists file,
    file_layer sample_config (namespace argv) w file
    /\ s !! "www_dir" = given_or_file (www_dir (namespace argv)) file "www_dir"
    /\ s !! "workers_file" = given_or_file (workers_file (namespace argv)) file "workers_file"
    /\ s !! "teams_root" = given_or_file (teams_root (namespace argv)) file "teams_root"
    /\ s !! "stats_archive_dir"
       = given_or_file (stats_archive_dir (namespace argv)) file "stats_archive_dir"
    /\ s !! "replays_archive_dir"
       = given_or_file (replays_archive_dir (namespace argv)) file "replays_archive_dir"
    /\ s !! "logs_archive_dir"
       = given_or_file (logs_archive_dir (namespace argv)) file "logs_archive_dir".
Proof.
  intros argv w s.
  apply (path_options_are_given_or_from_file sample_config argv w s
           (snd (load_settings sample_config argv w))).
  apply returns_eta. vm_compute. reflexivity.
Defined.

(** X15.  The returned settings always hold [resume_contest_folder]: the
    folder given on the command line, else what the configuration file
    holds under that key, else [None].  A folder named only in the
    configuration file is thus passed on, though no stored configuration
    was read from it. *)
Theorem resume_contest_folder_is_always_set cfg argv w s w' :
  load_settings cfg argv w = (Ok s, w') ->
  match resume_contest_folder (namespace argv) with
  | Some folder => s !! "resume_contest_folder" = Some (JStr folder)
  | None =>
      exists file,
        file_layer cfg (namespace argv) w file
        /\ s !! "resume_contest_folder" = Some (default JNull (file !! "resume_contest_folder"))
  end.
Proof.
  intros (file & cli & Hfile & Hcli & Hk)%load_settings_lookup.
  unfold cli_layer in Hcli. rewrite Hk by discriminate. unfold by_precedence.
  rewrite (cli_block_early_key _ _ _ _ Hcli) by discriminate. skip_keys.
  unfold cli_seed. destruct (resume_contest_folder (namespace argv)) as [folder |].
  - by rewrite lookup_setitem_eq.
  - exists file. split; [exact Hfile |]. rewrite lookup_empty.
    destruct (file !! "resume_contest_folder"); [done |].
    unfold settings_default. skip_keys. by rewrite lookup_setitem_eq.
Qed.

Lemma resume_contest_folder_is_always_set_witness :
  let argv := [ResumeContestFolder "/tmp/run"] in
  let s := value_or ∅ (load_settings sample_config argv resume_world) in
  s !! "resume_contest_folder" = Some (JStr "/tmp/run").
Proof.
  intros argv s.
  apply (resume_contest_folder_is_always_set sample_config argv resume_world s
           (snd (load_settings sample_config argv resume_world))).
  apply returns_eta. vm_compute. reflexivity.
Defined.

(** ** The exit statuses of [load_settings] *)

Lemma parse_stop_codes argv o c :
  parse_stop argv = Some (o, c) -> (o = PrintHelp /\ c = 0) \/ (o = UsageError /\ c = 2).
Proof.
  induction argv as [| x argv IH]; [discriminate |].
  destruct x; cbn [parse_stop]; try exact IH.
  - intros [= <- <-]. by left.
  - destruct (Py.int v); [exact IH |]. intros [= <- <-]. by right.
Qed.

Lemma resume_block_Exit cfg a st w c w' :
  resume_block cfg a st w = (Exit c, w') ->
  c = 1 /\ is_Some (resume_contest_folder a) /\ configuration_fault cfg a w.
Proof.
  destruct st as [sj0 cli0]. unfold resume_block, configuration_fault.
  destruct (resume_contest_folder a) as [folder |]; [| discriminate].
  unfold bind at 1. unfold path_exists.
  destruct (fs w !! resume_config_path cfg folder) as [nd |] eqn:Hfs; cbn.
  2: { intros [= <- <-]. split; [done |]. split; [by eexists | by left]. }
  unfold bind at 1, json_load. rewrite Hfs.
  destruct nd as [| [j |]]; try discriminate.
  destruct (Z.eqb_spec (split a) 0) as [Hz | Hz]; cbn; [discriminate |].
  unfold bind at 1. unfold bind at 1. unfold lift_result.
  destruct j as [| | | | | m]; try discriminate. cbn [Py.getitem].
  destruct (m !! "split") as [stored |] eqn:Hm; [| discriminate].
  destruct (Py.eq_int stored (split a)) eqn:Heq; cbn; [discriminate |].
  intros [= <- <-]. split; [done |]. split; [by eexists |].
  right. by exists m, stored.
Qed.

Lemma config_file_block_Exit cfg a st w c w' :
  config_file_block a st w = (Exit c, w') ->
  c = 1 /\ configuration_fault cfg a w.
Proof.
  destruct st as [sj0 cli0]. unfold config_file_block, configuration_fault.
  destruct (config_file a) as [file |]; [| discriminate].
  destruct (resume_contest_folder a) as [folder |]; [discriminate |].
  unfold bind at 1. unfold path_exists.
  destruct (fs w !! file) as [nd |] eqn:Hfs; cbn.
  2: { intros [= <- <-]. split; [done |]. by exists file. }
  unfold bind at 1, json_load. rewrite Hfs.
  destruct nd as [| [j |]]; discriminate.
Qed.

Lemma rbind_not_Exit {A B} (r : result A) (k : A -> result B) :
  (forall c, r <> Exit c) -> (forall a c, k a <> Exit c) -> forall c, rbind r k <> Exit c.
Proof.
  intros Hr Hk c. destruct r as [a | c' | e]; cbn; [apply Hk | | discriminate].
  by destruct (Hr c').
Qed.

Lemma int_or_raise_not_Exit text c : int_or_raise text <> Exit c.
Proof. unfold int_or_raise. destruct (Py.int text); discriminate. Qed.

Lemma set_int_not_Exit o k d c : set_int o k d <> Exit c.
Proof.
  unfold set_int. destruct (Py.given o) as [text |]; [| discriminate].
  apply rbind_not_Exit; [apply int_or_raise_not_Exit | discriminate].
Qed.

Lemma ints_or_raise_not_Exit pieces c : ints_or_raise pieces <> Exit c.
Proof.
  revert c. induction pieces as [| p pieces IH]; intros c; cbn [ints_or_raise]; [discriminate |].
  apply rbind_not_Exit; [apply int_or_raise_not_Exit | intros v].
  apply rbind_not_Exit; [exact IH | discriminate].
Qed.

Lemma cli_block_not_Exit a d c : cli_block a d <> Exit c.
Proof.
  unfold cli_block.
  apply rbind_not_Exit; [intros ?; apply set_int_not_Exit | intros d1].
  apply rbind_not_Exit; [intros ?; apply set_int_not_Exit | intros d2].
  apply rbind_not_Exit; [| intros d3].
  { intros c3. destruct (Py.given (random_layout_seeds a)) as [text |]; [| discriminate].
    apply rbind_not_Exit; [intros ?; apply ints_or_raise_not_Exit | discriminate]. }
  apply rbind_not_Exit; [intros ?; apply set_int_not_Exit | discriminate].
Qed.

Lemma load_settings_Exit cfg argv w c w' :
  parse_stop argv = None -> argv <> [] ->
  load_settings cfg argv w = (Exit c, w') ->
  c = 1 /\ configuration_fault cfg (namespace argv) w.
Proof.
  intros Hstop Hne. rewrite load_settings_start by assumption.
  unfold bind at 1.
  destruct (resume_block cfg (namespace argv) (JObj ∅, ∅) w) as [[[sj1 cli1] | c1 | e1] w1]
    eqn:Hres; [| | discriminate].
  2: { intros [= <- <-]. apply resume_block_Exit in Hres as (-> & _ & Hfault). done. }
  apply resume_block_Ok in Hres as [-> _].
  unfold bind at 1.
  destruct (config_file_block (namespace argv) (sj1, cli1) w) as [[[sj cli0] | c1 | e1] w1]
    eqn:Hcf; [| | discriminate].
  2: { intros [= <- <-]. by apply (config_file_block_Exit cfg) in Hcf. }
  unfold bind at 1, lift_result at 1.
  destruct (cli_block (namespace argv) cli0) as [cli | c1 | e1] eqn:Hcli;
    [| by destruct (cli_block_not_Exit _ _ _ Hcli) | discriminate].
  unfold bind at 1, lift_result at 1.
  destruct (Py.as_mapping sj) as [file | c1 | e1] eqn:Hmap; [| by destruct sj | discriminate].
  rewrite nothing_required. rewrite bool_decide_eq_true_2 by done. cbn [negb when].
  unfold bind at 1. cbn [ret].
  destruct (Py.given (build_config_file (namespace argv))) as [path |]; [| discriminate].
  unfold bind, logging_info, emit, json_dump. cbn [fs].
  destruct (open_for_writing (fs w1) path) as [[] | c1 | e1] eqn:Hopen;
    [discriminate | | discriminate].
  by destruct (open_for_writing_not_Exit _ _ _ Hopen).
Qed.

Lemma configuration_fault_Exit cfg argv w :
  parse_stop argv = None ->
  configuration_fault cfg (namespace argv) w ->
  exists w', load_settings cfg argv w = (Exit 1, w').
Proof.
  intros Hstop. unfold configuration_fault.
  destruct (resume_contest_folder (namespace argv)) as [folder |] eqn:Hres.
  - intros [Hnone | (m & stored & Hfs & Hm & Hz & Hneq)].
    + eexists. by eapply load_settings_resume_config_missing.
    + eexists. by eapply load_settings_split_mismatch.
  - intros (file & Hcf & Hnone). eexists. by eapply load_settings_config_file_missing.
Qed.

Lemma configuration_fault_nonempty cfg argv w :
  configuration_fault cfg (namespace argv) w -> argv <> [].
Proof. intros H ->. by destruct H as (file & [=] & _). Qed.

(** * The layers of the settings *)

Lemma organizer_of_option argv v :
  organizer_option argv = Some v -> organizer (namespace argv) = v.
Proof. unfold organizer_option. cbn [namespace organizer]. by intros ->. Qed.

Lemma mapM_ints pieces seeds :
  ints_or_raise pieces = Ok seeds ->
  exists zs, mapM Py.int pieces = Some zs /\ seeds = JInt <$> zs.
Proof.
  intros (zs & -> & Hzs)%ints_or_raise_Ok. exists zs. split; [| done].
  by apply mapM_Some.
Qed.

(** Lookups through the setters, for an arbitrary key. *)
Lemma lookup_setitem_if key v (d : settings) k :
  setitem key v d !! k = or_else (if String.eqb k key then Some v else None) (d !! k).
Proof.
  destruct (String.eqb_spec k key) as [-> | Hne]; cbn;
    [apply lookup_setitem_eq | by apply lookup_setitem_ne].
Qed.

Lemma lookup_set_if_if c key v (d : settings) k :
  set_if c key v d !! k
  = or_else (if String.eqb k key then supplied_flag c v else None) (d !! k).
Proof.
  unfold set_if, supplied_flag. destruct c; [apply lookup_setitem_if |].
  by destruct (String.eqb k key).
Qed.

Lemma lookup_set_str_if o key (d : settings) k :
  set_str o key d !! k
  = or_else (if String.eqb k key then supplied_string o else None) (d !! k).
Proof.
  unfold set_str, set_given, supplied_string.
  destruct (Py.given o); cbn; [apply lookup_setitem_if | by destruct (String.eqb k key)].
Qed.

Lemma lookup_set_names_if o key (d : settings) k :
  set_given o key (fun names => JList (JStr <$> Py.str_split_comma names)) d !! k
  = or_else (if String.eqb k key then supplied_names o else None) (d !! k).
Proof.
  unfold set_given, supplied_names.
  destruct (Py.given o); cbn; [apply lookup_setitem_if | by destruct (String.eqb k key)].
Qed.

Lemma lookup_set_int_if o key (d d' : settings) k :
  set_int o key d = Ok d' ->
  d' !! k = or_else (if String.eqb k key then supplied_int o else None) (d !! k).
Proof.
  intros H%set_int_Ok. unfold supplied_int.
  destruct (Py.given o) as [text |]; cbn.
  - destruct H as (z & -> & ->). cbn. apply lookup_setitem_if.
  - subst d'. by destruct (String.eqb k key).
Qed.

Lemma lookup_set_seeds_if o (d d' : settings) k :
  match Py.given o with
  | Some text =>
      exists seeds,
        ints_or_raise (Py.str_split_comma text) = Ok seeds
        /\ d' = setitem "random_layout_seeds" (JList seeds) d
  | None => d' = d
  end ->
  d' !! k
  = or_else (if String.eqb k "random_layout_seeds" then supplied_seeds o else None) (d !! k).
Proof.
  unfold supplied_seeds. destruct (Py.given o) as [text |]; cbn.
  - intros (seeds & (zs & -> & ->)%mapM_ints & ->). cbn. apply lookup_setitem_if.
  - intros ->. by destruct (String.eqb k "random_layout_seeds").
Qed.

Lemma lookup_cli_seed_if a k :
  cli_seed a !! k
  = if String.eqb k "resume_contest_folder" then JStr <$> resume_contest_folder a else None.
Proof.
  unfold cli_seed. destruct (resume_contest_folder a) as [folder |]; cbn.
  - rewrite lookup_setitem_if. by destruct (String.eqb k "resume_contest_folder").
  - by destruct (String.eqb k "resume_contest_folder").
Qed.

Lemma lookup_upload_if a (d : settings) k :
  (if upload_all a
   then setitem "upload_logs" (JBool true) (setitem "upload_replays" (JBool true) d)
   else set_if (upload_logs a) "upload_logs" (JBool (upload_logs a))
          (set_if (upload_replays a) "upload_replays" (JBool (upload_replays a)) d)) !! k
  = or_else (if String.eqb k "upload_logs"
             then supplied_flag (upload_all a || upload_logs a) (JBool true) else None)
      (or_else (if String.eqb k "upload_replays"
                then supplied_flag (upload_all a || upload_replays a) (JBool true) else None)
         (d !! k)).
Proof.
  destruct (upload_all a); cbn [orb].
  - by rewrite !lookup_setitem_if.
  - rewrite !lookup_set_if_if. by destruct (upload_logs a), (upload_replays a).
Qed.

Ltac eval_key_tests :=
  repeat match goal with
         | |- context [String.eqb ?a ?b] =>
             let r := eval vm_compute in (String.eqb a b) in
             change (String.eqb a b) with r
         end;
  cbn [or_else mbind option_bind id].

Lemma or_else_None_r {A} (o : option A) : or_else o None = o.
Proof. by destruct o. Qed.

Ltac finish_key :=
  rewrite ?or_else_None_r;
  first
    [ reflexivity
    | unfold supplied_flag;
      repeat match goal with
             | |- context [if ?c then _ else _] => destruct c
             end;
      reflexivity ].

Ltac key_case k key :=
  destruct (String.eqb_spec k key) as [-> | ?];
  [eval_key_tests |].

(** The command-line layer the code builds holds, for every key, what the
    command line supplies; the two keys left out apart. *)
Lemma cli_block_lookup a organizer_text cli k :
  cli_block a (cli_seed a) = Ok cli ->
  cli !! k
  = if String.eqb k "organizer" then supplied_string (Some (organizer a))
    else if String.eqb k "fixed_layouts_file" then None
    else table_lookup k (cli_table a organizer_text) ≫= id.
Proof.
  unfold cli_block. intros H.
  apply rbind_Ok in H as (d1 & H1 & H).
  apply rbind_Ok in H as (d2 & H2 & H).
  apply rbind_Ok in H as (d3 & H3 & H).
  apply rbind_Ok in H as (d4 & H4 & H).
  injection H as <-.
  assert (H3' : match Py.given (random_layout_seeds a) with
                | Some text =>
                    exists seeds,
                      ints_or_raise (Py.str_split_comma text) = Ok seeds
                      /\ d3 = setitem "random_layout_seeds" (JList seeds) d2
                | None => d3 = d2
                end).
  { destruct (Py.given (random_layout_seeds a)) as [text |].
    - apply rbind_Ok in H3 as (seeds & Hseeds & [= <-]). eauto.
    - by injection H3 as <-. }
  clear H3.
  rewrite !lookup_set_if_if, lookup_upload_if.
  rewrite (lookup_set_int_if _ _ _ _ _ H4).
  rewrite (lookup_set_seeds_if _ _ _ _ H3').
  rewrite (lookup_set_int_if _ _ _ _ _ H2).
  rewrite lookup_set_names_if.
  rewrite (lookup_set_int_if _ _ _ _ _ H1).
  rewrite !lookup_set_str_if, !lookup_set_if_if, !lookup_set_str_if, !lookup_set_if_if,
    !lookup_set_str_if, !lookup_set_if_if, !lookup_set_str_if.
  rewrite lookup_cli_seed_if.
  unfold cli_table. cbn [table_lookup].
  clear H1 H2 H3' H4 d1 d2 d3 d4.
  key_case k "resume_contest_folder"; [finish_key |].
  key_case k "organizer"; [finish_key |].
  key_case k "www_dir"; [finish_key |].
  key_case k "compress_logs"; [finish_key |].
  key_case k "workers_file"; [finish_key |].
  key_case k "staff_teams_dir"; [finish_key |].
  key_case k "include_staff_team"; [finish_key |].
  key_case k "staff_teams_vs_others_only"; [finish_key |].
  key_case k "teams_root"; [finish_key |].
  key_case k "team_names_file"; [finish_key |].
  key_case k "ignore_file_name_format"; [finish_key |].
  key_case k "stats_archive_dir"; [finish_key |].
  key_case k "replays_archive_dir"; [finish_key |].
  key_case k "logs_archive_dir"; [finish_key |].
  key_case k "no_fixed_layouts"; [finish_key |].
  key_case k "fixed_layout_seeds"; [finish_key |].
  key_case k "fixed_layouts_file"; [finish_key |].
  key_case k "no_random_layouts"; [finish_key |].
  key_case k "random_layout_seeds"; [finish_key |].
  key_case k "max_steps"; [finish_key |].
  key_case k "upload_replays"; [finish_key |].
  key_case k "upload_logs"; [finish_key |].
  key_case k "allow_non_registered_students"; [finish_key |].
  key_case k "split"; [finish_key |].
  reflexivity.
Qed.

(** Where the command line supplies nothing, the default layer the code
    builds holds the built-in default. *)
Lemma default_layer_lookup cfg a organizer_text k :
  table_lookup k (cli_table a organizer_text) ≫= id = None ->
  settings_default cfg a !! k = builtin_defaults cfg !! k.
Proof.
  intros Hnone.
  assert (builtin_defaults cfg
          = setitem "no_fixed_layouts" (DEFAULT_FIXED_LAYOUTS cfg)
              (setitem "no_random_layouts" (DEFAULT_RANDOM_LAYOUTS cfg)
              (setitem "max_steps" (DEFAULT_MAX_STEPS cfg)
              (setitem "fixed_layouts_file" (DEFAULT_LAYOUTS_ZIP_FILE cfg)
              (setitem "resume_contest_folder" JNull
              (setitem "include_staff_team" (JBool false)
              (setitem "staff_teams_dir" JNull
              (setitem "staff_teams_vs_others_only" (JBool false)
              (setitem "ignore_file_name_format" (JBool true)
              (setitem "team_names_file" JNull
              (setitem "upload_replays" (JBool false)
              (setitem "upload_logs" (JBool false)
              (setitem "allow_non_registered_students" (JBool false)
              (setitem "split" (JInt 0) ∅)))))))))))))) as -> by reflexivity.
  unfold settings_default. rewrite !lookup_setitem_if, !lookup_empty.
  unfold cli_table in Hnone. cbn [table_lookup] in Hnone. revert Hnone.
  key_case k "split".
  { unfold supplied_flag. by destruct (Z.eqb_spec (split a) 0) as [-> | ?]. }
  key_case k "allow_non_registered_students".
  { unfold supplied_flag. by destruct (allow_non_registered_students a). }
  key_case k "upload_logs".
  { unfold supplied_flag. by destruct (upload_all a), (upload_logs a). }
  key_case k "upload_replays".
  { unfold supplied_flag. by destruct (upload_all a), (upload_replays a). }
  intros _.
  key_case k "team_names_file"; [reflexivity |].
  key_case k "ignore_file_name_format"; [reflexivity |].
  key_case k "staff_teams_vs_others_only"; [reflexivity |].
  key_case k "staff_teams_dir"; [reflexivity |].
  key_case k "include_staff_team"; [reflexivity |].
  key_case k "resume_contest_folder"; [reflexivity |].
  key_case k "fixed_layouts_file"; [reflexivity |].
  key_case k "max_steps"; [reflexivity |].
  key_case k "no_random_layouts"; [reflexivity |].
  key_case k "no_fixed_layouts"; [reflexivity |].
  reflexivity.
Qed.

Lemma in_scope_organizer argv :
  is_Some (organizer_option argv) ->
  supplied_string (Some (organizer (namespace argv))) = supplied_string (organizer_option argv).
Proof. intros [v Hv]. by rewrite (organizer_of_option _ _ Hv), Hv. Qed.

(** The command-line layer of the code against what the command line
    supplies, on the keys in scope. *)
Lemma cli_layer_supplied argv cli k :
  cli_layer (namespace argv) = Ok cli -> in_scope argv k -> cli !! k = cli_supplied argv k.
Proof.
  intros Hcli [Horg Hfile]. unfold cli_layer in Hcli.
  rewrite (cli_block_lookup _ (organizer_option argv) _ _ Hcli). unfold cli_supplied.
  destruct (String.eqb_spec k "organizer") as [-> | ?].
  { rewrite (in_scope_organizer _ (Horg eq_refl)). reflexivity. }
  destruct (String.eqb_spec k "fixed_layouts_file") as [-> | ?]; [| reflexivity].
  unfold cli_table. cbn [table_lookup]. eval_key_tests.
  unfold supplied_string. by rewrite (Hfile eq_refl).
Qed.

Lemma layers_lookup cfg argv cli file k :
  cli_layer (namespace argv) = Ok cli -> in_scope argv k ->
  by_precedence cli file (settings_default cfg (namespace argv)) k
  = layered (cli_supplied argv) file (builtin_defaults cfg) k.
Proof.
  intros Hcli Hk. unfold by_precedence, layered, or_else.
  rewrite (cli_layer_supplied _ _ _ Hcli Hk).
  destruct (cli_supplied argv k) eqn:Hsup; [reflexivity |].
  destruct (file !! k); [reflexivity |].
  by eapply default_layer_lookup.
Qed.

Lemma in_scope_split argv : in_scope argv "split".
Proof. split; discriminate. Qed.

(** What [load_settings] returns, key by key. *)
Lemma load_settings_layered cfg argv w s w' :
  load_settings cfg argv w = (Ok s, w') ->
  exists file,
    file_layer cfg (namespace argv) w file
    /\ forall k, in_scope argv k ->
         s !! k = layered_settings (cli_supplied argv) file (builtin_defaults cfg) k.
Proof.
  intros (_ & _ & file & cli & Hfile & Hcli & -> & _)%load_settings_Ok.
  exists file. split; [exact Hfile |]. intros k Hk.
  rewrite normalise_split_lookup, !dict_merge_lookup. unfold layered_settings.
  rewrite (layers_lookup _ _ _ _ _ Hcli (in_scope_split argv)).
  by rewrite (layers_lookup _ _ _ _ _ Hcli Hk).
Qed.

(** C2, as the code has it.  For every settings key in scope, the value
    [load_settings] returns is the value the command line supplies for the
    key when it supplies one, otherwise the value of the configuration file
    when the key is present there, otherwise the built-in default; except
    that a [split] which this makes 0 is returned as 1.  The command line
    supplies a key through an option whose value is truthy: an empty text
    and [--split 0] supply nothing (the resume folder alone is supplied as
    soon as its option is given).  Out of scope are [organizer] when
    [--organizer] is not given and [fixed_layouts_file] when a non-empty
    [--fixed-layouts-file] is given. *)
Theorem settings_follow_layer_precedence cfg argv w s w' :
  load_settings cfg argv w = (Ok s, w') ->
  exists file,
    file_layer cfg (namespace argv) w file
    /\ forall k, in_scope argv k ->
         s !! k = layered_settings (cli_supplied argv) file (builtin_defaults cfg) k.
Proof.
  intros (_ & _ & file & cli & Hfile & Hcli & -> & _)%load_settings_Ok.
  exists file. split; [exact Hfile |]. intros k Hk.
  rewrite normalise_split_lookup, !dict_merge_lookup. unfold layered_settings.
  rewrite (layers_lookup _ _ _ _ _ Hcli (in_scope_split argv)).
  by rewrite (layers_lookup _ _ _ _ _ Hcli Hk).
Qed.

(** The precedence at work on a configuration file and two options, one of
    them empty. *)
Lemma settings_follow_layer_precedence_witness :
  let argv := [ConfigFile "c.json"; MaxSteps "900"; WwwDir EmptyString] in
  let s := value_or ∅ (load_settings sample_config argv (config_world 3)) in
  exists file,
    file_layer sample_config (namespace argv) (config_world 3) file
    /\ forall k, in_scope argv k ->
         s !! k = layered_settings (cli_supplied argv) file (builtin_defaults sample_config) k.
Proof.
  intros argv s.
  apply (settings_follow_layer_precedence sample_config argv (config_world 3) s
           (snd (load_settings sample_config argv (config_world 3)))).
  apply returns_eta. vm_compute. reflexivity.
Defined.

(** ** The explicit configuration file of a resumed run *)

Lemma same_kind_refl n : same_kind n n.
Proof. by destruct n as [[| c] |]. Qed.

Lemma differ_in_content_kinds path w w2 p :
  differ_in_content path w w2 -> same_kind (fs w !! p) (fs w2 !! p).
Proof.
  intros [Hkind Hother]. destruct (decide (p = path)) as [-> | Hne]; [exact Hkind |].
  rewrite (Hother p Hne). apply same_kind_refl.
Qed.

Lemma open_for_writing_kinds (files files2 : gmap string node) path :
  (forall p, same_kind (files !! p) (files2 !! p)) ->
  open_for_writing files2 path = open_for_writing files path.
Proof.
  intros Hkinds. unfold open_for_writing.
  pose proof (Hkinds path) as Hpath. pose proof (Hkinds (dirname path)) as Hparent.
  destruct (files !! path) as [[| c] |], (files2 !! path) as [[| c2] |]; try done.
  destruct (bool_decide _); [done |]. destruct (Py.ends_with_slash _); [done |].
  destruct (always_there _); [done |].
  by destruct (files !! dirname path) as [[| c] |], (files2 !! dirname path) as [[| c2] |].
Qed.

(** C8, as the code has it.  When both a resume folder and [--config-file]
    are supplied and [load_settings] returns, a warning has been logged;
    every key in scope has the value the command line supplies, else the
    value stored in the resume folder, else the built-in default, a [split]
    of 0 made 1; and the run returns the same settings whatever the explicit
    file holds. *)
Theorem explicit_config_file_ignored_on_resume cfg argv folder file w s w' :
  resume_contest_folder (namespace argv) = Some folder ->
  config_file (namespace argv) = Some file ->
  load_settings cfg argv w = (Ok s, w') ->
  Log WARNING MsgIgnoringConfigFile ∈ console w'
  /\ (exists stored,
        fs w !! resume_config_path cfg folder = Some (File (Some (JObj stored)))
        /\ forall k, in_scope argv k ->
             s !! k = layered_settings (cli_supplied argv) stored (builtin_defaults cfg) k)
  /\ (forall w2,
        file <> resume_config_path cfg folder ->
        differ_in_content file w w2 ->
        exists w2', load_settings cfg argv w2 = (Ok s, w2')).
Proof.
  intros Hres Hcf Hrun.
  destruct (load_settings_resume_Ok _ _ _ _ _ _ Hres Hrun) as (stored & cli & Hfs & Hcli & Hs).
  split; [| split].
  - apply load_settings_Ok in Hrun as (_ & _ & _ & _ & _ & _ & _ & Hwarn).
    apply Hwarn; [rewrite Hcf | rewrite Hres]; eauto.
  - exists stored. split; [exact Hfs |]. intros k Hk. rewrite Hs.
    rewrite normalise_split_lookup, !dict_merge_lookup. unfold layered_settings.
    rewrite (layers_lookup _ _ _ _ _ Hcli (in_scope_split argv)).
    by rewrite (layers_lookup _ _ _ _ _ Hcli Hk).
  - intros w2 Hother Hdiffer. subst s.
    pose proof (load_settings_Ok _ _ _ _ _ Hrun) as (Hstop & Hne & _).
    pose proof (load_settings_Ok_checks _ _ _ _ _ Hrun) as [Hsplit Hdump].
    apply load_settings_returns; try assumption.
    + unfold file_layer, config_source. rewrite Hres.
      rewrite (proj2 Hdiffer) by congruence. exact Hfs.
    + apply Hsplit. unfold file_layer, config_source. rewrite Hres. exact Hfs.
    + intros path Hpath. rewrite <- (Hdump path Hpath).
      apply open_for_writing_kinds. intros p. by eapply differ_in_content_kinds.
Qed.

(** [other.json] is ignored when [/tmp/run] is resumed. *)
Lemma explicit_config_file_ignored_on_resume_witness :
  let argv := [ResumeContestFolder "/tmp/run"; ConfigFile "other.json"] in
  let w := resume_and_file_world in
  let s := value_or ∅ (load_settings sample_config argv w) in
  let w' := snd (load_settings sample_config argv w) in
  Log WARNING MsgIgnoringConfigFile ∈ console w'
  /\ (exists stored,
        fs w !! resume_config_path sample_config "/tmp/run" = Some (File (Some (JObj stored)))
        /\ forall k, in_scope argv k ->
             s !! k = layered_settings (cli_supplied argv) stored (builtin_defaults sample_config) k)
  /\ (forall w2,
        "other.json" <> resume_config_path sample_config "/tmp/run" ->
        differ_in_content "other.json" w w2 ->
        exists w2', load_settings sample_config argv w2 = (Ok s, w2')).
Proof.
  intros argv w s w'.
  apply (explicit_config_file_ignored_on_resume sample_config argv "/tmp/run" "other.json" w s w').
  - reflexivity.
  - reflexivity.
  - apply returns_eta. vm_compute. reflexivity.
Defined.

(** C8 fails as stated: with both options given, a stored [split] of 0 that
    the command line does not override is returned as 1. *)
Lemma resumed_split_zero_not_kept_beside_explicit_file :
  let argv := [ResumeContestFolder "/tmp/run"; ConfigFile "other.json"] in
  cli_supplied argv "split" = None
  /\ match fs resume_zero_and_file_world !! "/tmp/run/config.json" with
     | Some (File (Some (JObj stored))) => stored !! "split" = Some (JInt 0)
     | _ => False
     end
  /\ match load_settings sample_config argv resume_zero_and_file_world with
     | (Ok s, _) => s !! "split" = Some (JInt 1)
     | _ => False
     end.
Proof. vm_compute. repeat split; reflexivity. Qed.

(** ** When [load_settings] returns *)

Lemma set_int_returns o k d : converts o -> exists d', set_int o k d = Ok d'.
Proof.
  intros Hconv. unfold set_int. destruct (Py.given o) as [text |] eqn:Hgiven; [| eauto].
  destruct (Hconv text Hgiven) as [z Hz]. unfold int_or_raise. rewrite Hz. cbn. eauto.
Qed.

Lemma ints_or_raise_returns pieces :
  Forall (fun piece => is_Some (Py.int piece)) pieces ->
  exists seeds, ints_or_raise pieces = Ok seeds.
Proof.
  induction 1 as [| piece pieces [z Hz] _ [seeds IH]]; cbn [ints_or_raise]; [eauto |].
  unfold int_or_raise. rewrite Hz, IH. cbn. eauto.
Qed.

Lemma cli_block_returns a d :
  integer_options_convert a -> exists cli, cli_block a d = Ok cli.
Proof.
  intros (Hfixed & Hrandom & Hsteps & Hseeds). unfold cli_block.
  match goal with
  | |- context [rbind (set_int (no_fixed_layouts a) "no_fixed_layouts" ?d0)] =>
      destruct (set_int_returns (no_fixed_layouts a) "no_fixed_layouts" d0 Hfixed) as [d1 ->]
  end.
  cbn [rbind].
  match goal with
  | |- context [rbind (set_int (no_random_layouts a) "no_random_layouts" ?d0)] =>
      destruct (set_int_returns (no_random_layouts a) "no_random_layouts" d0 Hrandom) as [d2 ->]
  end.
  cbn [rbind].
  assert (Hd3 : exists d3,
             match Py.given (random_layout_seeds a) with
             | Some text =>
                 (seeds <- ints_or_raise (Py.str_split_comma text) ;;
                  Ok (setitem "random_layout_seeds" (JList seeds) d2))%res
             | None => Ok d2
             end = Ok d3).
  { destruct (Py.given (random_layout_seeds a)) as [text |] eqn:Hgiven; [| eauto].
    destruct (ints_or_raise_returns _ (Hseeds text eq_refl)) as [seeds ->]. cbn. eauto. }
  destruct Hd3 as [d3 ->]. cbn [rbind].
  destruct (set_int_returns (max_steps a) "max_steps" d3 Hsteps) as [d4 ->].
  cbn [rbind]. eauto.
Qed.

(** X11.  For a command line that the parser accepts, that is not empty,
    whose integer options convert and that asks for no dump of the options,
    [load_settings] returns exactly when the configuration source (if there
    is one) holds a JSON object and, a resume folder given, a non-zero
    [--split] equals the [split] stored there. *)
Theorem load_settings_returns_exactly_when cfg argv w :
  parse_stop argv = None ->
  argv <> [] ->
  integer_options_convert (namespace argv) ->
  Py.given (build_config_file (namespace argv)) = None ->
  (exists s w', load_settings cfg argv w = (Ok s, w'))
  <-> exists file,
        file_layer cfg (namespace argv) w file
        /\ (is_Some (resume_contest_folder (namespace argv)) ->
            split (namespace argv) <> 0 ->
            exists stored,
              file !! "split" = Some stored
              /\ Py.eq_int stored (split (namespace argv)) = true).
Proof.
  intros Hstop Hne Hconv Hdump. split.
  - intros (s & w' & Hrun).
    pose proof (load_settings_Ok _ _ _ _ _ Hrun) as (_ & _ & file & cli & Hfile & _).
    pose proof (load_settings_Ok_checks _ _ _ _ _ Hrun) as [Hsplit _].
    exists file. split; [exact Hfile |]. by apply Hsplit.
  - intros (file & Hfile & Hsplit).
    destruct (cli_block_returns (namespace argv) (cli_seed (namespace argv)) Hconv)
      as [cli Hcli].
    destruct (load_settings_returns cfg argv w file cli) as [w' Hrun]; try assumption.
    + intros path Hpath. rewrite Hdump in Hpath. discriminate Hpath.
    + eauto.
Qed.

Lemma load_settings_returns_exactly_when_witness :
  let argv := [ConfigFile "c.json"; MaxSteps "900"; RandomLayoutSeeds "1,22"] in
  (exists s w', load_settings sample_config argv (config_world 3) = (Ok s, w'))
  <-> exists file,
        file_layer sample_config (namespace argv) (config_world 3) file
        /\ (is_Some (resume_contest_folder (namespace argv)) ->
            split (namespace argv) <> 0 ->
            exists stored,
              file !! "split" = Some stored
              /\ Py.eq_int stored (split (namespace argv)) = true).
Proof.
  intros argv.
  apply (load_settings_returns_exactly_when sample_config argv (config_world 3)).
  - reflexivity.
  - discriminate.
  - repeat split.
    + intros text [=].
    + intros text [=].
    + intros text [= <-]. by exists 900.
    + intros text [= <-]. change (Forall (fun piece => is_Some (Py.int piece)) ["1"; "22"]).
      repeat constructor; [by exists 1 | by exists 22].
  - reflexivity.
Defined.

(** X16.  Once the parser has accepted the command line, the exit status of
    [load_settings] tells the cause: it exits with status 0 exactly when no
    argument is given, and with status 1 exactly when the configuration is
    at fault (the stored configuration of the resume folder is missing or
    its [split] differs from the non-zero [--split]; or, without a resume
    folder, the file named by [--config-file] is missing).  It exits with no
    other status. *)
Theorem exit_status_tells_the_cause cfg argv w c :
  parse_stop argv = None ->
  (exists w', load_settings cfg argv w = (Exit c, w'))
  <-> (c = 0 /\ argv = [])
      \/ (c = 1 /\ configuration_fault cfg (namespace argv) w).
Proof.
  intros Hstop. split.
  - intros [w' Hrun]. destruct argv as [| x argv].
    + injection Hrun as <- _. by left.
    + right. by apply load_settings_Exit in Hrun.
  - intros [[-> ->] | [-> Hfault]].
    + by eexists.
    + by apply configuration_fault_Exit.
Qed.

Lemma exit_status_tells_the_cause_witness :
  let argv := [ConfigFile "missing.json"; Split "2"] in
  (exists w', load_settings sample_config argv (config_world 3) = (Exit 1, w'))
  <-> (1 = 0 /\ argv = [])
      \/ (1 = 1 /\ configuration_fault sample_config (namespace argv) (config_world 3)).
Proof.
  intros argv.
  apply (exit_status_tells_the_cause sample_config argv (config_world 3) 1).
  reflexivity.
Defined.

(** * Further properties of the top-level block *)

Section MainFurther.

Context (cfg : config) {Runner HtmlGenerator Cluster : Type}.
Context (create_contests : settings -> Prog Cluster (list Runner)).
Context (run_contest_remotely : Runner -> list Host -> json -> bool -> Prog Cluster unit).
Context (store_results : Runner -> Prog Cluster (json * json * json)).
Context (contest_timestamp_id : Runner -> Cluster -> json).
Context (html_generator_new : json -> json -> Prog Cluster HtmlGenerator).
Context (add_run : HtmlGenerator -> json -> json -> json -> json -> Prog Cluster unit).
Context (clean_up : Runner -> Prog Cluster unit).

Local Abbreviation contest_loop :=
  (contest_loop Runner HtmlGenerator Cluster run_contest_remotely store_results
     contest_timestamp_id html_generator_new add_run clean_up).
Local Abbreviation run_contests :=
  (run_contests Runner HtmlGenerator Cluster create_contests run_contest_remotely store_results
     contest_timestamp_id html_generator_new add_run clean_up).
Local Abbreviation main :=
  (main cfg Runner HtmlGenerator Cluster create_contests run_contest_remotely store_results
     contest_timestamp_id html_generator_new add_run clean_up).

(** ** The hosts *)

Lemma machine_eta (m : machine Cluster) : Machine (m_world m) (m_cluster m) (m_trace m) = m.
Proof. by destruct m. Qed.

Lemma make_host_outcome w (m : machine Cluster) :
  match make_host w m with
  | (Ok h, m') =>
      m' = Machine (m_world m) (m_cluster m) (m_trace m ++ [HostConstructed h])
      /\ describes w h
  | (_, m') => m' = m
  end.
Proof.
  unfold make_host, bind, lift_result, describes.
  destruct (Py.getitem w "no_cpu"); [| done | done].
  destruct (Py.getitem w "hostname"); [| done | done].
  destruct (Py.getitem w "username"); [| done | done].
  destruct (Py.getitem w "password"); [| done | done].
  destruct (Py.getitem w "private_key_file"); [| done | done].
  destruct (Py.getitem w "private_key_password"); [| done | done].
  cbn. done.
Qed.

Lemma make_hosts_outcome ws (m : machine Cluster) r m' :
  make_hosts ws m = (r, m') ->
  exists built,
    m' = Machine (m_world m) (m_cluster m) (m_trace m ++ (HostConstructed <$> built))
    /\ Forall2 describes (take (length built) ws) built
    /\ forall hs, r = Ok hs -> built = hs /\ length hs = length ws.
Proof.
  revert m r m'. induction ws as [| w ws IH]; intros m r m' Hrun.
  { injection Hrun as <- <-. exists []. cbn. rewrite app_nil_r, machine_eta.
    split; [done |]. split; [constructor |]. by intros hs [= <-]. }
  cbn [make_hosts] in Hrun. unfold bind in Hrun.
  pose proof (make_host_outcome w m) as Hw.
  destruct (make_host w m) as [[h | c | e] m1].
  - destruct Hw as [-> Hd].
    destruct (make_hosts ws _) as [r2 m2] eqn:Hrest.
    destruct (IH _ _ _ Hrest) as (built & -> & Hdesc & Hfst).
    exists (h :: built). cbn [m_world m_cluster m_trace].
    assert (Hm' : m' = Machine (m_world m) (m_cluster m)
                         (m_trace m ++ (HostConstructed <$> h :: built))).
    { destruct r2; injection Hrun as <- <-; cbn; by rewrite <- app_assoc. }
    split; [exact Hm' |]. split; [by constructor |].
    intros hs ->. destruct r2 as [hs2 | |]; [| discriminate | discriminate].
    injection Hrun as <- _. destruct (Hfst hs2 eq_refl) as [-> Hlen].
    split; [done |]. cbn. by rewrite Hlen.
  - subst m1. injection Hrun as <- <-. exists []. cbn. rewrite app_nil_r, machine_eta.
    split; [done |]. split; [constructor | discriminate].
  - subst m1. injection Hrun as <- <-. exists []. cbn. rewrite app_nil_r, machine_eta.
    split; [done |]. split; [constructor | discriminate].
Qed.

Lemma load_hosts_outcome s (m : machine Cluster) r m' :
  load_hosts s m = (r, m') ->
  exists built,
    m_trace m' = m_trace m ++ (HostConstructed <$> built)
    /\ m_cluster m' = m_cluster m
    /\ forall hs, r = Ok hs -> built = hs.
Proof.
  assert (Hstop : forall (r0 : result (list Host)) (m0 : machine Cluster),
             m_trace m0 = m_trace m -> m_cluster m0 = m_cluster m ->
             (forall hs, r0 <> Ok hs) ->
             (r0, m0) = (r, m') ->
             exists built,
               m_trace m' = m_trace m ++ (HostConstructed <$> built)
               /\ m_cluster m' = m_cluster m
               /\ forall hs, r = Ok hs -> built = hs).
  { intros r0 m0 Ht Hc Hr [= <- <-]. exists []. cbn. rewrite app_nil_r.
    split; [done |]. split; [done |]. intros hs ->. by destruct (Hr hs). }
  unfold load_hosts. unfold bind at 1, lift_result at 1.
  destruct (dict_getitem s "workers_file") as [name | c | e];
    [| by apply Hstop | by apply Hstop].
  unfold bind at 1. unfold on_world at 1.
  destruct (open_json name (m_world m)) as [[roster | c | e] w1];
    [| by apply Hstop | by apply Hstop].
  unfold bind at 1, lift_result at 1.
  destruct (Py.getitem roster "workers") as [details | c | e];
    [| by apply Hstop | by apply Hstop].
  unfold bind at 1. unfold on_world at 1. cbn [logging_info emit m_world m_cluster m_trace].
  unfold bind at 1, lift_result at 1.
  destruct (json_iter details) as [ws | c | e];
    [| by apply Hstop | by apply Hstop].
  intros Hrun. destruct (make_hosts_outcome _ _ _ _ Hrun) as (built & -> & _ & Hfst).
  exists built. cbn. split; [done |]. split; [done |].
  intros hs Hhs. by destruct (Hfst hs Hhs).
Qed.

(** ** What the contests are handed *)

Lemma contests_phase_snoc s hs t e :
  contests_phase s hs t -> handed_over s hs e -> contests_phase s hs (t ++ [e]).
Proof.
  intros (rest & -> & Hrest) He. exists (rest ++ [e]).
  split; [by rewrite app_assoc |]. apply Forall_app. split; [done | by constructor].
Qed.

Lemma thoare_lift_result_value {A} (T : list event -> Prop) (r : result A) I :
  (forall t, T t -> I t) ->
  thoare (Cluster := Cluster) T (lift_result r) (fun a t => T t /\ r = Ok a) I.
Proof. intros H m Hm. unfold lift_result. destruct r; cbn; auto. Qed.

Lemma contest_loop_handed s hs resume runners :
  s !! "resume_contest_folder" = Some resume ->
  forall i first,
    first = bool_decide (i = 0%nat) ->
    thoare (contests_phase s hs)
      (contest_loop (delete "resume_contest_folder" s) hs resume i first runners)
      (fun _ => contests_phase s hs) (contests_phase s hs).
Proof.
  intros Hresume. induction runners as [| runner rest IH]; intros i first Hfirst.
  { rewrite contest_loop_nil. apply thoare_ret. }
  rewrite contest_loop_cons.
  pose (T := contests_phase s hs).
  pose (W := fun www t => T t /\ dict_getitem (delete "resume_contest_folder" s) "www_dir" = Ok www).
  pose (O := fun www org t =>
               W www t /\ dict_getitem (delete "resume_contest_folder" s) "organizer" = Ok org).
  assert (Hstep : forall e, handed_over s hs e -> forall t, T t -> T (t ++ [e])).
  { intros e He t Ht. by apply contests_phase_snoc. }
  assert (Hget : forall k v, k <> "resume_contest_folder" ->
                   dict_getitem (delete "resume_contest_folder" s) k = Ok v -> s !! k = Some v).
  { intros k v Hk. unfold dict_getitem. rewrite lookup_delete_ne by done.
    destruct (s !! k); [by intros [= ->] | discriminate]. }
  eapply thoare_bind; [apply (thoare_record _ T), Hstep; by cbn | intros ?].
  eapply thoare_bind; [by apply thoare_on_cluster | intros ?].
  eapply thoare_bind; [apply (thoare_record _ T), Hstep; by cbn | intros ?].
  eapply thoare_bind; [apply (thoare_record _ T), Hstep; by cbn | intros ?].
  eapply thoare_bind; [by apply thoare_on_cluster | intros [[stats replays] logs]].
  eapply thoare_bind; [apply (thoare_record _ T), Hstep; by cbn | intros ?].
  eapply thoare_bind; [by apply thoare_lift_result_value | intros www].
  eapply thoare_bind; [apply (thoare_lift_result_value (W www)); by intros t [] | intros org].
  eapply thoare_bind; [apply thoare_on_cluster; by intros t [[] ?] | intros html].
  eapply thoare_bind; [apply (thoare_record _ T) | intros ?].
  { intros t [[Ht Hwww] Horg]. apply Hstep; [| done]. cbn. split; by apply Hget. }
  eapply thoare_bind; [apply thoare_read_cluster | intros run_id].
  eapply thoare_bind; [apply (thoare_record _ T), Hstep; by cbn | intros ?].
  eapply thoare_bind; [apply (thoare_record _ T), Hstep; by cbn | intros ?].
  eapply thoare_bind; [by apply thoare_on_cluster | intros ?].
  eapply thoare_bind; [apply (thoare_record _ T), Hstep; by cbn | intros ?].
  eapply thoare_bind; [by apply thoare_on_world | intros ?].
  eapply thoare_bind; [apply (thoare_record _ T), Hstep; by cbn | intros ?].
  eapply thoare_bind; [by apply thoare_on_cluster | intros ?].
  eapply thoare_bind; [apply (thoare_record _ T), Hstep; by cbn | intros ?].
  by apply IH.
Qed.

Lemma run_contests_handed s hs :
  thoare (contests_phase s hs) (run_contests s hs)
    (fun _ => contests_phase s hs) (contests_phase s hs).
Proof.
  rewrite run_contests_eq.
  eapply thoare_bind; [by apply thoare_lift_result_value | intros resume].
  eapply thoare_bind; [apply thoare_on_world; by intros t [] | intros ?].
  apply (hoare_bind _ _ _ (fun _ m => contests_phase s hs (m_trace m)
                                      /\ s !! "resume_contest_folder" = Some resume)).
  { intros m [Hm Hres]. cbn. split.
    - apply contests_phase_snoc; [done | by cbn].
    - unfold dict_getitem in Hres. destruct (s !! "resume_contest_folder"); [| discriminate].
      by injection Hres as ->. }
  intros ? m [Hm Hres].
  pose proof (hoare_bind (fun m => contests_phase s hs (m_trace m))
                (on_cluster (create_contests (delete "resume_contest_folder" s)))
                (fun runners =>
                   contest_loop (delete "resume_contest_folder" s) hs resume 0 true runners)
                (fun _ m => contests_phase s hs (m_trace m))
                (fun _ m => contests_phase s hs (m_trace m))
                (fun m => contests_phase s hs (m_trace m))) as H.
  apply H; [| | exact Hm].
  - by apply thoare_on_cluster.
  - intros runners. by apply contest_loop_handed.
Qed.

(** X17.  In every run of the script in which [load_settings] returns [s], the
    trace is the construction of the hosts followed by events in which no
    further host is built, [MultiContest] is given [s] without its
    [resume_contest_folder], every [run_contest_remotely] is given all the
    hosts built and the [resume_contest_folder] of [s] and is told it is the
    first exactly when it is, and every [HtmlGenerator] is given the
    [www_dir] and the [organizer] of [s]. *)
Theorem contests_are_handed_the_loaded_settings argv m r m' s w1 :
  m_trace m = [] ->
  main argv m = (r, m') ->
  load_settings cfg argv (m_world m) = (Ok s, w1) ->
  exists hs rest,
    m_trace m' = (HostConstructed <$> hs) ++ rest /\ Forall (handed_over s hs) rest.
Proof.
  intros Hm Hrun Hload. rewrite main_eq in Hrun.
  rewrite (bind_step _ _ _ s (Machine w1 (m_cluster m) (m_trace m))) in Hrun
    by (unfold on_world; by rewrite Hload).
  unfold bind in Hrun.
  destruct (load_hosts s _) as [r1 m1] eqn:Hhosts.
  destruct (load_hosts_outcome _ _ _ _ Hhosts) as (built & Ht & _ & Hbuilt).
  cbn [m_trace] in Ht. rewrite Hm in Ht. cbn [app] in Ht.
  destruct r1 as [hs | c | e].
  - pose proof (Hbuilt hs eq_refl) as ->. exists hs.
    pose proof (run_contests_handed s hs m1) as H. cbn beta in H.
    rewrite Hrun in H. change (contests_phase s hs (m_trace m')).
    destruct r; apply H; exists []; by rewrite app_nil_r.
  - injection Hrun as <- <-. exists built, []. by rewrite app_nil_r.
  - injection Hrun as <- <-. exists built, []. by rewrite app_nil_r.
Qed.

(** ** Settings without a key the block indexes *)

Lemma contest_loop_without_www_dir s hosts resume i first runner rest
  (m : machine Cluster) r m' :
  s !! "www_dir" = None ->
  contest_loop s hosts resume i first (runner :: rest) m = (r, m') ->
  exists tail,
    m_trace m' = m_trace m ++ RunRemotelyCalled i hosts resume first :: tail
    /\ (tail = [] \/ tail = [RunRemotelyReturned i; StoreResultsCalled i]
        \/ exists stats replays logs,
             tail = [RunRemotelyReturned i; StoreResultsCalled i;
                     StoreResultsReturned i stats replays logs]
             /\ r = Raise (KeyError "www_dir")).
Proof.
  intros Hwww. rewrite contest_loop_cons.
  unfold bind at 1. cbn [record m_world m_cluster m_trace].
  unfold bind at 1. unfold on_cluster at 1. cbn [m_world m_cluster m_trace].
  destruct (run_contest_remotely runner hosts resume first (m_cluster m)) as [[[] | c | e] c1];
    [| intros [= <- <-]; exists []; cbn; by auto | intros [= <- <-]; exists []; cbn; by auto].
  unfold bind at 1. cbn [record m_world m_cluster m_trace].
  unfold bind at 1. cbn [record m_world m_cluster m_trace].
  unfold bind at 1. unfold on_cluster at 1. cbn [m_world m_cluster m_trace].
  destruct (store_results runner c1) as [[[[stats replays] logs] | c | e] c2];
    [| intros [= <- <-]; eexists; cbn; rewrite <- !app_assoc; cbn; by eauto
     | intros [= <- <-]; eexists; cbn; rewrite <- !app_assoc; cbn; by eauto].
  unfold bind at 1. cbn [record m_world m_cluster m_trace].
  unfold bind at 1. unfold lift_result at 1, dict_getitem at 1. rewrite Hwww.
  intros [= <- <-]. eexists. cbn. rewrite <- !app_assoc. cbn. split; [done |].
  right. right. by eauto.
Qed.

Lemma hosts_before_first_archive (hs : list Host) e :
  e ∈ (HostConstructed <$> hs) ->
  past_first_archive e = false /\ forall i a b c, e <> StoreResultsReturned i a b c.
Proof. intros (h & -> & _)%list_elem_of_fmap. done. Qed.

(** X18.  When the settings [load_settings] returns have no [www_dir], no run
    of the script makes a report, cleans up or starts a second contest; and
    a run in which [store_results] has returned ends in [KeyError] on
    [www_dir]. *)
Theorem missing_www_dir_stops_after_first_archive argv m r m' s w1 :
  m_trace m = [] ->
  main argv m = (r, m') ->
  load_settings cfg argv (m_world m) = (Ok s, w1) ->
  s !! "www_dir" = None ->
  (forall e, e ∈ m_trace m' -> past_first_archive e = false)
  /\ (forall i stats replays logs,
        StoreResultsReturned i stats replays logs ∈ m_trace m' ->
        r = Raise (KeyError "www_dir")).
Proof.
  intros Hm Hrun Hload Hwww. rewrite main_eq in Hrun.
  rewrite (bind_step _ _ _ s (Machine w1 (m_cluster m) (m_trace m))) in Hrun
    by (unfold on_world; by rewrite Hload).
  unfold bind at 1 in Hrun.
  destruct (load_hosts s _) as [r1 m1] eqn:Hhosts.
  destruct (load_hosts_outcome _ _ _ _ Hhosts) as (built & Ht & _ & _).
  cbn [m_trace] in Ht. rewrite Hm in Ht. cbn [app] in Ht.
  assert (Hhosts_only : forall r0 : result unit,
            (forall e, e ∈ m_trace m1 -> past_first_archive e = false)
            /\ (forall i stats replays logs,
                  StoreResultsReturned i stats replays logs ∈ m_trace m1 ->
                  r0 = Raise (KeyError "www_dir"))).
  { intros r0. rewrite Ht. split.
    - intros e He. by apply (hosts_before_first_archive built).
    - intros i a b c He. by destruct (proj2 (hosts_before_first_archive built _ He) i a b c). }
  destruct r1 as [hs | c | e];
    [| injection Hrun as <- <-; apply Hhosts_only | injection Hrun as <- <-; apply Hhosts_only].
  rewrite run_contests_eq in Hrun.
  unfold bind at 1, lift_result at 1 in Hrun.
  destruct (dict_getitem s "resume_contest_folder") as [resume | c | e];
    [| injection Hrun as <- <-; apply Hhosts_only | injection Hrun as <- <-; apply Hhosts_only].
  unfold bind at 1 in Hrun. unfold on_world at 1 in Hrun.
  cbn [logging_info emit m_world m_cluster m_trace] in Hrun.
  unfold bind at 1 in Hrun. cbn [record m_world m_cluster m_trace] in Hrun.
  unfold bind at 1 in Hrun. unfold on_cluster at 1 in Hrun.
  cbn [m_world m_cluster m_trace] in Hrun.
  assert (Hmulti : forall e,
            e ∈ m_trace m1 ++ [MultiContestConstructed (delete "resume_contest_folder" s)] ->
            past_first_archive e = false /\ forall i a b c, e <> StoreResultsReturned i a b c).
  { intros e [He | ->%list_elem_of_singleton]%elem_of_app; [| done].
    rewrite Ht in He. by apply (hosts_before_first_archive built). }
  destruct (create_contests _ (m_cluster m1)) as [[runners | c | e] c1].
  - destruct runners as [| runner rest].
    + rewrite contest_loop_nil in Hrun. injection Hrun as <- <-. cbn [m_trace]. split.
      * intros e He. by apply Hmulti.
      * intros i a b c He. by destruct (proj2 (Hmulti _ He) i a b c).
    + assert (Hwww' : delete "resume_contest_folder" s !! "www_dir" = None)
        by (by rewrite lookup_delete_ne).
      destruct (contest_loop_without_www_dir _ _ _ _ _ _ _ _ _ _ Hwww' Hrun)
        as (tail & -> & Htail).
      cbn [m_trace]. split.
      * intros e [He | He]%elem_of_app; [by apply Hmulti |].
        destruct Htail as [-> | [-> | (a & b & c & -> & _)]];
          repeat (apply elem_of_cons in He as [-> | He]; [done |]);
          by apply elem_of_nil in He.
      * intros i a b c [He | He]%elem_of_app;
          [by destruct (proj2 (Hmulti _ He) i a b c) |].
        destruct Htail as [-> | [-> | (a' & b' & c' & -> & ->)]]; [| | done];
          repeat (apply elem_of_cons in He as [[=] | He]);
          by apply elem_of_nil in He.
  - injection Hrun as <- <-. cbn [m_trace]. split.
    + intros e' He. by apply Hmulti.
    + intros i a b c' He. by destruct (proj2 (Hmulti _ He) i a b c').
  - injection Hrun as <- <-. cbn [m_trace]. split.
    + intros e' He. by apply Hmulti.
    + intros i a b c He. by destruct (proj2 (Hmulti _ He) i a b c).
Qed.

(** X19.  When the settings [load_settings] returns have no [workers_file],
    the script raises [KeyError] on it at once: nothing is logged after
    [load_settings], no host is built and no collaborator is called. *)
Theorem missing_workers_file_raises_key_error argv m s w1 :
  load_settings cfg argv (m_world m) = (Ok s, w1) ->
  s !! "workers_file" = None ->
  main argv m = (Raise (KeyError "workers_file"), Machine w1 (m_cluster m) (m_trace m)).
Proof.
  intros Hload Hnone. rewrite main_eq.
  rewrite (bind_step _ _ _ s (Machine w1 (m_cluster m) (m_trace m)))
    by (unfold on_world; by rewrite Hload).
  unfold load_hosts, bind, lift_result, dict_getitem. by rewrite Hnone.
Qed.

(** ** Rosters the block cannot use *)

Lemma make_host_missing_key d key (m : machine Cluster) :
  first_missing_key d = Some key ->
  make_host (JObj d) m = (Raise (KeyError key), m).
Proof.
  unfold first_missing_key, descriptor_keys. cbn [List.find].
  unfold make_host, bind, lift_result. cbn [Py.getitem].
  destruct (d !! "no_cpu"); [| by intros [= <-]].
  destruct (d !! "hostname"); [| by intros [= <-]].
  destruct (d !! "username"); [| by intros [= <-]].
  destruct (d !! "password"); [| by intros [= <-]].
  destruct (d !! "private_key_file"); [| by intros [= <-]].
  destruct (d !! "private_key_password"); [| by intros [= <-]].
  discriminate.
Qed.

Lemma first_missing_key_spec d key :
  first_missing_key d = Some key -> key ∈ descriptor_keys /\ d !! key = None.
Proof.
  unfold first_missing_key, descriptor_keys. cbn [List.find].
  destruct (d !! "no_cpu") eqn:H1; [| intros [= <-]; split; [set_solver | done]].
  destruct (d !! "hostname") eqn:H2; [| intros [= <-]; split; [set_solver | done]].
  destruct (d !! "username") eqn:H3; [| intros [= <-]; split; [set_solver | done]].
  destruct (d !! "password") eqn:H4; [| intros [= <-]; split; [set_solver | done]].
  destruct (d !! "private_key_file") eqn:H5; [| intros [= <-]; split; [set_solver | done]].
  destruct (d !! "private_key_password") eqn:H6; [| intros [= <-]; split; [set_solver | done]].
  discriminate.
Qed.

Lemma make_hosts_stops ws1 w ws2 e (m : machine Cluster) :
  Forall complete_descriptor ws1 ->
  (forall m0 : machine Cluster, make_host w m0 = (Raise e, m0)) ->
  exists hs,
    make_hosts (ws1 ++ w :: ws2) m
    = (Raise e, Machine (m_world m) (m_cluster m) (m_trace m ++ (HostConstructed <$> hs)))
    /\ Forall2 describes ws1 hs.
Proof.
  intros Hws Hw. revert m. induction Hws as [| w1 ws1 Hw1 _ IH]; intros m.
  - exists []. split; [| constructor]. cbn [app make_hosts]. unfold bind. rewrite Hw.
    cbn. by rewrite app_nil_r, machine_eta.
  - destruct (make_host_complete w1 m Hw1) as (h & Hh & Hd).
    destruct (IH (Machine (m_world m) (m_cluster m) (m_trace m ++ [HostConstructed h])))
      as (hs & Hhs & Hds).
    exists (h :: hs). split; [| by constructor].
    cbn [app make_hosts]. rewrite (bind_step _ _ _ _ _ Hh). unfold bind. rewrite Hhs.
    cbn. by rewrite <- app_assoc.
Qed.

Lemma main_with_roster argv m s w1 path roster details ws :
  load_settings cfg argv (m_world m) = (Ok s, w1) ->
  s !! "workers_file" = Some (JStr path) ->
  fs w1 !! path = Some (File (Some roster)) ->
  Py.getitem roster "workers" = Ok details ->
  json_iter details = Ok ws ->
  main argv m
  = (hosts <- make_hosts ws ;; run_contests s hosts)
      (Machine (World (fs w1) (console w1 ++ [Log INFO (MsgHostWorkers details)]))
         (m_cluster m) (m_trace m)).
Proof.
  intros Hload Hname Hfile Hworkers Hiter. rewrite main_eq.
  rewrite (bind_step _ _ _ s (Machine w1 (m_cluster m) (m_trace m)))
    by (unfold on_world; by rewrite Hload).
  unfold load_hosts, bind, lift_result, dict_getitem. rewrite Hname.
  unfold on_world, open_json, json_load. cbn [m_world]. rewrite Hfile, Hworkers.
  cbn. by rewrite Hiter.
Qed.

(** X20.  When the descriptors of the roster before some descriptor carry the
    six keys and that descriptor lacks one, the script raises [KeyError] on
    the first key it lacks (in the order [no_cpu], [hostname], [username],
    [password], [private_key_file], [private_key_password]), having built
    the hosts of the descriptors before it and nothing else: no contest is
    created and the cluster is untouched. *)
Theorem incomplete_descriptor_stops_the_script argv m s w1 path roster ws1 d ws2 key :
  m_trace m = [] ->
  load_settings cfg argv (m_world m) = (Ok s, w1) ->
  s !! "workers_file" = Some (JStr path) ->
  fs w1 !! path = Some (File (Some roster)) ->
  Py.getitem roster "workers" = Ok (JList (ws1 ++ JObj d :: ws2)) ->
  Forall complete_descriptor ws1 ->
  first_missing_key d = Some key ->
  exists hs,
    main argv m
    = (Raise (KeyError key),
       Machine (World (fs w1)
                  (console w1 ++ [Log INFO (MsgHostWorkers (JList (ws1 ++ JObj d :: ws2)))]))
         (m_cluster m) (HostConstructed <$> hs))
    /\ Forall2 describes ws1 hs
    /\ d !! key = None.
Proof.
  intros Hm Hload Hname Hfile Hworkers Hws Hkey.
  rewrite (main_with_roster _ _ _ _ _ _ _ _ Hload Hname Hfile Hworkers eq_refl).
  destruct (make_hosts_stops ws1 (JObj d) ws2 (KeyError key)
              (Machine (World (fs w1)
                          (console w1
                           ++ [Log INFO (MsgHostWorkers (JList (ws1 ++ JObj d :: ws2)))]))
                 (m_cluster m) (m_trace m)) Hws)
    as (hs & Hhs & Hds).
  { intros m0. by apply make_host_missing_key. }
  exists hs. split; [| split; [exact Hds | by apply first_missing_key_spec]].
  unfold bind. rewrite Hhs. cbn. by rewrite Hm.
Qed.

(** X21.  A roster whose ["workers"] is not a list, and neither an empty
    object nor an empty string, makes the script raise [TypeError] once
    the workers' details are logged: no host is built and no collaborator
    is called. *)
Theorem workers_must_be_a_list argv m s w1 path roster details :
  load_settings cfg argv (m_world m) = (Ok s, w1) ->
  s !! "workers_file" = Some (JStr path) ->
  fs w1 !! path = Some (File (Some roster)) ->
  Py.getitem roster "workers" = Ok details ->
  (forall ws, details <> JList ws) ->
  details <> JObj ∅ ->
  details <> JStr EmptyString ->
  main argv m
  = (Raise TypeError,
     Machine (World (fs w1) (console w1 ++ [Log INFO (MsgHostWorkers details)]))
       (m_cluster m) (m_trace m)).
Proof.
  intros Hload Hname Hfile Hworkers Hlist Hobj Hstr.
  assert (Hfirst : forall k rest (m0 : machine Cluster),
            (hosts <- make_hosts (JStr k :: rest) ;; run_contests s hosts) m0
            = (Raise TypeError, m0)).
  { intros k rest m0. reflexivity. }
  destruct details as [| b | z | text | ws | d].
  - rewrite main_eq.
    rewrite (bind_step _ _ _ s (Machine w1 (m_cluster m) (m_trace m)))
      by (unfold on_world; by rewrite Hload).
    unfold load_hosts, bind, lift_result, dict_getitem. rewrite Hname.
    unfold on_world, open_json, json_load. cbn [m_world]. by rewrite Hfile, Hworkers.
  - rewrite main_eq.
    rewrite (bind_step _ _ _ s (Machine w1 (m_cluster m) (m_trace m)))
      by (unfold on_world; by rewrite Hload).
    unfold load_hosts, bind, lift_result, dict_getitem. rewrite Hname.
    unfold on_world, open_json, json_load. cbn [m_world]. by rewrite Hfile, Hworkers.
  - rewrite main_eq.
    rewrite (bind_step _ _ _ s (Machine w1 (m_cluster m) (m_trace m)))
      by (unfold on_world; by rewrite Hload).
    unfold load_hosts, bind, lift_result, dict_getitem. rewrite Hname.
    unfold on_world, open_json, json_load. cbn [m_world]. by rewrite Hfile, Hworkers.
  - destruct text as [| c text]; [done |].
    rewrite (main_with_roster _ _ _ _ _ _ _ _ Hload Hname Hfile Hworkers eq_refl).
    apply Hfirst.
  - by destruct (Hlist ws).
  - destruct (map_to_list d) as [| [k v] rest] eqn:Hd.
    { apply map_to_list_empty_iff in Hd as ->. done. }
    rewrite (main_with_roster _ _ _ _ _ _ _
               (JStr <$> (k :: rest.*1)) Hload Hname Hfile Hworkers)
      by (cbn [json_iter]; by rewrite Hd).
    apply Hfirst.
Qed.

End MainFurther.

(** ** The further properties on the sample collaborators *)

Lemma contests_are_handed_the_loaded_settings_witness :
  let argv := [ConfigFile "c.json"] in
  let m := Sample.start (roster_world complete_worker) in
  let s := value_or ∅ (load_settings sample_config argv (m_world m)) in
  exists hs rest,
    m_trace (snd (Sample.main argv m)) = (HostConstructed <$> hs) ++ rest
    /\ Forall (handed_over s hs) rest.
Proof.
  intros argv m s.
  apply (contests_are_handed_the_loaded_settings sample_config Sample.create_contests
           Sample.run_contest_remotely Sample.store_results Sample.contest_timestamp_id
           Sample.html_generator_new Sample.add_run Sample.clean_up
           argv m (fst (Sample.main argv m)) (snd (Sample.main argv m)) s
           (snd (load_settings sample_config argv (m_world m)))).
  - reflexivity.
  - apply surjective_pairing.
  - apply returns_eta. vm_compute. reflexivity.
Defined.

Lemma missing_www_dir_stops_after_first_archive_witness :
  let argv := [ConfigFile "c.json"] in
  let m := Sample.start (site_world roster_only (JList [complete_worker])) in
  let run := Sample.main argv m in
  (forall e, e ∈ m_trace (snd run) -> past_first_archive e = false)
  /\ (forall i stats replays logs,
        StoreResultsReturned i stats replays logs ∈ m_trace (snd run) ->
        fst run = Raise (KeyError "www_dir")).
Proof.
  intros argv m run.
  apply (missing_www_dir_stops_after_first_archive sample_config Sample.create_contests
           Sample.run_contest_remotely Sample.store_results Sample.contest_timestamp_id
           Sample.html_generator_new Sample.add_run Sample.clean_up
           argv m (fst run) (snd run)
           (value_or ∅ (load_settings sample_config argv (m_world m)))
           (snd (load_settings sample_config argv (m_world m)))).
  - reflexivity.
  - apply surjective_pairing.
  - apply returns_eta. vm_compute. reflexivity.
  - vm_compute. reflexivity.
Defined.

Lemma missing_workers_file_raises_key_error_witness :
  let argv := [ConfigFile "c.json"] in
  let m := Sample.start (config_world 3) in
  Sample.main argv m
  = (Raise (KeyError "workers_file"),
     Machine (snd (load_settings sample_config argv (m_world m))) (m_cluster m) (m_trace m)).
Proof.
  intros argv m.
  apply (missing_workers_file_raises_key_error sample_config Sample.create_contests
           Sample.run_contest_remotely Sample.store_results Sample.contest_timestamp_id
           Sample.html_generator_new Sample.add_run Sample.clean_up
           argv m (value_or ∅ (load_settings sample_config argv (m_world m)))).
  - apply returns_eta. vm_compute. reflexivity.
  - vm_compute. reflexivity.
Defined.

Lemma incomplete_descriptor_stops_the_script_witness :
  let argv := [ConfigFile "c.json"] in
  let workers := JList [complete_worker; password_only_worker; complete_worker] in
  let m := Sample.start (site_world roster_and_www workers) in
  let w1 := snd (load_settings sample_config argv (m_world m)) in
  exists hs,
    Sample.main argv m
    = (Raise (KeyError "private_key_file"),
       Machine (World (fs w1) (console w1 ++ [Log INFO (MsgHostWorkers workers)]))
         (m_cluster m) (HostConstructed <$> hs))
    /\ Forall2 describes [complete_worker] hs
    /\ dict [("hostname", JStr "node1"); ("username", JStr "pacman");
             ("password", JStr "secret"); ("no_cpu", JInt 4)] !! "private_key_file" = None.
Proof.
  intros argv workers m w1.
  apply (incomplete_descriptor_stops_the_script sample_config Sample.create_contests
           Sample.run_contest_remotely Sample.store_results Sample.contest_timestamp_id
           Sample.html_generator_new Sample.add_run Sample.clean_up
           argv m (value_or ∅ (load_settings sample_config argv (m_world m))) w1
           "workers.json" (JObj (dict [("workers", workers)]))
           [complete_worker]
           (dict [("hostname", JStr "node1"); ("username", JStr "pacman");
                  ("password", JStr "secret"); ("no_cpu", JInt 4)])
           [complete_worker] "private_key_file").
  - reflexivity.
  - apply returns_eta. vm_compute. reflexivity.
  - vm_compute. reflexivity.
  - reflexivity.
  - reflexivity.
  - constructor; [apply complete_worker_complete | constructor].
  - vm_compute. reflexivity.
Defined.

Lemma workers_must_be_a_list_witness :
  let argv := [ConfigFile "c.json"] in
  let workers := JStr "node1" in
  let m := Sample.start (site_world roster_and_www workers) in
  let w1 := snd (load_settings sample_config argv (m_world m)) in
  Sample.main argv m
  = (Raise TypeError,
     Machine (World (fs w1) (console w1 ++ [Log INFO (MsgHostWorkers workers)]))
       (m_cluster m) (m_trace m)).
Proof.
  intros argv workers m w1.
  apply (workers_must_be_a_list sample_config Sample.create_contests
           Sample.run_contest_remotely Sample.store_results Sample.contest_timestamp_id
           Sample.html_generator_new Sample.add_run Sample.clean_up
           argv m (value_or ∅ (load_settings sample_config argv (m_world m))) w1
           "workers.json" (JObj (dict [("workers", workers)])) workers).
  - apply returns_eta. vm_compute. reflexivity.
  - vm_compute. reflexivity.
  - reflexivity.
  - reflexivity.
  - discriminate.
  - discriminate.
  - discriminate.
Defined.
